(** * CompressIt (script.js): session state, compression orchestration
      and derived display metrics

    A shallow embedding of [src/script.js].  JavaScript numbers are IEEE 754
    binary64 values ([spec_float] at precision 53), DOM values are strings,
    the global [state] and [elements] objects are records threaded through
    every handler, and the asynchronous platform services (timers,
    [FileReader], image decoding, [canvas.toBlob]) are queues in the world
    that the event loop drains one event at a time. *)

From Stdlib Require Import ZArith List String Ascii Bool Lia SpecFloat.
From Stdlib Require Import DecimalString DecimalN.
Import ListNotations.

Local Open Scope string_scope.
Local Open Scope Z_scope.

(** ** JavaScript numbers *)

Module JS.

Definition number := spec_float.

Definition prec : Z := 53.
Definition emax : Z := 1024.

Definition nan : number := S754_nan.

(** The Number nearest to an integer (ties to even), as WebIDL and
    numeric literals produce it. *)
Definition of_Z (z : Z) : number := binary_normalize prec emax z 0 false.

(** The Number nearest to the positive rational [p / q]. *)
Definition of_ratio (p q : positive) : number :=
  SFdiv prec emax (S754_finite false p 0) (S754_finite false q 0).

(** The Number nearest to [c * 10 ^ p], for [c >= 0]. *)
Definition of_decimal (c : Z) (p : Z) : number :=
  match c with
  | Zpos m =>
      if 0 <=? p then of_Z (c * 10 ^ p)
      else of_ratio m (Z.to_pos (10 ^ (- p)))
  | _ => S754_zero false
  end.

Definition sub : number -> number -> number := SFsub prec emax.
Definition mul : number -> number -> number := SFmul prec emax.
Definition div : number -> number -> number := SFdiv prec emax.

(** [x === y] on numbers, and [x >= y]. *)
Definition strict_eq (x y : number) : bool := SFeqb x y.
Definition ge (x y : number) : bool := SFleb y x.

(** ToBoolean on numbers: [NaN], [+0] and [-0] are falsy. *)
Definition truthy (x : number) : bool :=
  match x with
  | S754_nan | S754_zero _ => false
  | _ => true
  end.

(** [x || y] on numbers. *)
Definition or_else (x y : number) : number := if truthy x then x else y.

(** The mathematical integer held by a Number, when it holds one. *)
Definition to_Z (x : number) : option Z :=
  match x with
  | S754_zero _ => Some 0
  | S754_finite s m e =>
      if 0 <=? e then Some (cond_Zopp s (Zpos m * 2 ^ e))
      else if Zpos m mod 2 ^ (- e) =? 0
           then Some (cond_Zopp s (Zpos m / 2 ^ (- e)))
           else None
  | _ => None
  end.

(** [Math.round]: nearest integer, ties toward +Infinity; a result of zero
    keeps the sign of the argument. *)
Definition Math_round (x : number) : number :=
  match x with
  | S754_finite s m e =>
      if 0 <=? e then x
      else
        let v := cond_Zopp s (Zpos m) in
        let r := (2 * v + 2 ^ (- e)) / 2 ^ (1 - e) in
        if r =? 0 then S754_zero s else of_Z r
  | _ => x
  end.

(** [Math.floor]. *)
Definition Math_floor (x : number) : number :=
  match x with
  | S754_finite s m e =>
      if 0 <=? e then x
      else
        let r := cond_Zopp s (Zpos m) / 2 ^ (- e) in
        if r =? 0 then S754_zero false else of_Z r
  | _ => x
  end.

Definition Math_abs (x : number) : number := SFabs x.

(** ** Strings of digits *)

(** Decimal digits of a non-negative integer, ["0"] for zero. *)
Definition digits (z : Z) : string :=
  NilZero.string_of_uint (N.to_uint (Z.to_N z)).

(** [n] zeros. *)
Fixpoint zeros (n : nat) : string :=
  match n with
  | O => ""
  | S n' => String "0" (zeros n')
  end.

(** The value of [c] as a digit in [radix]: [0-9], then [a-z] or [A-Z]
    from ten on. *)
Definition digit_value (radix : Z) (c : ascii) : option Z :=
  let n := Z.of_N (N_of_ascii c) in
  let v :=
    if (48 <=? n) && (n <=? 57) then n - 48
    else if (97 <=? n) && (n <=? 122) then n - 87
    else if (65 <=? n) && (n <=? 90) then n - 55
    else radix in
  if v <? radix then Some v else None.

(** The longest prefix of [s] made of digits in [radix]: its value, and
    the rest of the string; [None] when that prefix is empty. *)
Fixpoint read_digits (radix : Z) (s : string) (acc : option Z)
  : option Z * string :=
  match s with
  | String c r =>
      match digit_value radix c with
      | Some d =>
          read_digits radix r
            (Some (match acc with Some a => a * radix + d | None => d end))
      | None => (acc, s)
      end
  | EmptyString => (acc, s)
  end.

(** A string of this model holds the UTF-8 bytes of the JavaScript
    string it stands for, as a string literal of this file does.  The
    white space and line terminators [parseInt] and [parseFloat] skip
    take one, two or three bytes. *)

(** Those of one byte: TAB, LF, VT, FF, CR and SP. *)
Definition is_white_space (c : ascii) : bool :=
  let n := N_of_ascii c in
  ((9 <=? n) && (n <=? 13) || (n =? 32))%N.

(** The one of two bytes: U+00A0, the bytes C2 A0. *)
Definition is_white_space_2 (c d : ascii) : bool :=
  ((N_of_ascii c =? 194) && (N_of_ascii d =? 160))%N.

(** Those of three bytes: U+1680 (E1 9A 80), U+2000 to U+200A (E2 80 80
    to E2 80 8A), U+2028, U+2029 and U+202F (E2 80 A8, A9 and AF), U+205F
    (E2 81 9F), U+3000 (E3 80 80) and U+FEFF (EF BB BF). *)
Definition is_white_space_3 (c d e : ascii) : bool :=
  let c := N_of_ascii c in
  let d := N_of_ascii d in
  let e := N_of_ascii e in
  ((c =? 225) && (d =? 154) && (e =? 128)
   || (c =? 226) && (d =? 128)
      && ((128 <=? e) && (e <=? 138) || (e =? 168) || (e =? 169)
          || (e =? 175))
   || (c =? 226) && (d =? 129) && (e =? 159)
   || (c =? 227) && (d =? 128) && (e =? 128)
   || (c =? 239) && (d =? 187) && (e =? 191))%N.

(** The string without its leading white space and line terminators. *)
Fixpoint trim_start (s : string) : string :=
  match s with
  | String c r =>
      if is_white_space c then trim_start r
      else
        match r with
        | String d r1 =>
            if is_white_space_2 c d then trim_start r1
            else
              match r1 with
              | String e r2 =>
                  if is_white_space_3 c d e then trim_start r2 else s
              | EmptyString => s
              end
        | EmptyString => s
        end
  | EmptyString => s
  end.

(** A leading [+] or [-]: whether the sign is negative, and the rest. *)
Definition read_sign (s : string) : bool * string :=
  match s with
  | String "-" r => (true, r)
  | String "+" r => (false, r)
  | _ => (false, s)
  end.

(** [parseInt(s)] with no radix argument: leading white space, a sign, an
    optional [0x], then the longest run of digits, rounded to a Number;
    [NaN] when there is no digit. *)
Definition parseInt (s : string) : number :=
  let '(neg, s1) := read_sign (trim_start s) in
  let '(radix, s2) :=
    match s1 with
    | String "0" (String "x" r) | String "0" (String "X" r) => (16, r)
    | _ => (10, s1)
    end in
  match fst (read_digits radix s2 None) with
  | None => nan
  | Some 0 => S754_zero neg
  | Some z => of_Z (cond_Zopp neg z)
  end.

(** ** Number to string *)

(** For [num < den], the least [t >= 1] with [den <= num * 10^t]. *)
Fixpoint scale_up (fuel : nat) (num den t : Z) : Z :=
  match fuel with
  | O => t
  | S f => if den <=? num * 10 ^ t then t else scale_up f num den (t + 1)
  end.

(** For [v = num / den > 0], the [n] with [10^(n-1) <= v < 10^n]. *)
Definition decimal_exponent (num den : Z) : Z :=
  if den <=? num then Z.of_nat (String.length (digits (num / den)))
  else 1 - scale_up 400 num den 1.

(** The [k]-digit decimal nearest to [v = num / den] that reads back as
    [x], if there is one: its digits [s] and its exponent [n]. *)
Definition shortest_at (x : number) (num den n k : Z) : option (Z * Z) :=
  let a := if n <=? k then num * 10 ^ (k - n) else num in
  let b := if n <=? k then den else den * 10 ^ (n - k) in
  let lo := a / b in
  let hi := lo + 1 in
  let ok c := SFeqb (of_decimal c (n - k)) x in
  let pick c :=
    if c =? 10 ^ k then Some (10 ^ (k - 1), n + 1) else Some (c, n) in
  match ok lo, ok hi with
  | true, true =>
      match 2 * (a - lo * b) ?= b with
      | Lt => pick lo
      | Gt => pick hi
      | Eq => if Z.even lo then pick lo else pick hi
      end
  | true, false => pick lo
  | false, true => pick hi
  | false, false => None
  end.

(** The shortest decimal that reads back as [x]: the least [k] from the
    given one on for which [shortest_at] finds digits.  Seventeen digits
    always suffice for a double. *)
Fixpoint shortest (fuel : nat) (x : number) (num den n k : Z) : Z * Z :=
  match fuel with
  | O => (num * 10 ^ (k - n) / den, n)
  | S f =>
      match shortest_at x num den n k with
      | Some r => r
      | None => shortest f x num den n (k + 1)
      end
  end.

(** Number::toString of the positive value [m * 2^e]: the shortest
    digits [s] and exponent [n], laid out in positional or exponent
    notation as ECMAScript prescribes. *)
Definition positive_to_string (m : positive) (e : Z) : string :=
  let num := if 0 <=? e then Zpos m * 2 ^ e else Zpos m in
  let den := if 0 <=? e then 1 else 2 ^ (- e) in
  let '(s, n) :=
    shortest 17 (S754_finite false m e) num den (decimal_exponent num den) 1 in
  let ds := digits s in
  let k := Z.of_nat (String.length ds) in
  if (k <=? n) && (n <=? 21) then ds ++ zeros (Z.to_nat (n - k))
  else if (0 <? n) && (n <=? 21) then
    substring 0 (Z.to_nat n) ds ++ "." ++
    substring (Z.to_nat n) (Z.to_nat (k - n)) ds
  else if (-6 <? n) && (n <=? 0) then "0." ++ zeros (Z.to_nat (- n)) ++ ds
  else
    let ex := (if n - 1 <? 0 then "-" else "+") ++ digits (Z.abs (n - 1)) in
    if k =? 1 then ds ++ "e" ++ ex
    else substring 0 1 ds ++ "." ++ substring 1 (Z.to_nat (k - 1)) ds
           ++ "e" ++ ex.

Definition NumberToString (x : number) : string :=
  match x with
  | S754_nan => "NaN"
  | S754_zero _ => "0"
  | S754_infinity s => if s then "-Infinity" else "Infinity"
  | S754_finite s m e => (if s then "-" else "") ++ positive_to_string m e
  end.

(** [x.toFixed(f)] for [0 <= f <= 100]: the integer [n] nearest to
    [x * 10^f], the larger one at a half, printed with [f] decimals. *)
Definition toFixed (x : number) (f : Z) : string :=
  match x with
  | S754_nan => "NaN"
  | _ =>
      let neg := SFltb x (S754_zero false) in
      let x := if neg then SFopp x else x in
      let body :=
        if ge x (of_decimal 1 21) then NumberToString x
        else
          let n :=
            match x with
            | S754_finite _ m e =>
                if 0 <=? e then Zpos m * 2 ^ e * 10 ^ f
                else (2 * Zpos m * 10 ^ f + 2 ^ (- e)) / 2 ^ (1 - e)
            | _ => 0
            end in
          let ds := digits n in
          if f =? 0 then ds
          else
            let k := Z.of_nat (String.length ds) in
            let ds :=
              if k <=? f then zeros (Z.to_nat (f + 1 - k)) ++ ds else ds in
            let k := if k <=? f then f + 1 else k in
            substring 0 (Z.to_nat (k - f)) ds ++ "." ++
            substring (Z.to_nat (k - f)) (Z.to_nat f) ds in
      (if neg then "-" else "") ++ body
  end.

(** ** String to number *)

(** An exponent part [e], [e+] or [e-] followed by digits; without the
    digits it is not part of the literal. *)
Definition read_exponent (s : string) : Z :=
  match s with
  | String "e" r | String "E" r =>
      let '(neg, r1) := read_sign r in
      match fst (read_digits 10 r1 None) with
      | Some z => cond_Zopp neg z
      | None => 0
      end
  | _ => 0
  end.

(** [parseFloat(s)]: the longest prefix of the trimmed string that is a
    decimal literal. *)
Definition parseFloat (s : string) : number :=
  let '(neg, s1) := read_sign (trim_start s) in
  if prefix "Infinity" s1 then S754_infinity neg
  else
    let '(ip, s2) := read_digits 10 s1 None in
    let '(fp, flen, s3) :=
      match s2 with
      | String "." r =>
          let '(fp, r') := read_digits 10 r None in
          (fp, Z.of_nat (String.length r - String.length r'), r')
      | _ => (None, 0, s2)
      end in
    match ip, fp with
    | None, None => nan
    | _, _ =>
        let i := match ip with Some z => z | None => 0 end in
        let f := match fp with Some z => z | None => 0 end in
        let c := i * 10 ^ flen + f in
        if c =? 0 then S754_zero neg
        else
          let r := of_decimal c (read_exponent s3 - flen) in
          if neg then SFopp r else r
    end.

(** ** Numbers handed to the DOM *)

(** The conversion of a Number to an [unsigned long] attribute: [NaN],
    the zeros and the infinities give 0; any other number is truncated
    toward zero and taken modulo [2^32]. *)
Definition to_unsigned_long (x : number) : Z :=
  match x with
  | S754_finite s m e =>
      let t := if 0 <=? e then Zpos m * 2 ^ e else Zpos m / 2 ^ (- e) in
      cond_Zopp s t mod 2 ^ 32
  | _ => 0
  end.

(** [a[i]] on an array of strings: [None] is [undefined]. *)
Definition array_get (a : list string) (i : number) : option string :=
  match to_Z i with
  | Some z => if z <? 0 then None else nth_error a (Z.to_nat z)
  | None => None
  end.

(** ToString of a possibly undefined string. *)
Definition string_or_undefined (o : option string) : string :=
  match o with
  | Some s => s
  | None => "undefined"
  end.

End JS.
Export JS.

(** ** Platform services

    [Math.log] and [Math.pow] are implementation-approximated in
    ECMAScript: the engine supplies them. *)

Class Platform := {
  Math_log : number -> number;
  Math_pow : number -> number -> number
}.

(** ** Data *)

(** A [File] as the file input or a drop hands it over. *)
Record File := {
  file_name : string;
  file_type : string;
  file_size : Z
}.

(** A decoded [Image]: its [width] and [height]. *)
Record Image := {
  img_width : Z;
  img_height : Z
}.

(** A [Blob] produced by the encoder: its [size] and an opaque handle on
    its bytes. *)
Record Blob := {
  blob_size : Z;
  blob_data : nat
}.

(** The global [state] object. *)
Record State := {
  originalFile : option File;
  originalImage : option Image;
  compressedBlob : option Blob;
  quality : number;
  outputFormat : string;
  aspectRatio : number;
  lockAspectRatio : bool
}.

Definition initial_state : State := {|
  originalFile := None;
  originalImage := None;
  compressedBlob := None;
  quality := of_Z 80;
  outputFormat := "image/jpeg";
  aspectRatio := of_Z 1;
  lockAspectRatio := true
|}.

(** A [.format-btn] button: its [dataset.format] and whether its class
    list holds ['active']. *)
Record FormatButton := {
  btn_format : string;
  btn_active : bool
}.

(** The properties of the [elements] the script reads or writes.  A field's
    [value] is the string last stored in it, by the user or by the script;
    a number assigned to it is stored as its string. *)
Record Elements := {
  uploadZone_display : string;
  compressionPanel_active : bool;
  originalPreview_src : string;
  compressedPreview_src : string;
  originalInfo_fileSize : string;
  compressedInfo_fileSize : string;
  savings_text : string;
  savings_background : string;
  qualitySlider_value : string;
  qualityValue_text : string;
  widthInput_value : string;
  widthInput_placeholder : string;
  heightInput_value : string;
  heightInput_placeholder : string;
  fileInput_value : string;
  formatButtons : list FormatButton
}.

(** One [canvas.toBlob] call:
    - [req_canvas_width], [req_canvas_height]: the size of the canvas, as
      the element holds it after [canvas.width = width] and
      [canvas.height = height];
    - [req_width], [req_height]: the [width] and [height] the white fill
      and the image were drawn at;
    - the format, and the quality argument ([None] is [undefined]). *)
Record EncodeRequest := {
  req_canvas_width : Z;
  req_canvas_height : Z;
  req_width : number;
  req_height : number;
  req_format : string;
  req_quality : option number
}.

(** The functions handed to [debounce]. *)
Inductive Func := compressImage_fn.

(** The closure [debounce] returns: [func], [wait], and the location of
    its own [timeout] variable. *)
Record Debounced := {
  db_func : Func;
  db_wait : Z;
  db_cell : nat
}.

(** A pending [setTimeout]: its id, when it is due, and the [later]
    closure of the debounced function that set it. *)
Record Timer := {
  timer_id : nat;
  timer_due : Z;
  timer_later : Debounced
}.

(** What the page does that the user or the browser sees. *)
Inductive Effect :=
| Alert (msg : string)
| Download (filename : string) (href : string) (blob : Blob)
| RevokeObjectURL (url : string)
| ScrollToTop
| UncaughtTypeError.

(** The page: the two global objects and what the platform holds for it.
    - [now]: the clock, in milliseconds;
    - [cells]: the [timeout] variable of every closure [debounce] has
      returned, [None] while undefined;
    - [timers]: the pending timers, oldest first; [nextTimer]: the next id;
    - [reads]: the [FileReader]s still reading;
    - [decodes]: the data URLs of the images still decoding, oldest first;
    - [encodes]: every [canvas.toBlob] call made so far, oldest first;
    - [pendingEncodes]: how many of them still owe their callback;
    - [objectURLs]: how many object URLs were created;
    - [effects]: what the user was shown, oldest first. *)
Record World := {
  state : State;
  elements : Elements;
  now : Z;
  cells : list (option nat);
  timers : list Timer;
  nextTimer : nat;
  reads : nat;
  decodes : list string;
  encodes : list EncodeRequest;
  pendingEncodes : nat;
  objectURLs : nat;
  effects : list Effect
}.

(** ** Field updates *)

Definition set_originalFile (v : option File) (s : State) : State :=
  {| originalFile := v; originalImage := originalImage s;
     compressedBlob := compressedBlob s; quality := quality s;
     outputFormat := outputFormat s; aspectRatio := aspectRatio s;
     lockAspectRatio := lockAspectRatio s |}.

Definition set_originalImage (v : option Image) (s : State) : State :=
  {| originalFile := originalFile s; originalImage := v;
     compressedBlob := compressedBlob s; quality := quality s;
     outputFormat := outputFormat s; aspectRatio := aspectRatio s;
     lockAspectRatio := lockAspectRatio s |}.

Definition set_compressedBlob (v : option Blob) (s : State) : State :=
  {| originalFile := originalFile s; originalImage := originalImage s;
     compressedBlob := v; quality := quality s;
     outputFormat := outputFormat s; aspectRatio := aspectRatio s;
     lockAspectRatio := lockAspectRatio s |}.

Definition set_quality (v : number) (s : State) : State :=
  {| originalFile := originalFile s; originalImage := originalImage s;
     compressedBlob := compressedBlob s; quality := v;
     outputFormat := outputFormat s; aspectRatio := aspectRatio s;
     lockAspectRatio := lockAspectRatio s |}.

Definition set_outputFormat (v : string) (s : State) : State :=
  {| originalFile := originalFile s; originalImage := originalImage s;
     compressedBlob := compressedBlob s; quality := quality s;
     outputFormat := v; aspectRatio := aspectRatio s;
     lockAspectRatio := lockAspectRatio s |}.

Definition set_aspectRatio (v : number) (s : State) : State :=
  {| originalFile := originalFile s; originalImage := originalImage s;
     compressedBlob := compressedBlob s; quality := quality s;
     outputFormat := outputFormat s; aspectRatio := v;
     lockAspectRatio := lockAspectRatio s |}.

Definition set_lockAspectRatio (v : bool) (s : State) : State :=
  {| originalFile := originalFile s; originalImage := originalImage s;
     compressedBlob := compressedBlob s; quality := quality s;
     outputFormat := outputFormat s; aspectRatio := aspectRatio s;
     lockAspectRatio := v |}.

Definition set_uploadZone_display (v : string) (e : Elements) : Elements :=
  {| uploadZone_display := v;
     compressionPanel_active := compressionPanel_active e;
     originalPreview_src := originalPreview_src e;
     compressedPreview_src := compressedPreview_src e;
     originalInfo_fileSize := originalInfo_fileSize e;
     compressedInfo_fileSize := compressedInfo_fileSize e;
     savings_text := savings_text e;
     savings_background := savings_background e;
     qualitySlider_value := qualitySlider_value e;
     qualityValue_text := qualityValue_text e;
     widthInput_value := widthInput_value e;
     widthInput_placeholder := widthInput_placeholder e;
     heightInput_value := heightInput_value e;
     heightInput_placeholder := heightInput_placeholder e;
     fileInput_value := fileInput_value e;
     formatButtons := formatButtons e |}.

Definition set_compressionPanel_active (v : bool) (e : Elements) : Elements :=
  {| uploadZone_display := uploadZone_display e;
     compressionPanel_active := v;
     originalPreview_src := originalPreview_src e;
     compressedPreview_src := compressedPreview_src e;
     originalInfo_fileSize := originalInfo_fileSize e;
     compressedInfo_fileSize := compressedInfo_fileSize e;
     savings_text := savings_text e;
     savings_background := savings_background e;
     qualitySlider_value := qualitySlider_value e;
     qualityValue_text := qualityValue_text e;
     widthInput_value := widthInput_value e;
     widthInput_placeholder := widthInput_placeholder e;
     heightInput_value := heightInput_value e;
     heightInput_placeholder := heightInput_placeholder e;
     fileInput_value := fileInput_value e;
     formatButtons := formatButtons e |}.

Definition set_originalPreview_src (v : string) (e : Elements) : Elements :=
  {| uploadZone_display := uploadZone_display e;
     compressionPanel_active := compressionPanel_active e;
     originalPreview_src := v;
     compressedPreview_src := compressedPreview_src e;
     originalInfo_fileSize := originalInfo_fileSize e;
     compressedInfo_fileSize := compressedInfo_fileSize e;
     savings_text := savings_text e;
     savings_background := savings_background e;
     qualitySlider_value := qualitySlider_value e;
     qualityValue_text := qualityValue_text e;
     widthInput_value := widthInput_value e;
     widthInput_placeholder := widthInput_placeholder e;
     heightInput_value := heightInput_value e;
     heightInput_placeholder := heightInput_placeholder e;
     fileInput_value := fileInput_value e;
     formatButtons := formatButtons e |}.

Definition set_compressedPreview_src (v : string) (e : Elements) : Elements :=
  {| uploadZone_display := uploadZone_display e;
     compressionPanel_active := compressionPanel_active e;
     originalPreview_src := originalPreview_src e;
     compressedPreview_src := v;
     originalInfo_fileSize := originalInfo_fileSize e;
     compressedInfo_fileSize := compressedInfo_fileSize e;
     savings_text := savings_text e;
     savings_background := savings_background e;
     qualitySlider_value := qualitySlider_value e;
     qualityValue_text := qualityValue_text e;
     widthInput_value := widthInput_value e;
     widthInput_placeholder := widthInput_placeholder e;
     heightInput_value := heightInput_value e;
     heightInput_placeholder := heightInput_placeholder e;
     fileInput_value := fileInput_value e;
     formatButtons := formatButtons e |}.

Definition set_originalInfo_fileSize (v : string) (e : Elements) : Elements :=
  {| uploadZone_display := uploadZone_display e;
     compressionPanel_active := compressionPanel_active e;
     originalPreview_src := originalPreview_src e;
     compressedPreview_src := compressedPreview_src e;
     originalInfo_fileSize := v;
     compressedInfo_fileSize := compressedInfo_fileSize e;
     savings_text := savings_text e;
     savings_background := savings_background e;
     qualitySlider_value := qualitySlider_value e;
     qualityValue_text := qualityValue_text e;
     widthInput_value := widthInput_value e;
     widthInput_placeholder := widthInput_placeholder e;
     heightInput_value := heightInput_value e;
     heightInput_placeholder := heightInput_placeholder e;
     fileInput_value := fileInput_value e;
     formatButtons := formatButtons e |}.

Definition set_compressedInfo_fileSize (v : string) (e : Elements) : Elements :=
  {| uploadZone_display := uploadZone_display e;
     compressionPanel_active := compressionPanel_active e;
     originalPreview_src := originalPreview_src e;
     compressedPreview_src := compressedPreview_src e;
     originalInfo_fileSize := originalInfo_fileSize e;
     compressedInfo_fileSize := v; savings_text := savings_text e;
     savings_background := savings_background e;
     qualitySlider_value := qualitySlider_value e;
     qualityValue_text := qualityValue_text e;
     widthInput_value := widthInput_value e;
     widthInput_placeholder := widthInput_placeholder e;
     heightInput_value := heightInput_value e;
     heightInput_placeholder := heightInput_placeholder e;
     fileInput_value := fileInput_value e;
     formatButtons := formatButtons e |}.

Definition set_savings_text (v : string) (e : Elements) : Elements :=
  {| uploadZone_display := uploadZone_display e;
     compressionPanel_active := compressionPanel_active e;
     originalPreview_src := originalPreview_src e;
     compressedPreview_src := compressedPreview_src e;
     originalInfo_fileSize := originalInfo_fileSize e;
     compressedInfo_fileSize := compressedInfo_fileSize e; savings_text := v;
     savings_background := savings_background e;
     qualitySlider_value := qualitySlider_value e;
     qualityValue_text := qualityValue_text e;
     widthInput_value := widthInput_value e;
     widthInput_placeholder := widthInput_placeholder e;
     heightInput_value := heightInput_value e;
     heightInput_placeholder := heightInput_placeholder e;
     fileInput_value := fileInput_value e;
     formatButtons := formatButtons e |}.

Definition set_savings_background (v : string) (e : Elements) : Elements :=
  {| uploadZone_display := uploadZone_display e;
     compressionPanel_active := compressionPanel_active e;
     originalPreview_src := originalPreview_src e;
     compressedPreview_src := compressedPreview_src e;
     originalInfo_fileSize := originalInfo_fileSize e;
     compressedInfo_fileSize := compressedInfo_fileSize e;
     savings_text := savings_text e; savings_background := v;
     qualitySlider_value := qualitySlider_value e;
     qualityValue_text := qualityValue_text e;
     widthInput_value := widthInput_value e;
     widthInput_placeholder := widthInput_placeholder e;
     heightInput_value := heightInput_value e;
     heightInput_placeholder := heightInput_placeholder e;
     fileInput_value := fileInput_value e;
     formatButtons := formatButtons e |}.

Definition set_qualitySlider_value (v : string) (e : Elements) : Elements :=
  {| uploadZone_display := uploadZone_display e;
     compressionPanel_active := compressionPanel_active e;
     originalPreview_src := originalPreview_src e;
     compressedPreview_src := compressedPreview_src e;
     originalInfo_fileSize := originalInfo_fileSize e;
     compressedInfo_fileSize := compressedInfo_fileSize e;
     savings_text := savings_text e;
     savings_background := savings_background e; qualitySlider_value := v;
     qualityValue_text := qualityValue_text e;
     widthInput_value := widthInput_value e;
     widthInput_placeholder := widthInput_placeholder e;
     heightInput_value := heightInput_value e;
     heightInput_placeholder := heightInput_placeholder e;
     fileInput_value := fileInput_value e;
     formatButtons := formatButtons e |}.

Definition set_qualityValue_text (v : string) (e : Elements) : Elements :=
  {| uploadZone_display := uploadZone_display e;
     compressionPanel_active := compressionPanel_active e;
     originalPreview_src := originalPreview_src e;
     compressedPreview_src := compressedPreview_src e;
     originalInfo_fileSize := originalInfo_fileSize e;
     compressedInfo_fileSize := compressedInfo_fileSize e;
     savings_text := savings_text e;
     savings_background := savings_background e;
     qualitySlider_value := qualitySlider_value e; qualityValue_text := v;
     widthInput_value := widthInput_value e;
     widthInput_placeholder := widthInput_placeholder e;
     heightInput_value := heightInput_value e;
     heightInput_placeholder := heightInput_placeholder e;
     fileInput_value := fileInput_value e;
     formatButtons := formatButtons e |}.

Definition set_widthInput_value (v : string) (e : Elements) : Elements :=
  {| uploadZone_display := uploadZone_display e;
     compressionPanel_active := compressionPanel_active e;
     originalPreview_src := originalPreview_src e;
     compressedPreview_src := compressedPreview_src e;
     originalInfo_fileSize := originalInfo_fileSize e;
     compressedInfo_fileSize := compressedInfo_fileSize e;
     savings_text := savings_text e;
     savings_background := savings_background e;
     qualitySlider_value := qualitySlider_value e;
     qualityValue_text := qualityValue_text e; widthInput_value := v;
     widthInput_placeholder := widthInput_placeholder e;
     heightInput_value := heightInput_value e;
     heightInput_placeholder := heightInput_placeholder e;
     fileInput_value := fileInput_value e;
     formatButtons := formatButtons e |}.

Definition set_widthInput_placeholder (v : string) (e : Elements) : Elements :=
  {| uploadZone_display := uploadZone_display e;
     compressionPanel_active := compressionPanel_active e;
     originalPreview_src := originalPreview_src e;
     compressedPreview_src := compressedPreview_src e;
     originalInfo_fileSize := originalInfo_fileSize e;
     compressedInfo_fileSize := compressedInfo_fileSize e;
     savings_text := savings_text e;
     savings_background := savings_background e;
     qualitySlider_value := qualitySlider_value e;
     qualityValue_text := qualityValue_text e;
     widthInput_value := widthInput_value e; widthInput_placeholder := v;
     heightInput_value := heightInput_value e;
     heightInput_placeholder := heightInput_placeholder e;
     fileInput_value := fileInput_value e;
     formatButtons := formatButtons e |}.

Definition set_heightInput_value (v : string) (e : Elements) : Elements :=
  {| uploadZone_display := uploadZone_display e;
     compressionPanel_active := compressionPanel_active e;
     originalPreview_src := originalPreview_src e;
     compressedPreview_src := compressedPreview_src e;
     originalInfo_fileSize := originalInfo_fileSize e;
     compressedInfo_fileSize := compressedInfo_fileSize e;
     savings_text := savings_text e;
     savings_background := savings_background e;
     qualitySlider_value := qualitySlider_value e;
     qualityValue_text := qualityValue_text e;
     widthInput_value := widthInput_value e;
     widthInput_placeholder := widthInput_placeholder e;
     heightInput_value := v;
     heightInput_placeholder := heightInput_placeholder e;
     fileInput_value := fileInput_value e;
     formatButtons := formatButtons e |}.

Definition set_heightInput_placeholder (v : string) (e : Elements) : Elements :=
  {| uploadZone_display := uploadZone_display e;
     compressionPanel_active := compressionPanel_active e;
     originalPreview_src := originalPreview_src e;
     compressedPreview_src := compressedPreview_src e;
     originalInfo_fileSize := originalInfo_fileSize e;
     compressedInfo_fileSize := compressedInfo_fileSize e;
     savings_text := savings_text e;
     savings_background := savings_background e;
     qualitySlider_value := qualitySlider_value e;
     qualityValue_text := qualityValue_text e;
     widthInput_value := widthInput_value e;
     widthInput_placeholder := widthInput_placeholder e;
     heightInput_value := heightInput_value e; heightInput_placeholder := v;
     fileInput_value := fileInput_value e;
     formatButtons := formatButtons e |}.

Definition set_fileInput_value (v : string) (e : Elements) : Elements :=
  {| uploadZone_display := uploadZone_display e;
     compressionPanel_active := compressionPanel_active e;
     originalPreview_src := originalPreview_src e;
     compressedPreview_src := compressedPreview_src e;
     originalInfo_fileSize := originalInfo_fileSize e;
     compressedInfo_fileSize := compressedInfo_fileSize e;
     savings_text := savings_text e;
     savings_background := savings_background e;
     qualitySlider_value := qualitySlider_value e;
     qualityValue_text := qualityValue_text e;
     widthInput_value := widthInput_value e;
     widthInput_placeholder := widthInput_placeholder e;
     heightInput_value := heightInput_value e;
     heightInput_placeholder := heightInput_placeholder e;
     fileInput_value := v; formatButtons := formatButtons e |}.

Definition set_formatButtons (v : list FormatButton) (e : Elements)
  : Elements :=
  {| uploadZone_display := uploadZone_display e;
     compressionPanel_active := compressionPanel_active e;
     originalPreview_src := originalPreview_src e;
     compressedPreview_src := compressedPreview_src e;
     originalInfo_fileSize := originalInfo_fileSize e;
     compressedInfo_fileSize := compressedInfo_fileSize e;
     savings_text := savings_text e;
     savings_background := savings_background e;
     qualitySlider_value := qualitySlider_value e;
     qualityValue_text := qualityValue_text e;
     widthInput_value := widthInput_value e;
     widthInput_placeholder := widthInput_placeholder e;
     heightInput_value := heightInput_value e;
     heightInput_placeholder := heightInput_placeholder e;
     fileInput_value := fileInput_value e; formatButtons := v |}.

Definition set_state (v : State) (w : World) : World :=
  {| state := v; elements := elements w; now := now w; cells := cells w;
     timers := timers w; nextTimer := nextTimer w; reads := reads w;
     decodes := decodes w; encodes := encodes w;
     pendingEncodes := pendingEncodes w; objectURLs := objectURLs w;
     effects := effects w |}.

Definition set_elements (v : Elements) (w : World) : World :=
  {| state := state w; elements := v; now := now w; cells := cells w;
     timers := timers w; nextTimer := nextTimer w; reads := reads w;
     decodes := decodes w; encodes := encodes w;
     pendingEncodes := pendingEncodes w; objectURLs := objectURLs w;
     effects := effects w |}.

Definition set_now (v : Z) (w : World) : World :=
  {| state := state w; elements := elements w; now := v; cells := cells w;
     timers := timers w; nextTimer := nextTimer w; reads := reads w;
     decodes := decodes w; encodes := encodes w;
     pendingEncodes := pendingEncodes w; objectURLs := objectURLs w;
     effects := effects w |}.

Definition set_cells (v : list (option nat)) (w : World) : World :=
  {| state := state w; elements := elements w; now := now w; cells := v;
     timers := timers w; nextTimer := nextTimer w; reads := reads w;
     decodes := decodes w; encodes := encodes w;
     pendingEncodes := pendingEncodes w; objectURLs := objectURLs w;
     effects := effects w |}.

Definition set_timers (v : list Timer) (w : World) : World :=
  {| state := state w; elements := elements w; now := now w;
     cells := cells w; timers := v; nextTimer := nextTimer w;
     reads := reads w; decodes := decodes w; encodes := encodes w;
     pendingEncodes := pendingEncodes w; objectURLs := objectURLs w;
     effects := effects w |}.

Definition set_nextTimer (v : nat) (w : World) : World :=
  {| state := state w; elements := elements w; now := now w;
     cells := cells w; timers := timers w; nextTimer := v; reads := reads w;
     decodes := decodes w; encodes := encodes w;
     pendingEncodes := pendingEncodes w; objectURLs := objectURLs w;
     effects := effects w |}.

Definition set_reads (v : nat) (w : World) : World :=
  {| state := state w; elements := elements w; now := now w;
     cells := cells w; timers := timers w; nextTimer := nextTimer w;
     reads := v; decodes := decodes w; encodes := encodes w;
     pendingEncodes := pendingEncodes w; objectURLs := objectURLs w;
     effects := effects w |}.

Definition set_decodes (v : list string) (w : World) : World :=
  {| state := state w; elements := elements w; now := now w;
     cells := cells w; timers := timers w; nextTimer := nextTimer w;
     reads := reads w; decodes := v; encodes := encodes w;
     pendingEncodes := pendingEncodes w; objectURLs := objectURLs w;
     effects := effects w |}.

Definition set_encodes (v : list EncodeRequest) (w : World) : World :=
  {| state := state w; elements := elements w; now := now w;
     cells := cells w; timers := timers w; nextTimer := nextTimer w;
     reads := reads w; decodes := decodes w; encodes := v;
     pendingEncodes := pendingEncodes w; objectURLs := objectURLs w;
     effects := effects w |}.

Definition set_pendingEncodes (v : nat) (w : World) : World :=
  {| state := state w; elements := elements w; now := now w;
     cells := cells w; timers := timers w; nextTimer := nextTimer w;
     reads := reads w; decodes := decodes w; encodes := encodes w;
     pendingEncodes := v; objectURLs := objectURLs w;
     effects := effects w |}.

Definition set_objectURLs (v : nat) (w : World) : World :=
  {| state := state w; elements := elements w; now := now w;
     cells := cells w; timers := timers w; nextTimer := nextTimer w;
     reads := reads w; decodes := decodes w; encodes := encodes w;
     pendingEncodes := pendingEncodes w; objectURLs := v;
     effects := effects w |}.

Definition set_effects (v : list Effect) (w : World) : World :=
  {| state := state w; elements := elements w; now := now w;
     cells := cells w; timers := timers w; nextTimer := nextTimer w;
     reads := reads w; decodes := decodes w; encodes := encodes w;
     pendingEncodes := pendingEncodes w; objectURLs := objectURLs w;
     effects := v |}.

(** [state.f = v] and [elements.x.p = v] as updates of the world. *)
Definition on_state (f : State -> State) (w : World) : World :=
  set_state (f (state w)) w.

Definition on_elements (f : Elements -> Elements) (w : World) : World :=
  set_elements (f (elements w)) w.

Definition emit (e : Effect) (w : World) : World :=
  set_effects (effects w ++ [e]) w.

(** ** Timers and [debounce] *)

(** [setTimeout(later, wait)]: the new timer's id, and the world holding
    the timer. *)
Definition setTimeout (later : Debounced) (wait : Z) (w : World)
  : nat * World :=
  let id := nextTimer w in
  let t := {| timer_id := id; timer_due := now w + wait;
              timer_later := later |} in
  (id, set_nextTimer (S id) (set_timers (timers w ++ [t]) w)).

(** [clearTimeout(timeout)]; [None] is [undefined], which clears nothing. *)
Definition clearTimeout (timeout : option nat) (w : World) : World :=
  match timeout with
  | None => w
  | Some id =>
      set_timers
        (filter (fun t => negb (Nat.eqb (timer_id t) id)) (timers w)) w
  end.

Fixpoint update_nth {A} (n : nat) (v : A) (l : list A) : list A :=
  match l, n with
  | [], _ => []
  | _ :: r, O => v :: r
  | x :: r, S n' => x :: update_nth n' v r
  end.

(** [debounce(func, wait)]: a fresh closure with its own [timeout]
    variable, still undefined. *)
Definition debounce (func : Func) (wait : Z) (w : World)
  : Debounced * World :=
  ({| db_func := func; db_wait := wait; db_cell := List.length (cells w) |},
   set_cells (cells w ++ [None]) w).

Definition timeout_of (d : Debounced) (w : World) : option nat :=
  nth (db_cell d) (cells w) None.

(** [executedFunction()]: clear this closure's timer, set a new one. *)
Definition executedFunction (d : Debounced) (w : World) : World :=
  let w1 := clearTimeout (timeout_of d w) w in
  let '(id, w2) := setTimeout d (db_wait d) w1 in
  set_cells (update_nth (db_cell d) (Some id) (cells w2)) w2.

(** ** Image compression *)

(** [canvas.width = x], or [canvas.height = x], read back.  The
    attribute is an [unsigned long] that reflects the content attribute:
    a value up to [2^31 - 1] is kept, a larger one is replaced by the
    attribute's default, 300 for the width and 150 for the height. *)
Definition canvas_dimension (default : Z) (x : number) : Z :=
  let n := to_unsigned_long x in
  if n <=? 2147483647 then n else default.

(** [canvas.toBlob(callback, actualFormat, actualQuality)] on a canvas of
    the given size: the call is recorded and its callback is owed. *)
Definition toBlob (r : EncodeRequest) (w : World) : World :=
  set_pendingEncodes (S (pendingEncodes w)) (set_encodes (encodes w ++ [r]) w).

Definition compressImage (w : World) : World :=
  match originalImage (state w) with
  | None => w
  | Some img =>
      let width :=
        or_else (parseInt (widthInput_value (elements w)))
                (of_Z (img_width img)) in
      let height :=
        or_else (parseInt (heightInput_value (elements w)))
                (of_Z (img_height img)) in
      let quality := div (quality (state w)) (of_Z 100) in
      let actualFormat := outputFormat (state w) in
      let actualQuality :=
        if (outputFormat (state w) =? "image/png")%string then None
        else Some quality in
      toBlob {| req_canvas_width := canvas_dimension 300 width;
                req_canvas_height := canvas_dimension 150 height;
                req_width := width; req_height := height;
                req_format := actualFormat;
                req_quality := actualQuality |} w
  end.

Definition call (f : Func) (w : World) : World :=
  match f with
  | compressImage_fn => compressImage w
  end.

(** The [later] closure of a debounced function, run when its timer
    fires. *)
Definition later (d : Debounced) (w : World) : World :=
  call (db_func d) (clearTimeout (timeout_of d w) w).

(** The pending timer that fires first: the earliest due, the oldest
    among equals. *)
Fixpoint earliest (ts : list Timer) : option Timer :=
  match ts with
  | [] => None
  | t :: r =>
      match earliest r with
      | Some t' => if timer_due t' <? timer_due t then Some t' else Some t
      | None => Some t
      end
  end.

(** A timer fires: the clock has reached its due time, the timer leaves
    the queue, and its callback runs. *)
Definition fire (t : Timer) (w : World) : World :=
  let w := set_now (Z.max (now w) (timer_due t)) w in
  later (timer_later t) (clearTimeout (Some (timer_id t)) w).

Fixpoint run_timers (fuel : nat) (limit : Z) (w : World) : World :=
  match fuel with
  | O => w
  | S f =>
      match earliest (timers w) with
      | Some t =>
          if timer_due t <=? limit then run_timers f limit (fire t w) else w
      | None => w
      end
  end.

(** [ms] milliseconds pass: every timer due by then fires, in order. *)
Definition elapse (ms : Z) (w : World) : World :=
  let limit := now w + Z.max 0 ms in
  set_now limit (run_timers (List.length (timers w)) limit w).

(** ** Handlers that may throw *)

Inductive completion :=
| Normal (w : World)
| Throw (w : World).

Definition bind (c : completion) (k : World -> completion) : completion :=
  match c with
  | Normal w => k w
  | Throw w => Throw w
  end.

Notation "c >>= k" := (bind c k) (at level 50, left associativity).

(** The end of a handler: an exception nobody caught is reported and the
    writes made before it stay. *)
Definition settle (c : completion) : World :=
  match c with
  | Normal w => w
  | Throw w => emit UncaughtTypeError w
  end.

(** [URL.createObjectURL(blob)]. *)
Definition createObjectURL (w : World) : string * World :=
  ("blob:" ++ digits (Z.of_nat (objectURLs w)),
   set_objectURLs (S (objectURLs w)) w).

(** [s.split('/')[1]]; [None] is [undefined]. *)
Fixpoint until_slash (s : string) : string :=
  match s with
  | String c r => if (c =? "/")%char then "" else String c (until_slash r)
  | EmptyString => ""
  end.

Fixpoint after_slash (s : string) : option string :=
  match s with
  | String c r => if (c =? "/")%char then Some r else after_slash r
  | EmptyString => None
  end.

Definition split_slash_1 (s : string) : option string :=
  option_map until_slash (after_slash s).

(** [s.replace(/\.[^/.]+$/, '')]. *)
Fixpoint no_slash_or_dot (s : string) : bool :=
  match s with
  | String c r =>
      negb (c =? "/")%char && negb (c =? ".")%char && no_slash_or_dot r
  | EmptyString => true
  end.

Fixpoint strip_extension (s : string) : string :=
  match s with
  | String c r =>
      if (c =? ".")%char && negb (r =? "")%string && no_slash_or_dot r
      then ""
      else String c (strip_extension r)
  | EmptyString => ""
  end.

Fixpoint activate_only (i j : nat) (bs : list FormatButton)
  : list FormatButton :=
  match bs with
  | [] => []
  | b :: r =>
      {| btn_format := btn_format b; btn_active := Nat.eqb j i |}
      :: activate_only i (S j) r
  end.

Section Page.

Context {platform : Platform}.

(** ** Info updates *)

Definition formatFileSize (bytes : number) : string :=
  if strict_eq bytes (of_Z 0) then "0 Bytes"
  else
    let k := of_Z 1024 in
    let sizes := ["Bytes"; "KB"; "MB"; "GB"] in
    let i := Math_floor (div (Math_log bytes) (Math_log k)) in
    NumberToString (parseFloat (toFixed (div bytes (Math_pow k i)) 2))
      ++ " " ++ string_or_undefined (array_get sizes i).

(** [state.originalFile.size] throws when no file is held. *)
Definition updateOriginalInfo (w : World) : completion :=
  match originalFile (state w) with
  | None => Throw w
  | Some f =>
      let size := of_Z (file_size f) in
      Normal (on_elements (set_originalInfo_fileSize (formatFileSize size)) w)
  end.

(** The local [savedPercent] of [updateCompressedInfo], and the
    percentage [Math.round] is applied to. *)
Definition percentage (compressedSize originalSize : number) : number :=
  mul (sub (of_Z 1) (div compressedSize originalSize)) (of_Z 100).

Definition savedPercent (compressedSize originalSize : number) : number :=
  Math_round (percentage compressedSize originalSize).

(** The text and the background of the savings badge. *)
Definition savings_label (p : number) : string :=
  if ge p (of_Z 0) then "-" ++ NumberToString p ++ "%"
  else "+" ++ NumberToString (Math_abs p) ++ "%".

Definition savings_colour (p : number) : string :=
  if ge p (of_Z 0) then "var(--success)" else "#ef4444".

Definition updateCompressedInfo (compressedSize : number) (w : World)
  : completion :=
  match originalFile (state w) with
  | None => Throw w
  | Some f =>
      let originalSize := of_Z (file_size f) in
      let p := savedPercent compressedSize originalSize in
      let w := on_elements
                 (set_compressedInfo_fileSize (formatFileSize compressedSize))
                 w in
      let w := on_elements (set_savings_text (savings_label p)) w in
      Normal (on_elements (set_savings_background (savings_colour p)) w)
  end.

(** ** File handling *)

(** [handleFile(file)] up to [reader.readAsDataURL(file)]. *)
Definition handleFile (file : File) (w : World) : World :=
  if negb (prefix "image/" (file_type file)) then
    emit (Alert "Please upload an image file") w
  else
    let w := on_state (set_originalFile (Some file)) w in
    set_reads (S (reads w)) w.

(** [reader.onload]: an [Image] is created and starts decoding
    [e.target.result]. *)
Definition reader_onload (result : string) (w : World) : World :=
  set_decodes (decodes w ++ [result]) w.

(** [img.onload], for the image decoded from [result]. *)
Definition img_onload (result : string) (img : Image) (w : World) : World :=
  let w := on_state (set_originalImage (Some img)) w in
  let w := on_state
             (set_aspectRatio
                (div (of_Z (img_width img)) (of_Z (img_height img)))) w in
  let w := on_elements
             (set_widthInput_value (NumberToString (of_Z (img_width img))))
             w in
  let w := on_elements
             (set_heightInput_value (NumberToString (of_Z (img_height img))))
             w in
  let w := on_elements
             (set_widthInput_placeholder
                (NumberToString (of_Z (img_width img)))) w in
  let w := on_elements
             (set_heightInput_placeholder
                (NumberToString (of_Z (img_height img)))) w in
  let w := on_elements (set_originalPreview_src result) w in
  settle
    (updateOriginalInfo w >>= fun w =>
     let w := on_elements (set_uploadZone_display "none") w in
     let w := on_elements (set_compressionPanel_active true) w in
     Normal (compressImage w)).

(** The callback handed to [canvas.toBlob]; [None] is a null blob. *)
Definition toBlob_callback (blob : option Blob) (w : World) : World :=
  match blob with
  | Some b =>
      let w := on_state (set_compressedBlob (Some b)) w in
      let '(url, w) := createObjectURL w in
      let w := on_elements (set_compressedPreview_src url) w in
      settle (updateCompressedInfo (of_Z (blob_size b)) w)
  | None => w
  end.

(** ** Controls *)

(** The slider's ['input'] listener; the browser has stored the new value
    [v] in the slider. *)
Definition qualitySlider_input (v : string) (w : World) : World :=
  let w := on_elements (set_qualitySlider_value v) w in
  let w := on_state
             (set_quality (parseInt (qualitySlider_value (elements w)))) w in
  let w := on_elements
             (set_qualityValue_text
                (NumberToString (quality (state w)) ++ "%")) w in
  let '(d, w) := debounce compressImage_fn 100 w in
  executedFunction d w.

(** The width field's ['input'] listener, the field now holding [v]. *)
Definition widthInput_input (v : string) (w : World) : World :=
  let w := on_elements (set_widthInput_value v) w in
  let w :=
    match lockAspectRatio (state w), originalImage (state w) with
    | true, Some img =>
        let width :=
          or_else (parseInt (widthInput_value (elements w)))
                  (of_Z (img_width img)) in
        on_elements
          (set_heightInput_value
             (NumberToString
                (Math_round (div width (aspectRatio (state w)))))) w
    | _, _ => w
    end in
  let '(d, w) := debounce compressImage_fn 300 w in
  executedFunction d w.

(** The height field's ['input'] listener, the field now holding [v]. *)
Definition heightInput_input (v : string) (w : World) : World :=
  let w := on_elements (set_heightInput_value v) w in
  let w :=
    match lockAspectRatio (state w), originalImage (state w) with
    | true, Some img =>
        let height :=
          or_else (parseInt (heightInput_value (elements w)))
                  (of_Z (img_height img)) in
        on_elements
          (set_widthInput_value
             (NumberToString
                (Math_round (mul height (aspectRatio (state w)))))) w
    | _, _ => w
    end in
  let '(d, w) := debounce compressImage_fn 300 w in
  executedFunction d w.

Definition aspectRatio_change (checked : bool) (w : World) : World :=
  on_state (set_lockAspectRatio checked) w.

(** A click on the [i]-th format button. *)
Definition formatButton_click (i : nat) (w : World) : World :=
  match nth_error (formatButtons (elements w)) i with
  | None => w
  | Some btn =>
      let w := on_elements
                 (set_formatButtons
                    (activate_only i 0 (formatButtons (elements w)))) w in
      let w := on_state (set_outputFormat (btn_format btn)) w in
      compressImage w
  end.

(** ** Download *)

Definition downloadCompressedImage (w : World) : World :=
  match compressedBlob (state w) with
  | None => w
  | Some blob =>
      let extension := split_slash_1 (outputFormat (state w)) in
      match originalFile (state w) with
      | None => settle (Throw w)
      | Some f =>
          let originalName := strip_extension (file_name f) in
          let filename :=
            originalName ++ "_compressed." ++ string_or_undefined extension in
          let '(href, w) := createObjectURL w in
          let w := emit (Download filename href blob) w in
          emit (RevokeObjectURL href) w
      end
  end.

(** ** Reset *)

Definition resetCompressor (w : World) : World :=
  let w := on_state (set_originalFile None) w in
  let w := on_state (set_originalImage None) w in
  let w := on_state (set_compressedBlob None) w in
  let w := on_state (set_quality (of_Z 80)) w in
  let w := on_state (set_outputFormat "image/jpeg") w in
  let w := on_elements (set_qualitySlider_value (NumberToString (of_Z 80))) w in
  let w := on_elements (set_qualityValue_text "80%") w in
  let w := on_elements (set_widthInput_value "") w in
  let w := on_elements (set_heightInput_value "") w in
  let w := on_elements (set_fileInput_value "") w in
  let w := on_elements
             (set_formatButtons
                (activate_only 0 0 (formatButtons (elements w)))) w in
  let w := on_elements (set_uploadZone_display "block") w in
  let w := on_elements (set_compressionPanel_active false) w in
  emit ScrollToTop w.

(** ** The event loop *)

Inductive Event :=
| FileChosen (file : File)
| Dropped (file : option File)
| ReaderLoaded (result : string)
| ImageLoaded (img : Image)
| QualityInput (v : string)
| WidthInput (v : string)
| HeightInput (v : string)
| AspectChange (checked : bool)
| FormatClick (i : nat)
| DownloadClick
| ResetClick
| Elapse (ms : Z)
| BlobReady (blob : option Blob).

(** One event, handled to completion.  An event the platform cannot
    deliver (a load nobody started, a callback nobody is owed) leaves the
    page as it is; reads and decodes complete in the order they began. *)
Definition handle (w : World) (e : Event) : World :=
  match e with
  | FileChosen file => handleFile file w
  | Dropped (Some file) =>
      if prefix "image/" (file_type file) then handleFile file w else w
  | Dropped None => w
  | ReaderLoaded result =>
      match reads w with
      | O => w
      | S n => reader_onload result (set_reads n w)
      end
  | ImageLoaded img =>
      match decodes w with
      | [] => w
      | result :: rest => img_onload result img (set_decodes rest w)
      end
  | QualityInput v => qualitySlider_input v w
  | WidthInput v => widthInput_input v w
  | HeightInput v => heightInput_input v w
  | AspectChange checked => aspectRatio_change checked w
  | FormatClick i => formatButton_click i w
  | DownloadClick => downloadCompressedImage w
  | ResetClick => resetCompressor w
  | Elapse ms => elapse ms w
  | BlobReady blob =>
      match pendingEncodes w with
      | O => w
      | S n => toBlob_callback blob (set_pendingEncodes n w)
      end
  end.

Definition run (w : World) (es : list Event) : World :=
  fold_left handle es w.

End Page.

(** ** A reference platform

    An engine whose [Math.log] is accurate to the last bit: the logarithm is
    summed in fixed point with 128 fractional bits and rounded once.
    [Math.pow] is exact on integral exponents, the only ones the page
    passes. *)

Module Reference.

Definition scale : Z := 2 ^ 128.

(** [atanh z = z + z^3/3 + z^5/5 + ...] in fixed point, for [|z| <= 1/3]. *)
Fixpoint atanh_series (n : nat) (z2 term : Z) (k : Z) : Z :=
  match n with
  | O => 0
  | S n' => term / k + atanh_series n' z2 (term * z2 / scale) (k + 2)
  end.

Definition atanh_fixed (z : Z) : Z :=
  atanh_series 48 (z * z / scale) z 1.

Definition ln2_fixed : Z := 2 * atanh_fixed (scale / 3).

(** [ln (m * 2^e)] in fixed point: with [d] the bit length of [m],
    [ln (m / 2^d) = 2 atanh ((m - 2^d) / (m + 2^d))]. *)
Definition ln_fixed (m : positive) (e : Z) : Z :=
  let d := Zpos (digits2_pos m) in
  let z := (Zpos m - 2 ^ d) * scale / (Zpos m + 2 ^ d) in
  (e + d) * ln2_fixed + 2 * atanh_fixed z.

Definition log (x : number) : number :=
  match x with
  | S754_nan => nan
  | S754_zero _ => S754_infinity true
  | S754_infinity s => if s then nan else x
  | S754_finite true _ _ => nan
  | S754_finite false m e =>
      if SFeqb x (of_Z 1) then S754_zero false
      else
        match ln_fixed m e with
        | Zpos p => of_ratio p (Z.to_pos scale)
        | Zneg p => SFopp (of_ratio p (Z.to_pos scale))
        | Z0 => S754_zero false
        end
  end.

Definition pow (x y : number) : number :=
  match to_Z y, x with
  | Some 0, _ => of_Z 1
  | Some (Zpos n), S754_finite s m e =>
      binary_normalize prec emax
        (cond_Zopp (s && Z.odd (Zpos n)) (Zpos (m ^ n))) (e * Zpos n) false
  | Some (Zneg n), S754_finite s m e =>
      let r := SFdiv prec emax (S754_finite false 1 0)
                 (S754_finite false (m ^ n) (e * Zpos n)) in
      if s && Z.odd (Zpos n) then SFopp r else r
  | _, _ => nan
  end.

End Reference.

#[export] Instance reference_platform : Platform := {|
  Math_log := Reference.log;
  Math_pow := Reference.pow
|}.

(** ** The page as it opens, and sample inputs *)

(** Modelled from the spec: the markup of the page is not among the
    sources.  The spec's formats are jpeg, png and webp, jpeg the default;
    quality opens at 80; the dimension fields open empty. *)
Definition initial_elements : Elements := {|
  uploadZone_display := "";
  compressionPanel_active := false;
  originalPreview_src := "";
  compressedPreview_src := "";
  originalInfo_fileSize := "";
  compressedInfo_fileSize := "";
  savings_text := "";
  savings_background := "";
  qualitySlider_value := "80";
  qualityValue_text := "80%";
  widthInput_value := "";
  widthInput_placeholder := "";
  heightInput_value := "";
  heightInput_placeholder := "";
  fileInput_value := "";
  formatButtons :=
    [ {| btn_format := "image/jpeg"; btn_active := true |};
      {| btn_format := "image/png"; btn_active := false |};
      {| btn_format := "image/webp"; btn_active := false |} ]
|}.

Definition initial_world : World := {|
  state := initial_state;
  elements := initial_elements;
  now := 0;
  cells := [];
  timers := [];
  nextTimer := O;
  reads := O;
  decodes := [];
  encodes := [];
  pendingEncodes := O;
  objectURLs := O;
  effects := []
|}.

Definition photo : File :=
  {| file_name := "photo.png"; file_type := "image/png";
     file_size := 1000000 |}.

Definition notes : File :=
  {| file_name := "notes.txt"; file_type := "text/plain"; file_size := 120 |}.

Definition photo_image : Image := {| img_width := 1200; img_height := 800 |}.

Definition strip_image : Image := {| img_width := 8; img_height := 2 |}.

Definition small_blob : Blob := {| blob_size := 750000; blob_data := 1%nat |}.

(** A file is picked, read and decoded. *)
Definition load (file : File) (result : string) (img : Image) : list Event :=
  [FileChosen file; ReaderLoaded result; ImageLoaded img].

(** The page after [photo] was loaded and its first encode delivered. *)
Definition loaded_world : World :=
  Eval vm_compute in
    run initial_world
        (load photo "data:image/png;base64,AAAA" photo_image
         ++ [BlobReady (Some small_blob)])%list.

(** The page with [photo] loaded, PNG chosen, the encode of that choice
    still owed. *)
Definition png_world : World :=
  Eval vm_compute in handle loaded_world (FormatClick 1).

(** The loaded page with the width field cleared, and with a negative
    width typed. *)
Definition cleared_world : World :=
  Eval vm_compute in on_elements (set_widthInput_value "") loaded_world.

Definition negative_world : World :=
  Eval vm_compute in on_elements (set_widthInput_value "-5") loaded_world.

(** The page with the 8 x 2 [strip_image] loaded. *)
Definition strip_world : World :=
  Eval vm_compute in run initial_world (load photo "data:" strip_image).

(** The request every encode of the loaded page carries at quality 80. *)
Definition request_at_80 : EncodeRequest :=
  {| req_canvas_width := 1200; req_canvas_height := 800;
     req_width := of_Z 1200; req_height := of_Z 800;
     req_format := "image/jpeg";
     req_quality := Some (div (of_Z 80) (of_Z 100)) |}.

(** Three slider moves 10 ms apart, then the quiet window. *)
Definition rapid_quality_inputs : list Event :=
  [QualityInput "90"; Elapse 10; QualityInput "85"; Elapse 10;
   QualityInput "80"; Elapse 100].

(** The same three calls made through one debounced function. *)
Definition shared_debounce_calls (w : World) : World :=
  let '(d, w) := debounce compressImage_fn 100 w in
  let w := executedFunction d w in
  let w := elapse 10 w in
  let w := executedFunction d w in
  let w := elapse 10 w in
  let w := executedFunction d w in
  elapse 100 w.

(** ** The spec's words *)

(** Something reached the user between [w] and [w']: an alert, a download,
    a reported exception, or a change anywhere in the page's elements. *)
Definition surfaced (w w' : World) : Prop :=
  effects w' <> effects w \/ elements w' <> elements w.

(** The spec's words for the savings: [(1 - E/S) * 100] as an exact
    fraction, rounded to the nearest integer, halves away from zero. *)
Definition spec_savingsPercent (S E : Z) : Z :=
  let num := 100 * (S - E) in
  Z.sgn num * ((2 * Z.abs num + S) / (2 * S)).

(** ** Numbers, exactly *)

(** Neither [NaN] nor an infinity. *)
Definition finite (x : number) : bool :=
  match x with
  | S754_zero _ | S754_finite _ _ _ => true
  | _ => false
  end.

(** [r - 1/2 <= x < r + 1/2]: [r] is the integer nearest to [x], the
    upper one when [x] lies half way. *)
Definition nearest_ties_up (x : number) (r : Z) : Prop :=
  match x with
  | S754_zero _ => r = 0
  | S754_finite s m e =>
      (2 * r - 1) * 2 ^ Z.max 0 (- e)
      <= 2 * cond_Zopp s (Zpos m) * 2 ^ Z.max 0 e
      < (2 * r + 1) * 2 ^ Z.max 0 (- e)
  | _ => False
  end.

(** A mantissa of at most 53 bits, as every rounded result has. *)
Definition bounded_mantissa (x : number) : Prop :=
  match x with
  | S754_finite _ m _ => Zpos m < 2 ^ 53
  | _ => True
  end.

(** Zero, or a finite number of at most 53 bits whose exponent is at most
    [k]. *)
Definition small (k : Z) (x : number) : Prop :=
  match x with
  | S754_zero _ => True
  | S754_finite _ m e => Zpos m < 2 ^ 53 /\ e <= k
  | _ => False
  end.

(** Zero, or an integer below [2^53] as [of_Z] represents it. *)
Definition integral53 (x : number) : Prop :=
  match x with
  | S754_zero _ => True
  | S754_finite _ m e => Zpos m < 2 ^ 53 /\ -52 <= e <= 0
  | _ => False
  end.

(** The mantissa of a small integer, shifted to 53 bits. *)
Definition normal_mantissa (p : positive) : positive :=
  match (53 - Zpos (digits2_pos p))%Z with
  | Zpos q => Pos.iter xO p q
  | _ => p
  end.

(** The value of a string of decimal digits, read left to right. *)
Fixpoint uint_value (u : Decimal.uint) (acc : Z) : Z :=
  match u with
  | Decimal.Nil => acc
  | Decimal.D0 l => uint_value l (acc * 10 + 0)
  | Decimal.D1 l => uint_value l (acc * 10 + 1)
  | Decimal.D2 l => uint_value l (acc * 10 + 2)
  | Decimal.D3 l => uint_value l (acc * 10 + 3)
  | Decimal.D4 l => uint_value l (acc * 10 + 4)
  | Decimal.D5 l => uint_value l (acc * 10 + 5)
  | Decimal.D6 l => uint_value l (acc * 10 + 6)
  | Decimal.D7 l => uint_value l (acc * 10 + 7)
  | Decimal.D8 l => uint_value l (acc * 10 + 8)
  | Decimal.D9 l => uint_value l (acc * 10 + 9)
  end.

(** ** Invariants *)

(** The stored aspect ratio is the one of the stored image. *)
Definition ratio_consistent (s : State) : Prop :=
  forall img,
    originalImage s = Some img ->
    aspectRatio s = div (of_Z (img_width img)) (of_Z (img_height img)).

(** The timer a slider move sets. *)
Definition slider_timer (w : World) : Timer :=
  {| timer_id := nextTimer w; timer_due := now w + 100;
     timer_later := {| db_func := compressImage_fn; db_wait := 100;
                       db_cell := List.length (cells w) |} |}.

(** A queue of timers as a burst of calls leaves it: all due at [due],
    ids distinct, each closure's [timeout] naming its own timer. *)
Definition burst_queue (due : Z) (w : World) : Prop :=
  NoDup (map timer_id (timers w))
  /\ Forall (fun t => timer_due t = due
                      /\ timeout_of (timer_later t) w = Some (timer_id t))
            (timers w).

(** The page in the middle of a burst that began at [w0]: the clock, the
    image and the encodes are those of [w0], and the timers form a burst
    queue whose ids and cells are all allocated. *)
Definition in_burst (w0 w : World) : Prop :=
  now w = now w0
  /\ originalImage (state w) = originalImage (state w0)
  /\ encodes w = encodes w0
  /\ burst_queue (now w0 + 100) w
  /\ Forall (fun t => (timer_id t < nextTimer w)%nat
                      /\ (db_cell (timer_later t) < List.length (cells w))%nat)
            (timers w).

(** ** Notions for the further properties *)

(** A request as [compressImage] builds it: the quality argument is left
    out exactly when the format is PNG. *)
Definition quality_fits_format (r : EncodeRequest) : Prop :=
  req_quality r = None <-> req_format r = "image/png".

(** Any [img.onload] among the events. *)
Definition is_ImageLoaded (e : Event) : bool :=
  match e with
  | ImageLoaded _ => true
  | _ => false
  end.

(** No ['.'] anywhere in the string. *)
Fixpoint no_dot (s : string) : bool :=
  match s with
  | String c r => negb (c =? ".")%char && no_dot r
  | EmptyString => true
  end.

(** No ['/'] anywhere in the string. *)
Fixpoint no_slash (s : string) : bool :=
  match s with
  | String c r => negb (c =? "/")%char && no_slash r
  | EmptyString => true
  end.

(** Calls of one debounced function [d]: a call, then for every gap in
    [gaps] that many milliseconds and another call. *)
Fixpoint debounced_calls (d : Debounced) (gaps : list Z) (w : World)
  : World :=
  match gaps with
  | [] => executedFunction d w
  | g :: r => debounced_calls d r (elapse g (executedFunction d w))
  end.

(** The only pending timer, if there is one, is the one [d]'s [timeout]
    names, and [d]'s [timeout] variable exists. *)
Definition sole_timer (d : Debounced) (w : World) : Prop :=
  (db_cell d < List.length (cells w))%nat
  /\ (timers w = []
      \/ exists t, timers w = [t] /\ timeout_of d w = Some (timer_id t)).

(** The wait a control's listener hands to [debounce]. *)
Definition wait_of (e : Event) : option Z :=
  match e with
  | QualityInput _ => Some 100
  | WidthInput _ | HeightInput _ => Some 300
  | _ => None
  end.

(** The integers from [lo] on, [n] of them. *)
Definition Z_range (lo : Z) (n : nat) : list Z :=
  map (fun i => lo + Z.of_nat i) (seq 0 n).

(** The units of [formatFileSize], by index. *)
Definition unit_name (u : Z) : string :=
  nth (Z.to_nat u) ["Bytes"; "KB"; "MB"; "GB"] "".

(** What [formatFileSize] computes for [q] units of index [u] once the
    engine has given it the index and the power: not zero, and printed as
    the whole number [q]. *)
Definition whole_units_print (u q : Z) : bool :=
  negb (strict_eq (of_Z (q * 1024 ^ u)) (of_Z 0))
  && (NumberToString
        (parseFloat
           (toFixed (div (of_Z (q * 1024 ^ u)) (of_Z (1024 ^ u))) 2))
      =? digits q)%string.

(** A slider position read back: [parseInt] gives the number, and the
    number prints as the same digits. *)
Definition slider_value_reads_back (q : Z) : bool :=
  SFeqb (parseInt (digits q)) (of_Z q)
  && (NumberToString (parseInt (digits q)) =? digits q)%string.

(** A second picture, chosen while [photo] is still being read. *)
Definition icon : File :=
  {| file_name := "icon.gif"; file_type := "image/gif"; file_size := 2048 |}.

(** A scan whose name has no extension, loaded and encoded once. *)
Definition scan : File :=
  {| file_name := "scan"; file_type := "image/jpeg"; file_size := 500000 |}.

Definition scan_world : World :=
  Eval vm_compute in
    run initial_world
        (load scan "data:image/jpeg;base64,AAAA" photo_image
         ++ [BlobReady (Some small_blob)])%list.

(** The loaded page after 4294967296, which is [2^32], was typed into
    the width field; the lock being on, the height field follows. *)
Definition wide_world : World :=
  Eval vm_compute in handle loaded_world (WidthInput "4294967296").

Definition webp_blob : Blob := {| blob_size := 400000; blob_data := 2%nat |}.

(** The page of [png_world] after WebP was chosen as well: two encodes
    are owed. *)
Definition two_pending_world : World :=
  Eval vm_compute in handle png_world (FormatClick 2).

(** ** The upload zone's highlight and the navigation bar *)

(** What [document.querySelector(link.getAttribute('href'))] does for a
    link: it finds an element, finds none, or throws because the [href]
    is no selector. *)
Inductive Target := Found | Missing | Malformed.

(** A [.nav-link]: where its [href] leads and whether its class list
    holds ['active']. *)
Record NavLink := {
  link_target : Target;
  link_active : bool
}.

Inductive NavEffect :=
| ScrollIntoView (link : nat)
| UncaughtError.

(** The parts of the page [setupUploadZone] and [setupNavigation] write
    besides those of [World]:
    - [uploadZone_dragover]: the zone's class list holds ['dragover'];
    - [navLinks_active]: the [.nav-links] element's class list holds
      ['active'], [None] when the page has no such element;
    - [nav_links]: the [.nav-link] elements, in document order;
    - [nav_effects]: scrolls and uncaught exceptions, oldest first. *)
Record Chrome := {
  uploadZone_dragover : bool;
  navLinks_active : option bool;
  nav_links : list NavLink;
  nav_effects : list NavEffect
}.

Definition set_uploadZone_dragover (v : bool) (c : Chrome) : Chrome :=
  {| uploadZone_dragover := v; navLinks_active := navLinks_active c;
     nav_links := nav_links c; nav_effects := nav_effects c |}.

Definition set_navLinks_active (v : option bool) (c : Chrome) : Chrome :=
  {| uploadZone_dragover := uploadZone_dragover c; navLinks_active := v;
     nav_links := nav_links c; nav_effects := nav_effects c |}.

Definition set_nav_links (v : list NavLink) (c : Chrome) : Chrome :=
  {| uploadZone_dragover := uploadZone_dragover c;
     navLinks_active := navLinks_active c;
     nav_links := v; nav_effects := nav_effects c |}.

Definition nav_emit (e : NavEffect) (c : Chrome) : Chrome :=
  {| uploadZone_dragover := uploadZone_dragover c;
     navLinks_active := navLinks_active c;
     nav_links := nav_links c; nav_effects := nav_effects c ++ [e] |}.

(** The zone's ['dragover'] and ['dragleave'] listeners. *)
Definition uploadZone_dragover_listener (c : Chrome) : Chrome :=
  set_uploadZone_dragover true c.

Definition uploadZone_dragleave (c : Chrome) : Chrome :=
  set_uploadZone_dragover false c.

(** The menu toggle's ['click'] listener. *)
Definition menuToggle_click (c : Chrome) : Chrome :=
  match navLinks_active c with
  | Some a => set_navLinks_active (Some (negb a)) c
  | None => nav_emit UncaughtError c
  end.

Definition set_link_active (v : bool) (l : NavLink) : NavLink :=
  {| link_target := link_target l; link_active := v |}.

(** The end of a link's listener: every link loses ['active'], then the
    clicked one gets it. *)
Definition update_active (i : nat) (link : NavLink) (c : Chrome) : Chrome :=
  set_nav_links
    (update_nth i (set_link_active true link)
                (map (set_link_active false) (nav_links c))) c.

(** The ['click'] listener of the [i]-th [.nav-link]; a link the page
    does not have is never clicked. *)
Definition navLink_click (i : nat) (c : Chrome) : Chrome :=
  match nth_error (nav_links c) i with
  | None => c
  | Some link =>
      match link_target link with
      | Malformed => nav_emit UncaughtError c
      | Missing => update_active i link c
      | Found =>
          let c := nav_emit (ScrollIntoView i) c in
          match navLinks_active c with
          | None => nav_emit UncaughtError c
          | Some _ =>
              update_active i link (set_navLinks_active (Some false) c)
          end
      end
  end.

(** The zone's ['drop'] listener. *)
Definition uploadZone_drop `{Platform} (file : option File)
           (cw : Chrome * World) : Chrome * World :=
  (set_uploadZone_dragover false (fst cw), handle (snd cw) (Dropped file)).

(** A bar of three links, the second leading nowhere, the third with an
    [href] that is no selector; the first is marked. *)
Definition sample_chrome : Chrome :=
  {| uploadZone_dragover := true;
     navLinks_active := Some true;
     nav_links := [{| link_target := Found; link_active := true |};
                   {| link_target := Missing; link_active := false |};
                   {| link_target := Malformed; link_active := false |}];
     nav_effects := [] |}.

(* ================================================================== *)
(** * Properties *)

(** Reading a field back from a chain of field updates. *)
Ltac fields :=
  cbn [originalFile originalImage compressedBlob quality outputFormat
       aspectRatio lockAspectRatio uploadZone_display
       compressionPanel_active originalPreview_src compressedPreview_src
       originalInfo_fileSize compressedInfo_fileSize savings_text
       savings_background qualitySlider_value qualityValue_text
       widthInput_value widthInput_placeholder heightInput_value
       heightInput_placeholder fileInput_value formatButtons state elements
       now cells timers nextTimer reads decodes encodes pendingEncodes
       objectURLs effects set_originalFile set_originalImage
       set_compressedBlob set_quality set_outputFormat set_aspectRatio
       set_lockAspectRatio set_uploadZone_display
       set_compressionPanel_active set_originalPreview_src
       set_compressedPreview_src set_originalInfo_fileSize
       set_compressedInfo_fileSize set_savings_text set_savings_background
       set_qualitySlider_value set_qualityValue_text set_widthInput_value
       set_widthInput_placeholder set_heightInput_value
       set_heightInput_placeholder set_fileInput_value set_formatButtons
       set_state set_elements set_now set_cells set_timers set_nextTimer
       set_reads set_decodes set_encodes set_pendingEncodes set_objectURLs
       set_effects on_state on_elements emit].

(** ** Numbers *)

Lemma digits2_pos_bound (p : positive) :
  2 ^ (Zpos (digits2_pos p) - 1) <= Zpos p < 2 ^ Zpos (digits2_pos p).
Proof.
  induction p as [p IH | p IH |]; cbn [digits2_pos].
  - rewrite Pos2Z.inj_succ, (Pos2Z.inj_xI p).
    set (d := Zpos (digits2_pos p)) in *.
    assert (Hd : 2 ^ d = 2 * 2 ^ (d - 1)).
    { rewrite <- Z.pow_succ_r by lia. f_equal. lia. }
    replace (Z.succ d - 1) with d by lia.
    rewrite Z.pow_succ_r by lia. clearbody d. lia.
  - rewrite Pos2Z.inj_succ, (Pos2Z.inj_xO p).
    set (d := Zpos (digits2_pos p)) in *.
    assert (Hd : 2 ^ d = 2 * 2 ^ (d - 1)).
    { rewrite <- Z.pow_succ_r by lia. f_equal. lia. }
    replace (Z.succ d - 1) with d by lia.
    rewrite Z.pow_succ_r by lia. clearbody d. lia.
  - cbn. lia.
Qed.

Lemma iter_xO_value (p q : positive) :
  Zpos (Pos.iter xO p q) = Zpos p * 2 ^ Zpos q.
Proof.
  induction q as [|q IH] using Pos.peano_ind.
  - cbn. lia.
  - rewrite Pos.iter_succ, (Pos2Z.inj_xO (Pos.iter xO p q)), IH,
      Pos2Z.inj_succ, Z.pow_succ_r by lia.
    lia.
Qed.

Lemma iter_xO_digits (p q : positive) :
  digits2_pos (Pos.iter xO p q) = (digits2_pos p + q)%positive.
Proof.
  induction q as [|q IH] using Pos.peano_ind.
  - cbn. lia.
  - rewrite Pos.iter_succ. cbn [digits2_pos]. rewrite IH. lia.
Qed.

Lemma binary_round_small (s : bool) (p : positive) :
  Zpos p < 2 ^ 53 ->
  binary_round prec emax s p 0
  = S754_finite s (normal_mantissa p) (Zpos (digits2_pos p) - 53).
Proof.
  intros Hp.
  assert (Hd : Zpos (digits2_pos p) <= 53).
  { pose proof (digits2_pos_bound p) as [Hlo _].
    destruct (Z_le_gt_dec (Zpos (digits2_pos p)) 53) as [|Hgt]; [assumption|].
    assert (2 ^ 53 <= 2 ^ (Zpos (digits2_pos p) - 1))
      by (apply Z.pow_le_mono_r; lia). lia. }
  unfold binary_round.
  set (d := digits2_pos p) in *.
  assert (Hfexp : fexp prec emax (Zpos d + 0) = Zpos d - 53).
  { unfold fexp, emin, prec, emax. lia. }
  rewrite Hfexp.
  assert (Halign : shl_align p 0 (Zpos d - 53)
                   = (normal_mantissa p, Zpos d - 53)).
  { unfold shl_align, normal_mantissa. fold d.
    rewrite Z.sub_0_r.
    destruct (Zpos d - 53) as [|q|q] eqn:Hq; try lia.
    - replace (53 - Zpos d) with 0 by lia. reflexivity.
    - replace (53 - Zpos d) with (Zpos q) by lia. reflexivity. }
  rewrite Halign.
  assert (Hdm : Zpos (digits2_pos (normal_mantissa p)) = 53).
  { unfold normal_mantissa. fold d.
    destruct (53 - Zpos d) as [|q|q] eqn:Hq; try lia.
    rewrite iter_xO_digits. fold d. lia. }
  unfold binary_round_aux, shr_fexp. cbn [Zdigits2]. rewrite Hdm.
  assert (Hshift : fexp prec emax (53 + (Zpos d - 53)) - (Zpos d - 53) = 0).
  { unfold fexp, emin, prec, emax. lia. }
  rewrite Hshift.
  cbn [shr shr_record_of_loc shr_m loc_of_shr_record round_nearest_even
       Zdigits2].
  rewrite Hdm, Hshift. cbn [shr shr_record_of_loc shr_m].
  replace (Zpos d - 53 <=? emax - prec) with true; [reflexivity|].
  symmetry. apply Z.leb_le. unfold emax, prec. lia.
Qed.

Lemma normal_mantissa_value (p : positive) :
  Zpos (digits2_pos p) <= 53 ->
  Zpos (normal_mantissa p) = Zpos p * 2 ^ (53 - Zpos (digits2_pos p)).
Proof.
  intros Hd. unfold normal_mantissa.
  destruct (53 - Zpos (digits2_pos p)) as [|q|q] eqn:Hq; try lia.
  apply iter_xO_value.
Qed.

Lemma digits2_pos_small (p : positive) :
  Zpos p < 2 ^ 53 -> Zpos (digits2_pos p) <= 53.
Proof.
  intros Hp. pose proof (digits2_pos_bound p) as [Hlo _].
  destruct (Z_le_gt_dec (Zpos (digits2_pos p)) 53) as [|Hgt]; [assumption|].
  assert (2 ^ 53 <= 2 ^ (Zpos (digits2_pos p) - 1))
    by (apply Z.pow_le_mono_r; lia). lia.
Qed.

(** Integers below [2^53] in magnitude are Numbers, exactly. *)
Lemma to_Z_of_Z (z : Z) : Z.abs z < 2 ^ 53 -> to_Z (of_Z z) = Some z.
Proof.
  intros Hz. destruct z as [|p|p]; [reflexivity| |].
  all: unfold of_Z, binary_normalize; rewrite binary_round_small by lia.
  all: pose proof (digits2_pos_small p ltac:(lia)) as Hd.
  all: pose proof (normal_mantissa_value p Hd) as Hm.
  all: unfold to_Z.
  all: destruct (0 <=? Zpos (digits2_pos p) - 53) eqn:He;
    [ apply Z.leb_le in He;
      assert (He' : Zpos (digits2_pos p) = 53) by lia;
      rewrite He' in Hm |- *; rewrite Hm; cbn [cond_Zopp];
      change (2 ^ (53 - 53)) with 1; f_equal; lia
    | apply Z.leb_gt in He;
      replace (- (Zpos (digits2_pos p) - 53))
        with (53 - Zpos (digits2_pos p)) by lia;
      rewrite Hm, Z.mod_mul, Z.eqb_refl, Z.div_mul by lia;
      reflexivity ].
Qed.

Lemma truthy_of_Z (z : Z) :
  z <> 0 -> Z.abs z < 2 ^ 53 -> truthy (of_Z z) = true.
Proof.
  intros Hnz Hz. destruct z as [|p|p]; [congruence| |];
    unfold of_Z, binary_normalize; rewrite binary_round_small by lia;
    reflexivity.
Qed.

(** *** Decimal digits read back *)

Lemma of_uint_acc_value (u : Decimal.uint) :
  forall acc, Zpos (Pos.of_uint_acc u acc) = uint_value u (Zpos acc).
Proof.
  induction u; intros acc; cbn [Pos.of_uint_acc uint_value];
    try reflexivity; rewrite IHu; f_equal; lia.
Qed.

Lemma of_uint_value (u : Decimal.uint) :
  Z.of_N (N.of_uint u) = uint_value u 0.
Proof.
  unfold N.of_uint.
  induction u; cbn [Pos.of_uint uint_value]; try reflexivity;
    try (cbn [Z.of_N]; rewrite of_uint_acc_value; reflexivity).
  exact IHu.
Qed.

Lemma read_digits_uint (u : Decimal.uint) :
  forall a,
    read_digits 10 (NilEmpty.string_of_uint u) (Some a)
    = (Some (uint_value u a), "").
Proof.
  induction u; intros a; cbn [NilEmpty.string_of_uint uint_value];
    try reflexivity;
    cbn [read_digits];
    match goal with
    | |- context [digit_value 10 ?c] =>
        change (digit_value 10 c) with (Some (Z.of_N (N_of_ascii c) - 48))
    end; cbn [N_of_ascii N_of_digits Z.of_N]; apply IHu.
Qed.

Lemma of_Z_unsigned (z : Z) :
  match z with
  | 0 => S754_zero false
  | _ => of_Z (cond_Zopp false z)
  end = of_Z z.
Proof. destruct z; reflexivity. Qed.

(** A string that starts with an ASCII character other than white space
    has nothing to trim. *)
Lemma trim_start_ascii (c : ascii) (r : string) :
  is_white_space c = false -> (N_of_ascii c <? 128)%N = true ->
  trim_start (String c r) = String c r.
Proof.
  intros Hws Hc. apply N.ltb_lt in Hc.
  assert (H2 : forall d, is_white_space_2 c d = false).
  { intros d. unfold is_white_space_2.
    destruct (N.eqb_spec (N_of_ascii c) 194); [lia|reflexivity]. }
  assert (H3 : forall d e, is_white_space_3 c d e = false).
  { intros d e. unfold is_white_space_3. cbv zeta.
    destruct (N.eqb_spec (N_of_ascii c) 225); [lia|].
    destruct (N.eqb_spec (N_of_ascii c) 226); [lia|].
    destruct (N.eqb_spec (N_of_ascii c) 227); [lia|].
    destruct (N.eqb_spec (N_of_ascii c) 239); [lia|].
    reflexivity. }
  cbn [trim_start]. rewrite Hws.
  destruct r as [|d [|e r2]]; rewrite ?H2, ?H3; reflexivity.
Qed.

Ltac first_digit :=
  rewrite trim_start_ascii by reflexivity;
  cbn iota; cbn [read_sign]; cbn iota;
  cbn [read_digits];
  match goal with
  | |- context [digit_value 10 ?c] =>
      change (digit_value 10 c) with (Some (Z.of_N (N_of_ascii c) - 48))
  end;
  cbn [N_of_ascii N_of_digits Z.of_N];
  rewrite read_digits_uint; cbn [fst]; apply of_Z_unsigned.

Lemma parseInt_string_of_uint (u : Decimal.uint) :
  parseInt (NilZero.string_of_uint u) = of_Z (uint_value u 0).
Proof.
  destruct u as [|l|l|l|l|l|l|l|l|l|l];
    [reflexivity| |
     unfold parseInt; cbn [NilZero.string_of_uint NilEmpty.string_of_uint
                           uint_value]; first_digit ..].
  unfold parseInt.
  destruct l; cbn [NilZero.string_of_uint NilEmpty.string_of_uint
                   uint_value]; [reflexivity|..].
  all: rewrite trim_start_ascii by reflexivity;
    cbn iota; cbn [read_sign]; cbn iota.
  all: cbn [read_digits].
  all: repeat match goal with
  | |- context [digit_value 10 ?c] =>
      change (digit_value 10 c) with (Some (Z.of_N (N_of_ascii c) - 48))
  end; cbn [N_of_ascii N_of_digits Z.of_N].
  all: rewrite read_digits_uint; cbn [fst]; apply of_Z_unsigned.
Qed.

Lemma parseInt_digits (n : Z) :
  0 <= n -> parseInt (digits n) = of_Z n.
Proof.
  intros Hn. unfold digits. rewrite parseInt_string_of_uint.
  rewrite <- of_uint_value, DecimalN.Unsigned.of_to, Z2N.id by assumption.
  reflexivity.
Qed.

(** *** Rounded results *)

Lemma shr_1_m (mrs : shr_record) :
  0 <= shr_m mrs -> shr_m (shr_1 mrs) = shr_m mrs / 2.
Proof.
  destruct mrs as [m r s]. cbn [shr_m]. intros Hm.
  destruct m as [|[p|p|]|p]; cbn [shr_1 shr_m].
  - reflexivity.
  - apply Z.div_unique with 1; lia.
  - apply Z.div_unique with 0; lia.
  - reflexivity.
  - lia.
Qed.

Lemma iter_shr_1_m (p : positive) :
  forall mrs,
    0 <= shr_m mrs ->
    shr_m (iter_pos shr_1 p mrs) = shr_m mrs / 2 ^ Zpos p.
Proof.
  induction p as [p IH|p IH|]; intros mrs Hm; cbn [iter_pos].
  - assert (H1 : 0 <= shr_m (shr_1 mrs))
      by (rewrite shr_1_m by assumption; apply Z.div_pos; lia).
    assert (H2 : 0 <= shr_m (iter_pos shr_1 p (shr_1 mrs)))
      by (rewrite IH by assumption; apply Z.div_pos; lia).
    rewrite IH, IH, shr_1_m by assumption.
    rewrite !Z.div_div by lia. f_equal.
    replace (Zpos p~1) with (1 + Zpos p + Zpos p) by lia.
    rewrite !Z.pow_add_r by lia. change (2 ^ 1) with 2. ring.
  - assert (H2 : 0 <= shr_m (iter_pos shr_1 p mrs))
      by (rewrite IH by assumption; apply Z.div_pos; lia).
    rewrite IH, IH by assumption.
    rewrite !Z.div_div by lia. f_equal.
    replace (Zpos p~0) with (Zpos p + Zpos p) by lia.
    rewrite Z.pow_add_r by lia. reflexivity.
  - rewrite shr_1_m by assumption. reflexivity.
Qed.

Lemma Zdigits2_bound (m : Z) : 0 <= m -> m < 2 ^ Zdigits2 m.
Proof.
  destruct m as [|p|p]; intros Hm; cbn [Zdigits2]; try lia.
  apply digits2_pos_bound.
Qed.

Lemma shr_record_of_loc_m (m : Z) (l : location) :
  shr_m (shr_record_of_loc m l) = m.
Proof. destruct l as [|[]]; reflexivity. Qed.

(** Whatever goes into [shr_fexp] comes out with at most 53 bits. *)
Lemma shr_fexp_m (m e : Z) (l : location) :
  0 <= m ->
  0 <= shr_m (fst (shr_fexp prec emax m e l)) < 2 ^ 53.
Proof.
  intros Hm. unfold shr_fexp, shr.
  pose proof (Zdigits2_bound m Hm) as Hd.
  assert (Hfexp : Zdigits2 m + e - 53 <= fexp prec emax (Zdigits2 m + e))
    by (unfold fexp, prec; lia).
  assert (Hdn : 0 <= Zdigits2 m) by (destruct m; cbn; lia).
  destruct (fexp prec emax (Zdigits2 m + e) - e) as [|p|p] eqn:Hn;
    cbn [fst].
  - rewrite shr_record_of_loc_m. split; [assumption|].
    assert (2 ^ Zdigits2 m <= 2 ^ 53) by (apply Z.pow_le_mono_r; lia). lia.
  - rewrite iter_shr_1_m by (rewrite shr_record_of_loc_m; assumption).
    rewrite shr_record_of_loc_m. split; [apply Z.div_pos; lia|].
    apply Z.div_lt_upper_bound; [lia|].
    assert (2 ^ Zdigits2 m <= 2 ^ (Zpos p + 53))
      by (apply Z.pow_le_mono_r; lia).
    rewrite Z.pow_add_r in * by lia. lia.
  - rewrite shr_record_of_loc_m. split; [assumption|].
    assert (2 ^ Zdigits2 m <= 2 ^ 53) by (apply Z.pow_le_mono_r; lia). lia.
Qed.

Lemma round_nearest_even_lower (m : Z) (l : location) :
  m <= round_nearest_even m l.
Proof. destruct l as [|[]]; cbn [round_nearest_even]; try lia.
  destruct (Z.even m); lia. Qed.

Lemma binary_round_aux_mantissa (s : bool) (m e : Z) (l : location) :
  0 <= m -> bounded_mantissa (binary_round_aux prec emax s m e l).
Proof.
  intros Hm. unfold binary_round_aux.
  pose proof (shr_fexp_m m e l Hm) as H1.
  destruct (shr_fexp prec emax m e l) as [mrs' e'] eqn:Hs1. cbn [fst] in H1.
  set (m2 := round_nearest_even (shr_m mrs') (loc_of_shr_record mrs')).
  assert (Hm2 : 0 <= m2)
    by (pose proof (round_nearest_even_lower (shr_m mrs')
                      (loc_of_shr_record mrs')); subst m2; lia).
  pose proof (shr_fexp_m m2 e' loc_Exact Hm2) as H2.
  destruct (shr_fexp prec emax m2 e' loc_Exact) as [mrs'' e''] eqn:Hs2.
  cbn [fst] in H2.
  destruct (shr_m mrs'') as [|p|p]; cbn [bounded_mantissa]; try exact I.
  destruct (e'' <=? emax - prec); cbn [bounded_mantissa]; [lia|exact I].
Qed.

Lemma mul_mantissa (a b : number) : bounded_mantissa (mul a b).
Proof.
  destruct a as [sa|sa| |sa ma ea], b as [sb|sb| |sb mb eb];
    try exact I.
  unfold mul, SFmul. apply binary_round_aux_mantissa. lia.
Qed.

(** *** No overflow *)

Lemma small_finite (k : Z) (x : number) : small k x -> finite x = true.
Proof. destruct x; cbn; intros; try reflexivity; contradiction. Qed.

Lemma Zdigits2_le (m j : Z) : 0 <= m -> 0 <= j -> m < 2 ^ j -> Zdigits2 m <= j.
Proof.
  intros Hm Hj Hlt. destruct m as [|p|p]; cbn [Zdigits2]; try lia.
  pose proof (digits2_pos_bound p) as [Hlo _].
  destruct (Z_le_gt_dec (Zpos (digits2_pos p)) j) as [|Hgt]; [assumption|].
  assert (2 ^ j <= 2 ^ (Zpos (digits2_pos p) - 1))
    by (apply Z.pow_le_mono_r; lia). lia.
Qed.

Lemma shr_fexp_e (m e : Z) (l : location) :
  snd (shr_fexp prec emax m e l) = Z.max e (fexp prec emax (Zdigits2 m + e)).
Proof.
  unfold shr_fexp, shr.
  destruct (fexp prec emax (Zdigits2 m + e) - e) as [|p|p] eqn:Hn;
    cbn [snd]; lia.
Qed.

Lemma round_nearest_even_upper (m : Z) (l : location) :
  round_nearest_even m l <= m + 1.
Proof.
  destruct l as [|[]]; cbn [round_nearest_even]; try lia.
  destruct (Z.even m); lia.
Qed.

(** Rounding a mantissa whose exponent and magnitude are at most [k]
    neither overflows nor fails. *)
Lemma binary_round_aux_small (s : bool) (m e : Z) (l : location) (k : Z) :
  0 <= m -> e <= k -> Zdigits2 m + e - 53 <= k -> -1074 <= k <= 970 ->
  small (k + 1) (binary_round_aux prec emax s m e l).
Proof.
  intros Hm He Hd Hk. unfold binary_round_aux.
  pose proof (shr_fexp_m m e l Hm) as H1.
  pose proof (shr_fexp_e m e l) as E1.
  destruct (shr_fexp prec emax m e l) as [mrs' e'] eqn:Hs1.
  cbn [fst snd] in H1, E1.
  set (m2 := round_nearest_even (shr_m mrs') (loc_of_shr_record mrs')).
  assert (Hm2 : 0 <= m2 <= 2 ^ 53).
  { pose proof (round_nearest_even_lower (shr_m mrs')
                  (loc_of_shr_record mrs')).
    pose proof (round_nearest_even_upper (shr_m mrs')
                  (loc_of_shr_record mrs')).
    subst m2. lia. }
  pose proof (shr_fexp_m m2 e' loc_Exact ltac:(lia)) as H2.
  pose proof (shr_fexp_e m2 e' loc_Exact) as E2.
  destruct (shr_fexp prec emax m2 e' loc_Exact) as [mrs'' e''] eqn:Hs2.
  cbn [fst snd] in H2, E2.
  assert (Hd2 : Zdigits2 m2 <= 54).
  { apply Zdigits2_le; [lia|lia|].
    change (2 ^ 54) with (2 * 2 ^ 53). lia. }
  assert (He' : e' <= k).
  { subst e'. unfold fexp, emin, prec, emax. lia. }
  assert (He'' : e'' <= k + 1).
  { subst e''. unfold fexp, emin, prec, emax. lia. }
  destruct (shr_m mrs'') as [|p|p]; cbn [small]; try lia.
  replace (e'' <=? emax - prec) with true
    by (symmetry; apply Z.leb_le; unfold emax, prec; lia).
  cbn [small]. lia.
Qed.

Lemma of_Z_integral53 (z : Z) : Z.abs z < 2 ^ 53 -> integral53 (of_Z z).
Proof.
  intros Hz. destruct z as [|p|p]; [exact I| |];
    unfold of_Z, binary_normalize; rewrite binary_round_small by lia;
    cbn [integral53];
    pose proof (digits2_pos_small p ltac:(lia)) as Hd;
    pose proof (normal_mantissa_value p Hd) as Hv;
    pose proof (digits2_pos_bound p) as [_ Hhi].
  all: split; [|lia].
  all: rewrite Hv.
  all: assert (Hpow : 2 ^ 53 = 2 ^ Zpos (digits2_pos p)
                              * 2 ^ (53 - Zpos (digits2_pos p)))
    by (rewrite <- Z.pow_add_r by lia; f_equal; lia).
  all: rewrite Hpow; apply Z.mul_lt_mono_pos_r; [apply Z.pow_pos_nonneg; lia|].
  all: exact Hhi.
Qed.

Lemma div_small (a b : number) :
  integral53 a -> integral53 b -> truthy b = true -> small 53 (div a b).
Proof.
  destruct a as [sa|sa| |sa ma ea], b as [sb|sb| |sb mb eb];
    cbn [integral53 truthy]; try contradiction; try discriminate;
    intros Ha Hb _; [exact I|].
  unfold div, SFdiv, SFdiv_core_binary.
  set (e' := Z.min _ _).
  assert (He' : e' <= ea - eb) by (subst e'; lia).
  set (sh := ea - eb - e').
  set (m' := match sh with Zpos _ => Z.shiftl (Zpos ma) sh | 0 => Zpos ma
             | Zneg _ => 0 end).
  assert (Hm' : 0 <= m' < 2 ^ (53 + sh)).
  { subst m'. destruct sh as [|p|p] eqn:Hsh; try lia.
    rewrite Z.shiftl_mul_pow2, Z.pow_add_r by lia.
    assert (0 < 2 ^ Zpos p) by (apply Z.pow_pos_nonneg; lia). nia. }
  assert (Hq : Z.div_eucl m' (Zpos mb) = (m' / Zpos mb, m' mod Zpos mb))
    by (unfold Z.div, Z.modulo; destruct (Z.div_eucl m' (Zpos mb));
        reflexivity).
  rewrite Hq.
  assert (Hq0 : 0 <= m' / Zpos mb <= m').
  { split; [apply Z.div_pos; lia|]. apply Z.div_le_upper_bound; [lia|]. nia. }
  apply (binary_round_aux_small _ _ _ _ 52); try lia.
  assert (Zdigits2 (m' / Zpos mb) <= 53 + sh)
    by (apply Zdigits2_le; lia).
  lia.
Qed.

Lemma shl_align_value (m : positive) (e t : Z) :
  t <= e -> Zpos (fst (shl_align m e t)) = Zpos m * 2 ^ (e - t).
Proof.
  intros Ht. unfold shl_align.
  destruct (t - e) as [|d|d] eqn:Hd; cbn [fst]; try lia.
  - replace (e - t) with 0 by lia. lia.
  - rewrite iter_xO_value. f_equal. f_equal. lia.
Qed.

Lemma shl_align_digits (m : positive) (e t : Z) :
  snd (shl_align m e t) <= e
  /\ Zpos (digits2_pos (fst (shl_align m e t))) + snd (shl_align m e t)
     = Zpos (digits2_pos m) + e.
Proof.
  unfold shl_align.
  destruct (t - e) as [|d|d] eqn:Hd; cbn [fst snd]; try lia.
  rewrite iter_xO_digits. lia.
Qed.

(** [binary_normalize] of an integer whose magnitude and exponent are at
    most [k]. *)
Lemma binary_normalize_small (m e k : Z) :
  e <= k -> Zdigits2 m + e - 53 <= k -> -1074 <= k <= 970 ->
  small (k + 1) (binary_normalize prec emax m e false).
Proof.
  intros He Hd Hk.
  destruct m as [|p|p]; cbn [binary_normalize Zdigits2] in *; [exact I| |].
  all: unfold binary_round.
  all: pose proof (shl_align_digits p e
                     (fexp prec emax (Zpos (digits2_pos p) + e))) as [H1 H2].
  all: destruct (shl_align p e (fexp prec emax (Zpos (digits2_pos p) + e)))
    as [mz ez]; cbn [fst snd] in H1, H2.
  all: apply binary_round_aux_small; cbn [Zdigits2]; lia.
Qed.

Lemma sub_one_small (x : number) (k : Z) :
  small k x -> -52 <= k <= 968 -> small (k + 2) (sub (of_Z 1) x).
Proof.
  intros Hx Hk.
  change (of_Z 1) with (S754_finite false 4503599627370496 (-52)).
  destruct x as [sx|sx| |sx mx ex]; cbn [small] in Hx; try contradiction.
  - cbn [sub SFsub small]. split; [reflexivity|lia].
  - destruct Hx as [Hm He]. unfold sub, SFsub.
    set (ez := Z.min (-52) ex).
    set (a := Zpos (fst (shl_align 4503599627370496 (-52) ez))).
    set (b := Zpos (fst (shl_align mx ex ez))).
    assert (Ha : a = 4503599627370496 * 2 ^ (-52 - ez))
      by (subst a; apply shl_align_value; subst ez; lia).
    assert (Hb : b = Zpos mx * 2 ^ (ex - ez))
      by (subst b; apply shl_align_value; subst ez; lia).
    set (M := cond_Zopp false a - cond_Zopp sx b).
    assert (HM : Z.abs M < 2 ^ (54 + k - ez)).
    { assert (Hpa : 0 < 2 ^ (-52 - ez))
        by (apply Z.pow_pos_nonneg; subst ez; lia).
      assert (Hpb : 0 < 2 ^ (ex - ez))
        by (apply Z.pow_pos_nonneg; subst ez; lia).
      assert (Ha' : 0 < a <= 2 ^ (53 + k - ez)).
      { rewrite Ha. split; [lia|].
        replace (53 + k - ez) with (52 + (k + 53) + (-52 - ez)) by lia.
        rewrite !Z.pow_add_r by (subst ez; lia).
        change (2 ^ 52) with 4503599627370496.
        assert (0 < 2 ^ (k + 53)) by (apply Z.pow_pos_nonneg; lia). nia. }
      assert (Hb' : 0 < b < 2 ^ (53 + k - ez)).
      { rewrite Hb. split; [lia|].
        replace (53 + k - ez) with (53 + (k - ex) + (ex - ez)) by lia.
        rewrite !Z.pow_add_r by (subst ez; lia).
        assert (0 < 2 ^ (k - ex)) by (apply Z.pow_pos_nonneg; lia). nia. }
      replace (54 + k - ez) with (1 + (53 + k - ez)) by lia.
      rewrite Z.pow_add_r by (subst ez; lia). change (2 ^ 1) with 2.
      subst M. destruct sx; cbn [cond_Zopp]; lia. }
    assert (Hdig : Zdigits2 M <= 54 + k - ez).
    { destruct M as [|p|p]; cbn [Zdigits2].
      - subst ez; lia.
      - apply (Zdigits2_le (Zpos p)); [lia|subst ez; lia|lia].
      - apply (Zdigits2_le (Zpos p)); [lia|subst ez; lia|lia]. }
    replace (k + 2) with (k + 1 + 1) by lia.
    apply binary_normalize_small; subst ez; lia.
Qed.

Lemma mul_hundred_small (x : number) (k : Z) :
  small k x -> -1028 <= k <= 963 -> small (k + 8) (mul x (of_Z 100)).
Proof.
  intros Hx Hk.
  change (of_Z 100) with (S754_finite false 7036874417766400 (-46)).
  destruct x as [sx|sx| |sx mx ex]; cbn [small] in Hx; try contradiction;
    [exact I|].
  destruct Hx as [Hm He]. unfold mul, SFmul.
  replace (k + 8) with (k + 7 + 1) by lia.
  apply binary_round_aux_small; try lia.
  assert (Zdigits2 (Zpos (mx * 7036874417766400)) <= 106).
  { apply Zdigits2_le; lia. }
  lia.
Qed.

(** *** [Math.round] *)

Lemma cond_Zopp_mul (s : bool) (a b : Z) :
  cond_Zopp s (a * b) = cond_Zopp s a * b.
Proof. destruct s; cbn [cond_Zopp]; lia. Qed.

Lemma cond_Zopp_bound (s : bool) (m : positive) (b : Z) :
  Zpos m < b -> - b < cond_Zopp s (Zpos m) < b.
Proof. destruct s; cbn [cond_Zopp]; lia. Qed.

(** [Math.round] on a finite number: the integer [r] with
    [r - 1/2 <= x < r + 1/2]. *)
Lemma Math_round_nearest (x : number) :
  finite x = true ->
  bounded_mantissa x ->
  exists r, to_Z (Math_round x) = Some r /\ nearest_ties_up x r.
Proof.
  destruct x as [s|s| |s m e]; try discriminate; intros _ Hm.
  - exists 0. split; reflexivity.
  - cbn [bounded_mantissa] in Hm.
    pose proof (cond_Zopp_bound s m _ Hm) as Hb.
    unfold Math_round, nearest_ties_up.
    destruct (0 <=? e) eqn:He.
    + apply Z.leb_le in He.
      exists (cond_Zopp s (Zpos m * 2 ^ e)). split.
      * unfold to_Z. apply Z.leb_le in He. rewrite He. reflexivity.
      * rewrite Z.max_l, Z.max_r by lia. rewrite cond_Zopp_mul.
        change (2 ^ 0) with 1. lia.
    + apply Z.leb_gt in He.
      rewrite (Z.max_r 0 (- e)), (Z.max_l 0 e) by lia. change (2 ^ 0) with 1.
      set (v := cond_Zopp s (Zpos m)) in *.
      set (r := (2 * v + 2 ^ (- e)) / 2 ^ (1 - e)).
      assert (Hpow : 2 ^ (1 - e) = 2 * 2 ^ (- e)).
      { replace (1 - e) with (Z.succ (- e)) by lia.
        apply Z.pow_succ_r. lia. }
      assert (Hh : 2 <= 2 ^ (- e)).
      { change 2 with (2 ^ 1) at 1. apply Z.pow_le_mono_r; lia. }
      set (h := 2 ^ (- e)) in *.
      assert (Hdiv : r * (2 * h) <= 2 * v + h < r * (2 * h) + 2 * h).
      { pose proof (Z.div_mod (2 * v + h) (2 * h) ltac:(lia)) as Hdm.
        pose proof (Z.mod_pos_bound (2 * v + h) (2 * h) ltac:(lia)) as Hmb.
        subst r. rewrite Hpow. lia. }
      clearbody r v h.
      exists r. split.
      * destruct (r =? 0) eqn:Hr.
        -- apply Z.eqb_eq in Hr. subst r. reflexivity.
        -- apply to_Z_of_Z. apply Z.abs_lt.
           set (b := 2 ^ 53) in *.
           assert (Hbig : 2 <= b) by (subst b; lia).
           clearbody b. split.
           ++ destruct (Z_lt_ge_dec (- b) r) as [|Hge]; [assumption|].
              assert (r * (2 * h) <= - b * (2 * h))
                by (apply Z.mul_le_mono_nonneg_r; lia).
              nia.
           ++ destruct (Z_lt_ge_dec r b) as [|Hge]; [assumption|].
              assert (b * (2 * h) <= r * (2 * h))
                by (apply Z.mul_le_mono_nonneg_r; lia).
              nia.
      * nia.
Qed.

(** ** Encoding *)

Lemma compressImage_state (w : World) : state (compressImage w) = state w.
Proof.
  unfold compressImage. destruct (originalImage (state w)); reflexivity.
Qed.

Lemma compressImage_elements (w : World) :
  elements (compressImage w) = elements w.
Proof.
  unfold compressImage. destruct (originalImage (state w)); reflexivity.
Qed.

Lemma compressImage_effects (w : World) :
  effects (compressImage w) = effects w.
Proof.
  unfold compressImage. destruct (originalImage (state w)); reflexivity.
Qed.

Lemma compressImage_timers (w : World) : timers (compressImage w) = timers w.
Proof.
  unfold compressImage. destruct (originalImage (state w)); reflexivity.
Qed.

Lemma compressImage_cells (w : World) : cells (compressImage w) = cells w.
Proof.
  unfold compressImage. destruct (originalImage (state w)); reflexivity.
Qed.

(** With an image loaded, [compressImage] issues exactly one request. *)
Lemma compressImage_loaded (w : World) (img : Image) :
  originalImage (state w) = Some img ->
  encodes (compressImage w)
  = (encodes w ++
     [{| req_canvas_width :=
           canvas_dimension 300
             (or_else (parseInt (widthInput_value (elements w)))
                      (of_Z (img_width img)));
         req_canvas_height :=
           canvas_dimension 150
             (or_else (parseInt (heightInput_value (elements w)))
                      (of_Z (img_height img)));
         req_width :=
           or_else (parseInt (widthInput_value (elements w)))
                   (of_Z (img_width img));
         req_height :=
           or_else (parseInt (heightInput_value (elements w)))
                   (of_Z (img_height img));
         req_format := outputFormat (state w);
         req_quality :=
           if (outputFormat (state w) =? "image/png")%string then None
           else Some (div (quality (state w)) (of_Z 100)) |}])%list
  /\ pendingEncodes (compressImage w) = S (pendingEncodes w).
Proof.
  intros Himg. unfold compressImage. rewrite Himg. split; reflexivity.
Qed.

(** C5: when the format is PNG, [compressImage] leaves [state], and so
    [state.quality], as it was; with an image loaded it issues exactly one
    encode, for [image/png], whose quality argument is [undefined]; with no
    image it issues none. *)
Theorem png_encode_omits_quality (w : World) :
  outputFormat (state w) = "image/png" ->
  state (compressImage w) = state w
  /\ (forall img, originalImage (state w) = Some img ->
        exists r,
          encodes (compressImage w) = (encodes w ++ [r])%list
          /\ req_format r = "image/png"
          /\ req_quality r = None)
  /\ (originalImage (state w) = None -> compressImage w = w).
Proof.
  intros Hfmt. split; [apply compressImage_state|]. split.
  - intros img Himg.
    destruct (compressImage_loaded w img Himg) as [Henc _].
    rewrite Henc, Hfmt. cbn. eexists. split; [reflexivity|]. split; reflexivity.
  - intros Hnone. unfold compressImage. rewrite Hnone. reflexivity.
Qed.

Lemma png_encode_omits_quality_witness :
  outputFormat (state png_world) = "image/png"
  /\ quality (state (compressImage png_world)) = of_Z 80
  /\ exists r,
       encodes (compressImage png_world) = (encodes png_world ++ [r])%list
       /\ req_format r = "image/png" /\ req_quality r = None.
Proof.
  split; [reflexivity|].
  destruct (png_encode_omits_quality png_world) as [Hst [Hreq _]];
    [reflexivity|].
  split.
  - rewrite Hst. reflexivity.
  - apply (Hreq photo_image). reflexivity.
Defined.

(** ** What the timers and the debounced calls leave alone *)

Lemma clearTimeout_page (o : option nat) (w : World) :
  state (clearTimeout o w) = state w
  /\ elements (clearTimeout o w) = elements w
  /\ encodes (clearTimeout o w) = encodes w
  /\ effects (clearTimeout o w) = effects w.
Proof. destruct o; repeat split. Qed.

Lemma executedFunction_page (d : Debounced) (w : World) :
  state (executedFunction d w) = state w
  /\ elements (executedFunction d w) = elements w
  /\ encodes (executedFunction d w) = encodes w
  /\ effects (executedFunction d w) = effects w.
Proof.
  unfold executedFunction, setTimeout. fields.
  destruct (clearTimeout_page (timeout_of d w) w) as (Hs & He & Hn & Hf).
  repeat split; assumption.
Qed.

Lemma later_state (d : Debounced) (w : World) :
  state (later d w) = state w.
Proof.
  unfold later. destruct (db_func d). cbn [call].
  rewrite compressImage_state. apply clearTimeout_page.
Qed.

Lemma run_timers_state (fuel : nat) (limit : Z) :
  forall w, state (run_timers fuel limit w) = state w.
Proof.
  induction fuel as [|fuel IH]; intros w; cbn [run_timers]; [reflexivity|].
  destruct (earliest (timers w)) as [t|]; [|reflexivity].
  destruct (timer_due t <=? limit); [|reflexivity].
  rewrite IH. unfold fire. rewrite later_state. reflexivity.
Qed.

Lemma elapse_state (ms : Z) (w : World) : state (elapse ms w) = state w.
Proof. unfold elapse. fields. apply run_timers_state. Qed.

(** *** The timer queue *)

Lemma earliest_In (ts : list Timer) (t : Timer) :
  earliest ts = Some t -> In t ts.
Proof.
  revert t. induction ts as [|a ts IH]; intros t; cbn [earliest];
    [discriminate|].
  destruct (earliest ts) as [t'|].
  - destruct (timer_due t' <? timer_due a); intros [= <-];
      [right; apply IH; reflexivity | left; reflexivity].
  - intros [= <-]. left. reflexivity.
Qed.

Lemma earliest_None (ts : list Timer) : earliest ts = None -> ts = [].
Proof.
  destruct ts as [|a ts]; [reflexivity|]. cbn [earliest].
  destruct (earliest ts) as [t'|]; [|discriminate].
  destruct (timer_due t' <? timer_due a); discriminate.
Qed.

Lemma earliest_least (ts : list Timer) (t : Timer) :
  earliest ts = Some t ->
  Forall (fun t' => timer_due t <= timer_due t') ts.
Proof.
  revert t. induction ts as [|a ts IH]; intros t; cbn [earliest];
    [discriminate|].
  destruct (earliest ts) as [t'|] eqn:He.
  - specialize (IH t' eq_refl).
    destruct (timer_due t' <? timer_due a) eqn:Hlt; intros [= <-].
    + apply Z.ltb_lt in Hlt. constructor; [lia|exact IH].
    + apply Z.ltb_ge in Hlt. constructor; [lia|].
      apply Forall_impl with (2 := IH). intros; lia.
  - intros [= <-]. rewrite (earliest_None ts He).
    constructor; [lia|constructor].
Qed.

Lemma clearTimeout_timers (o : option nat) (w : World) :
  incl (timers (clearTimeout o w)) (timers w).
Proof.
  destruct o as [id|]; cbn [clearTimeout]; fields; [|apply incl_refl].
  intros t Hin. apply filter_In in Hin. tauto.
Qed.

Lemma clearTimeout_length (o : option nat) (w : World) :
  (List.length (timers (clearTimeout o w)) <= List.length (timers w))%nat.
Proof.
  destruct o as [id|]; cbn [clearTimeout]; fields; [|lia].
  apply filter_length_le.
Qed.

Lemma filter_removes (id : nat) (ts : list Timer) (t : Timer) :
  In t ts -> timer_id t = id ->
  (List.length (filter (fun t => negb (Nat.eqb (timer_id t) id)) ts)
   < List.length ts)%nat.
Proof.
  induction ts as [|a ts IH]; intros Hin Hid; [destruct Hin|].
  cbn [filter List.length].
  destruct Hin as [->|Hin].
  - rewrite Hid, Nat.eqb_refl. cbn [negb].
    pose proof (filter_length_le
                  (fun t => negb (Nat.eqb (timer_id t) id)) ts). lia.
  - specialize (IH Hin Hid).
    destruct (negb (Nat.eqb (timer_id a) id)); cbn [List.length]; lia.
Qed.

(** Firing a pending timer shortens the queue and adds nothing to it. *)
Lemma fire_timers (t : Timer) (w : World) :
  In t (timers w) ->
  (List.length (timers (fire t w)) < List.length (timers w))%nat
  /\ incl (timers (fire t w)) (timers w).
Proof.
  intros Hin. unfold fire, later. cbv zeta.
  set (w1 := clearTimeout (Some (timer_id t)) _).
  assert (Hlen : (List.length (timers w1) < List.length (timers w))%nat).
  { subst w1. cbn [clearTimeout]. fields.
    apply filter_removes with (t := t); [exact Hin|reflexivity]. }
  assert (Hincl : incl (timers w1) (timers w)).
  { subst w1. intros t' Hin'. apply clearTimeout_timers in Hin'. exact Hin'. }
  destruct (db_func (timer_later t)). cbn [call].
  rewrite compressImage_timers. split.
  - pose proof (clearTimeout_length (timeout_of (timer_later t) w1) w1). lia.
  - intros t' Hin'. apply Hincl. eapply clearTimeout_timers. exact Hin'.
Qed.

(** With fuel for every pending timer, [run_timers] leaves none that is
    due. *)
Lemma run_timers_complete (limit : Z) (fuel : nat) :
  forall w,
    (List.length (timers w) <= fuel)%nat ->
    Forall (fun t => limit < timer_due t) (timers (run_timers fuel limit w)).
Proof.
  induction fuel as [|fuel IH]; intros w Hlen; cbn [run_timers].
  - destruct (timers w); [constructor|cbn in Hlen; lia].
  - destruct (earliest (timers w)) as [t|] eqn:He.
    + destruct (timer_due t <=? limit) eqn:Hdue.
      * apply IH. destruct (fire_timers t w (earliest_In _ _ He)) as [Hlt _].
        lia.
      * apply Z.leb_gt in Hdue. apply earliest_least in He.
        apply Forall_impl with (2 := He). intros; lia.
    + rewrite (earliest_None _ He). constructor.
Qed.

(** After [elapse], no pending timer is due: the fuel it gives
    [run_timers] is enough. *)
Lemma elapse_fires_all_due (ms : Z) (w : World) :
  Forall (fun t => now (elapse ms w) < timer_due t) (timers (elapse ms w)).
Proof.
  unfold elapse. fields. apply run_timers_complete. lia.
Qed.

(** ** Rejected files *)

(** C7: a file whose declared type does not start with [image/] only
    raises the alert; the state, the elements and every queue stay as they
    were, and no read is started. *)
Theorem handleFile_rejects_non_image (w : World) (file : File) :
  prefix "image/" (file_type file) = false ->
  handleFile file w = emit (Alert "Please upload an image file") w
  /\ state (handleFile file w) = state w
  /\ elements (handleFile file w) = elements w
  /\ reads (handleFile file w) = reads w
  /\ decodes (handleFile file w) = decodes w
  /\ encodes (handleFile file w) = encodes w
  /\ pendingEncodes (handleFile file w) = pendingEncodes w
  /\ timers (handleFile file w) = timers w
  /\ effects (handleFile file w)
     = (effects w ++ [Alert "Please upload an image file"])%list.
Proof.
  intros Hty. unfold handleFile. rewrite Hty. cbn.
  repeat split.
Qed.

Lemma handleFile_rejects_non_image_witness :
  prefix "image/" (file_type notes) = false
  /\ state (handleFile notes loaded_world) = state loaded_world.
Proof.
  split; [reflexivity|].
  apply (handleFile_rejects_non_image loaded_world notes). reflexivity.
Defined.

(** A dropped file of another type is ignored without even the alert. *)
Lemma drop_ignores_non_image `{Platform} (w : World) (file : File) :
  prefix "image/" (file_type file) = false ->
  handle w (Dropped (Some file)) = w.
Proof. intros Hty. cbn. rewrite Hty. reflexivity. Qed.

(** ** Loading and resetting *)

(** What [img.onload] leaves in [state] and in the two dimension fields,
    whether or not the info update throws afterwards. *)
Lemma img_onload_state `{Platform} (result : string) (img : Image) (w : World) :
  state (img_onload result img w)
  = set_aspectRatio (div (of_Z (img_width img)) (of_Z (img_height img)))
      (set_originalImage (Some img) (state w)).
Proof.
  unfold img_onload, updateOriginalInfo. cbn.
  destruct (originalFile (state w)); reflexivity.
Qed.

Lemma img_onload_dimensions `{Platform} (result : string) (img : Image)
      (w : World) :
  widthInput_value (elements (img_onload result img w))
  = NumberToString (of_Z (img_width img))
  /\ heightInput_value (elements (img_onload result img w))
     = NumberToString (of_Z (img_height img)).
Proof.
  unfold img_onload, updateOriginalInfo. cbn.
  destruct (originalFile (state w)); split; reflexivity.
Qed.

(** A file of an image type, read and decoded, always reaches
    [img.onload]. *)
Lemma run_load `{Platform} (w : World) (file : File) (result : string)
      (img : Image) :
  prefix "image/" (file_type file) = true ->
  exists result' w',
    run w (load file result img) = img_onload result' img w'
    /\ state w' = set_originalFile (Some file) (state w)
    /\ elements w' = elements w.
Proof.
  intros Hty. unfold run, load. cbn [fold_left].
  assert (H1 : handle w (FileChosen file)
               = set_reads (S (reads w))
                   (on_state (set_originalFile (Some file)) w)).
  { cbn [handle]. unfold handleFile. rewrite Hty. reflexivity. }
  rewrite H1. clear H1.
  set (w1 := handle _ (ReaderLoaded result)).
  assert (Hdec : decodes w1 = (decodes w ++ [result])%list) by reflexivity.
  assert (Hst : state w1 = set_originalFile (Some file) (state w))
    by reflexivity.
  assert (Hel : elements w1 = elements w) by reflexivity.
  clearbody w1. cbn [handle].
  destruct (decodes w1) as [|r0 rest] eqn:Hd.
  - destruct (decodes w); discriminate Hdec.
  - exists r0, (set_decodes rest w1). split; [reflexivity|].
    split; assumption.
Qed.

Lemma resetCompressor_state (w : World) :
  state (resetCompressor w)
  = {| originalFile := None; originalImage := None; compressedBlob := None;
       quality := of_Z 80; outputFormat := "image/jpeg";
       aspectRatio := aspectRatio (state w);
       lockAspectRatio := lockAspectRatio (state w) |}.
Proof. reflexivity. Qed.

(** C3, as the code has it: loading a file sets the source, the aspect
    ratio and the two dimension fields from the decoded image and leaves
    quality, format, the aspect lock and the stored blob as they were;
    after a reset the same load starts from quality 80, JPEG and no stored
    blob. *)
Theorem load_sets_dimensions_keeps_parameters `{Platform} (w : World)
        (file : File) (result : string) (img : Image) :
  prefix "image/" (file_type file) = true ->
  let w1 := run w (load file result img) in
  let w2 := run w (ResetClick :: load file result img) in
  (originalFile (state w1) = Some file
   /\ originalImage (state w1) = Some img
   /\ aspectRatio (state w1)
      = div (of_Z (img_width img)) (of_Z (img_height img))
   /\ widthInput_value (elements w1) = NumberToString (of_Z (img_width img))
   /\ heightInput_value (elements w1) = NumberToString (of_Z (img_height img))
   /\ quality (state w1) = quality (state w)
   /\ outputFormat (state w1) = outputFormat (state w)
   /\ lockAspectRatio (state w1) = lockAspectRatio (state w)
   /\ compressedBlob (state w1) = compressedBlob (state w))
  /\ (originalImage (state w2) = Some img
      /\ widthInput_value (elements w2) = NumberToString (of_Z (img_width img))
      /\ heightInput_value (elements w2)
         = NumberToString (of_Z (img_height img))
      /\ quality (state w2) = of_Z 80
      /\ outputFormat (state w2) = "image/jpeg"
      /\ compressedBlob (state w2) = None).
Proof.
  intros Hty w1 w2. split.
  - subst w1.
    destruct (run_load w file result img Hty) as (r' & w' & -> & Hs & _).
    destruct (img_onload_dimensions r' img w') as [Hw Hh].
    rewrite img_onload_state, Hs, Hw, Hh. fields. repeat split.
  - subst w2. change (run w (ResetClick :: load file result img))
      with (run (resetCompressor w) (load file result img)).
    destruct (run_load (resetCompressor w) file result img Hty)
      as (r' & w' & -> & Hs & _).
    destruct (img_onload_dimensions r' img w') as [Hw Hh].
    rewrite img_onload_state, Hs, Hw, Hh, resetCompressor_state. fields.
    repeat split.
Qed.

Lemma load_sets_dimensions_keeps_parameters_witness :
  prefix "image/" (file_type photo) = true
  /\ quality (state (run png_world (load photo "data:" strip_image)))
     = quality (state png_world).
Proof.
  split; [reflexivity|].
  pose proof (load_sets_dimensions_keeps_parameters png_world photo "data:"
                strip_image eq_refl) as [(_ & _ & _ & _ & _ & Hq & _) _].
  exact Hq.
Defined.

(** C3, against the claim: a load does not restore the defaults.  With the
    aspect lock switched off, a reset and a fresh load leave it off, where
    the first load of the session has it on; and a load over a page set to
    PNG stays on PNG with the old blob still stored. *)
Lemma load_does_not_restore_defaults :
  lockAspectRatio
    (state (run initial_world (load photo "data:" photo_image))) = true
  /\ lockAspectRatio
       (state (run initial_world
                   (load photo "data:" photo_image
                    ++ [AspectChange false; ResetClick]
                    ++ load photo "data:" photo_image)%list)) = false
  /\ outputFormat (state (run png_world (load photo "data:" strip_image)))
     = "image/png"
  /\ compressedBlob (state (run png_world (load photo "data:" strip_image)))
     = Some small_blob.
Proof. vm_compute. repeat split. Qed.

(** ** The aspect ratio follows the image *)

(** Every event either leaves the stored image and ratio alone, or stores
    an image together with its ratio, or drops the image. *)
Lemma handle_image `{Platform} (w : World) (e : Event) :
  (originalImage (state (handle w e)) = originalImage (state w)
   /\ aspectRatio (state (handle w e)) = aspectRatio (state w))
  \/ (exists img,
        originalImage (state (handle w e)) = Some img
        /\ aspectRatio (state (handle w e))
           = div (of_Z (img_width img)) (of_Z (img_height img)))
  \/ originalImage (state (handle w e)) = None.
Proof.
  destruct e as [file|[file|]|result|img|v|v|v|checked|i| | |ms|blob];
    cbn [handle].
  - left. unfold handleFile.
    destruct (negb (prefix "image/" (file_type file))); split; reflexivity.
  - left. unfold handleFile.
    destruct (prefix "image/" (file_type file)); split; reflexivity.
  - left. split; reflexivity.
  - left. destruct (reads w); split; reflexivity.
  - destruct (decodes w) as [|result rest].
    + left. split; reflexivity.
    + right. left. exists img. rewrite img_onload_state. split; reflexivity.
  - left. unfold qualitySlider_input, debounce.
    match goal with
    | |- context [executedFunction ?d ?w'] =>
        destruct (executedFunction_page d w') as (-> & _)
    end.
    split; reflexivity.
  - left. unfold widthInput_input, debounce.
    match goal with
    | |- context [executedFunction ?d ?w'] =>
        destruct (executedFunction_page d w') as (-> & _)
    end.
    fields.
    destruct (lockAspectRatio (state w)),
             (originalImage (state w)) eqn:Himg;
      fields; rewrite ?Himg; split; reflexivity.
  - left. unfold heightInput_input, debounce.
    match goal with
    | |- context [executedFunction ?d ?w'] =>
        destruct (executedFunction_page d w') as (-> & _)
    end.
    fields.
    destruct (lockAspectRatio (state w)),
             (originalImage (state w)) eqn:Himg;
      fields; rewrite ?Himg; split; reflexivity.
  - left. split; reflexivity.
  - left. unfold formatButton_click.
    destruct (nth_error (formatButtons (elements w)) i);
      [rewrite compressImage_state|]; split; reflexivity.
  - left. unfold downloadCompressedImage.
    destruct (compressedBlob (state w)); [|split; reflexivity].
    destruct (originalFile (state w)); split; reflexivity.
  - right. right. reflexivity.
  - left. rewrite elapse_state. split; reflexivity.
  - left. destruct (pendingEncodes w); [split; reflexivity|].
    destruct blob as [b|]; [|split; reflexivity].
    unfold toBlob_callback, createObjectURL, updateCompressedInfo. fields.
    destruct (originalFile (state w)); split; reflexivity.
Qed.

Lemma handle_ratio_consistent `{Platform} (w : World) (e : Event) :
  ratio_consistent (state w) -> ratio_consistent (state (handle w e)).
Proof.
  intros Hinv img Himg.
  destruct (handle_image w e) as [[Hi Hr] | [(img' & Hi & Hr) | Hnone]].
  - rewrite Hr. apply Hinv. rewrite <- Hi. exact Himg.
  - rewrite Hr. congruence.
  - congruence.
Qed.

(** From a page with no image, whatever happens, the stored ratio is the
    one [img.onload] computed for the stored image. *)
Lemma run_ratio_consistent `{Platform} (es : list Event) :
  forall w, ratio_consistent (state w) -> ratio_consistent (state (run w es)).
Proof.
  induction es as [|e es IH]; intros w Hinv; [exact Hinv|].
  apply IH, handle_ratio_consistent, Hinv.
Qed.

(** C2, as the code has it: on any page reached from one with no image,
    with an image of native size [W0 x H0] stored and the lock on, typing
    the positive integer [n] into the width field writes
    [Math.round(n / (W0 / H0))], computed in doubles, into the height
    field. *)
Theorem locked_width_sets_rounded_height `{Platform} (w0 : World)
        (es : list Event) (img : Image) (n : Z) :
  originalImage (state w0) = None ->
  originalImage (state (run w0 es)) = Some img ->
  lockAspectRatio (state (run w0 es)) = true ->
  1 <= n < 2 ^ 53 ->
  heightInput_value (elements (handle (run w0 es) (WidthInput (digits n))))
  = NumberToString
      (Math_round
         (div (of_Z n)
              (div (of_Z (img_width img)) (of_Z (img_height img))))).
Proof.
  intros Hnone Himg Hlock Hn.
  assert (Hratio : ratio_consistent (state (run w0 es))).
  { apply run_ratio_consistent. intros img' Himg'. congruence. }
  specialize (Hratio img Himg).
  set (w := run w0 es) in *.
  cbn [handle]. unfold widthInput_input, debounce.
  match goal with
  | |- context [executedFunction ?d ?w'] =>
      destruct (executedFunction_page d w') as (_ & -> & _)
  end.
  fields. rewrite Hlock, Himg. fields.
  rewrite parseInt_digits by lia.
  unfold or_else. rewrite truthy_of_Z by lia.
  rewrite Hratio. reflexivity.
Qed.

Lemma locked_width_sets_rounded_height_witness :
  heightInput_value
    (elements (handle (run initial_world (load photo "data:" photo_image))
                      (WidthInput (digits 600))))
  = "400".
Proof.
  rewrite (locked_width_sets_rounded_height initial_world
             (load photo "data:" photo_image) photo_image 600);
    [vm_compute; reflexivity | reflexivity | vm_compute; reflexivity
    | vm_compute; reflexivity | lia].
Defined.

(** C2, against the claim: on an 8 x 2 image with the lock on, typing the
    width 1 writes 0 into the height field; the encode that follows is
    drawn at the image's own height, 2. *)
Lemma locked_height_can_be_zero :
  originalImage (state strip_world) = Some strip_image
  /\ lockAspectRatio (state strip_world) = true
  /\ aspectRatio (state strip_world) = of_Z 4
  /\ Math_round (div (of_Z 1) (of_Z 4)) = S754_zero false
  /\ heightInput_value (elements (handle strip_world (WidthInput "1"))) = "0"
  /\ map req_height
       (encodes (run strip_world [WidthInput "1"; Elapse 300]))
     = [of_Z 2; of_Z 2].
Proof. vm_compute. repeat split. Qed.

(** ** A failed encode *)

(** The callback of an encode that produced nothing returns at once. *)
Lemma toBlob_callback_null `{Platform} (w : World) :
  toBlob_callback None w = w.
Proof. reflexivity. Qed.

Lemma handle_BlobReady_null `{Platform} (w : World) :
  state (handle w (BlobReady None)) = state w
  /\ elements (handle w (BlobReady None)) = elements w
  /\ effects (handle w (BlobReady None)) = effects w
  /\ encodes (handle w (BlobReady None)) = encodes w
  /\ timers (handle w (BlobReady None)) = timers w.
Proof.
  cbn. destruct (pendingEncodes w); cbn; repeat split.
Qed.

(** C6, as the code has it: when the encoder delivers no blob the callback
    does nothing at all.  The stored blob and the rest of [state] are
    untouched, and so are the elements and the effects: the failure is not
    reported anywhere. *)
Theorem failed_encode_changes_nothing `{Platform} (w : World) :
  toBlob_callback None w = w
  /\ state (handle w (BlobReady None)) = state w
  /\ compressedBlob (state (handle w (BlobReady None)))
     = compressedBlob (state w)
  /\ elements (handle w (BlobReady None)) = elements w
  /\ effects (handle w (BlobReady None)) = effects w.
Proof.
  destruct (handle_BlobReady_null w) as (Hs & He & Hf & _).
  split; [apply toBlob_callback_null|].
  split; [exact Hs|]. split; [now rewrite Hs|]. split; assumption.
Qed.

(** C6, against the claim: on the sample page an encode is owed, it fails,
    and nothing is surfaced. *)
Lemma failed_encode_not_surfaced :
  pendingEncodes png_world = 1%nat
  /\ compressedBlob (state png_world) = Some small_blob
  /\ ~ surfaced png_world (handle png_world (BlobReady None)).
Proof.
  split; [reflexivity|]. split; [reflexivity|].
  destruct (handle_BlobReady_null png_world) as (_ & He & Hf & _).
  intros [Hneq | Hneq]; apply Hneq; assumption.
Qed.

(** ** Effective dimensions *)

(** A Number that holds an integer, handed to an [unsigned long]
    attribute. *)
Lemma to_unsigned_long_to_Z (x : number) (z : Z) :
  to_Z x = Some z -> to_unsigned_long x = z mod 2 ^ 32.
Proof.
  destruct x as [s|s| |s m e]; cbn [to_Z to_unsigned_long];
    try discriminate.
  - intros [= <-]. reflexivity.
  - destruct (0 <=? e); [intros [= <-]; reflexivity|].
    destruct (Zpos m mod 2 ^ (- e) =? 0); [|discriminate].
    intros [= <-]. reflexivity.
Qed.

(** A size a canvas can have is the size the canvas takes. *)
Lemma canvas_dimension_of_Z (default z : Z) :
  0 <= z <= 2147483647 -> canvas_dimension default (of_Z z) = z.
Proof.
  intros Hz. unfold canvas_dimension.
  rewrite (to_unsigned_long_to_Z (of_Z z) z)
    by (apply to_Z_of_Z; change (2 ^ 53) with 9007199254740992; lia).
  change (2 ^ 32) with 4294967296. rewrite Z.mod_small by lia.
  destruct (Z.leb_spec z 2147483647); [reflexivity|lia].
Qed.

(** C8, as the code has it: a dimension field that [parseInt] reads as
    [NaN] (empty, or no leading digits) or as zero makes [compressImage]
    draw at the image's own width, respectively height, on a canvas of
    that width, respectively height, for every size a canvas can have;
    nothing is reported. *)
Theorem unusable_dimension_falls_back (w : World) (img : Image) :
  originalImage (state w) = Some img ->
  exists r,
    encodes (compressImage w) = (encodes w ++ [r])%list
    /\ (truthy (parseInt (widthInput_value (elements w))) = false ->
        req_width r = of_Z (img_width img)
        /\ (0 <= img_width img <= 2147483647 ->
            req_canvas_width r = img_width img))
    /\ (truthy (parseInt (heightInput_value (elements w))) = false ->
        req_height r = of_Z (img_height img)
        /\ (0 <= img_height img <= 2147483647 ->
            req_canvas_height r = img_height img))
    /\ effects (compressImage w) = effects w.
Proof.
  intros Himg.
  destruct (compressImage_loaded w img Himg) as [Henc _].
  rewrite Henc. eexists. split; [reflexivity|].
  cbn [req_width req_height req_canvas_width req_canvas_height].
  split; [|split].
  - intros Hw. unfold or_else. rewrite Hw.
    split; [reflexivity|apply canvas_dimension_of_Z].
  - intros Hh. unfold or_else. rewrite Hh.
    split; [reflexivity|apply canvas_dimension_of_Z].
  - apply compressImage_effects.
Qed.

(** The fields that fall back: empty ones, ones that do not start with a
    digit, and zero. *)
Lemma parseInt_empty : parseInt "" = nan.
Proof. reflexivity. Qed.

Lemma parseInt_zero : truthy (parseInt "0") = false.
Proof. reflexivity. Qed.

Lemma parseInt_no_digit (c : ascii) (r : string) :
  is_white_space c = false -> (N_of_ascii c <? 128)%N = true ->
  c <> "-"%char -> c <> "+"%char ->
  digit_value 10 c = None ->
  parseInt (String c r) = nan.
Proof.
  intros Hws Hc Hm Hp Hd. unfold parseInt.
  rewrite trim_start_ascii by assumption.
  assert (Hsign : read_sign (String c r) = (false, String c r)).
  { unfold read_sign.
    destruct (Ascii.eqb_spec c "-"%char) as [->|_]; [congruence|].
    destruct (Ascii.eqb_spec c "+"%char) as [->|_]; [congruence|].
    destruct c as [[] [] [] [] [] [] [] []]; try reflexivity; congruence. }
  rewrite Hsign.
  assert (Hradix :
    match String c r with
    | String "0" (String "x" r0) | String "0" (String "X" r0) => (16, r0)
    | _ => (10, String c r)
    end = (10, String c r)).
  { destruct (Ascii.eqb_spec c "0"%char) as [->|Hz]; [discriminate Hd|].
    destruct c as [[] [] [] [] [] [] [] []]; try reflexivity; congruence. }
  rewrite Hradix. cbn [read_digits]. rewrite Hd. reflexivity.
Qed.

(** A field that only looks empty in front does not fall back: white
    space of any width is skipped, here a no-break space (U+00A0, the
    bytes C2 A0) and an ideographic space (U+3000, E3 80 80). *)
Lemma parseInt_skips_wide_white_space :
  parseInt (String "194" (String "160" "5")) = of_Z 5
  /\ parseInt (String "227" (String "128" (String "128" " 640px")))
     = of_Z 640.
Proof. split; vm_compute; reflexivity. Qed.

Lemma unusable_dimension_falls_back_witness :
  originalImage (state cleared_world) = Some photo_image
  /\ exists r,
       encodes (compressImage cleared_world)
       = (encodes cleared_world ++ [r])%list
       /\ req_width r = of_Z 1200
       /\ req_canvas_width r = 1200.
Proof.
  split; [reflexivity|].
  destruct (unusable_dimension_falls_back cleared_world photo_image)
    as (r & Henc & Hw & _); [reflexivity|].
  destruct Hw as [Hdraw Hcanvas]; [reflexivity|].
  exists r. split; [exact Henc|]. split; [exact Hdraw|].
  apply Hcanvas. cbn [img_width photo_image]. lia.
Defined.

(** C8, against the claim: a negative width is not replaced by the
    image's width.  The image is drawn at the width typed, and the
    canvas, which cannot have it, takes the default width of a canvas,
    300. *)
Lemma negative_width_not_normalised :
  originalImage (state negative_world) = Some photo_image
  /\ widthInput_value (elements negative_world) = "-5"
  /\ map req_width (encodes (compressImage negative_world))
     = (map req_width (encodes negative_world) ++ [of_Z (-5)])%list
  /\ of_Z (-5) <> of_Z (img_width photo_image)
  /\ map req_canvas_width (encodes (compressImage negative_world))
     = (map req_canvas_width (encodes negative_world) ++ [300])%list
  /\ 300 <> img_width photo_image
  /\ effects (compressImage negative_world) = effects negative_world.
Proof.
  split; [reflexivity|]. split; [reflexivity|].
  split; [vm_compute; reflexivity|].
  split; [vm_compute; discriminate|].
  split; [vm_compute; reflexivity|].
  split; [vm_compute; discriminate|reflexivity].
Qed.

(** ** Savings *)

(** For sizes that are integers below [2^53], with a source that is not
    empty, the percentage is finite. *)
Lemma percentage_finite (S E : Z) :
  0 < S < 2 ^ 53 -> 0 <= E < 2 ^ 53 ->
  finite (percentage (of_Z E) (of_Z S)) = true.
Proof.
  intros HS HE. unfold percentage.
  apply (small_finite 63).
  apply (mul_hundred_small _ 55); [|lia].
  apply (sub_one_small _ 53); [|lia].
  apply div_small.
  - apply of_Z_integral53. lia.
  - apply of_Z_integral53. lia.
  - apply truthy_of_Z; lia.
Qed.

Lemma savedPercent_examples :
  savedPercent (of_Z 750000) (of_Z 1000000) = of_Z 25
  /\ savings_label (of_Z 25) = "-25%"
  /\ savings_colour (of_Z 25) = "var(--success)"
  /\ savedPercent (of_Z 1200000) (of_Z 1000000) = of_Z (-20)
  /\ savings_label (of_Z (-20)) = "+20%"
  /\ savings_colour (of_Z (-20)) = "#ef4444".
Proof. vm_compute. repeat split. Qed.

(** C4, as the code has it: for a source of [S > 0] bytes and an encoded
    size of [E] bytes (integers below [2^53], as sizes held in Numbers
    are), [savedPercent] is the integer nearest to the percentage
    [(1 - E/S) * 100] computed in doubles, the upper one at a half.  A
    source of 1,000,000 bytes encoded to 750,000 gives 25, shown as -25%
    on the success colour; encoded to 1,200,000 it gives -20, shown as
    +20% on red. *)
Theorem savedPercent_nearest_ties_up (S E : Z) :
  0 < S < 2 ^ 53 -> 0 <= E < 2 ^ 53 ->
  (exists r,
      to_Z (savedPercent (of_Z E) (of_Z S)) = Some r
      /\ nearest_ties_up (percentage (of_Z E) (of_Z S)) r)
  /\ savedPercent (of_Z 750000) (of_Z 1000000) = of_Z 25
  /\ savings_label (of_Z 25) = "-25%"
  /\ savings_colour (of_Z 25) = "var(--success)"
  /\ savedPercent (of_Z 1200000) (of_Z 1000000) = of_Z (-20)
  /\ savings_label (of_Z (-20)) = "+20%"
  /\ savings_colour (of_Z (-20)) = "#ef4444".
Proof.
  intros HS HE. split; [|exact savedPercent_examples].
  unfold savedPercent. apply Math_round_nearest.
  - apply percentage_finite; assumption.
  - apply mul_mantissa.
Qed.

Lemma savedPercent_nearest_ties_up_witness :
  exists r,
    to_Z (savedPercent (of_Z 750000) (of_Z 1000000)) = Some r
    /\ nearest_ties_up (percentage (of_Z 750000) (of_Z 1000000)) r.
Proof.
  apply (savedPercent_nearest_ties_up 1000000 750000); lia.
Defined.

(** C4, against the claim: a source of 8 bytes encoded to 9 is -12.5 %,
    which [Math.round] takes to -12 and the badge shows as +12%; rounding
    halves away from zero gives -13. *)
Lemma savedPercent_half_rounds_up :
  percentage (of_Z 9) (of_Z 8) = SFopp (of_ratio 25 2)
  /\ savedPercent (of_Z 9) (of_Z 8) = of_Z (-12)
  /\ savings_label (savedPercent (of_Z 9) (of_Z 8)) = "+12%"
  /\ spec_savingsPercent 8 9 = -13.
Proof. vm_compute. repeat split. Qed.

(** ** File sizes *)

(** C9: 0 bytes is shown as "0 Bytes", 1536 bytes as "1.5 KB" and
    1048576 bytes as "1 MB", on every engine whose [Math.log] puts 1536
    one power of 1024 up and 1048576 two, and whose [Math.pow] gives
    1024 and 1048576 for those powers. *)
Theorem formatFileSize_examples `{Platform} :
  Math_floor (div (Math_log (of_Z 1536)) (Math_log (of_Z 1024))) = of_Z 1 ->
  Math_pow (of_Z 1024) (of_Z 1) = of_Z 1024 ->
  Math_floor (div (Math_log (of_Z 1048576)) (Math_log (of_Z 1024)))
  = of_Z 2 ->
  Math_pow (of_Z 1024) (of_Z 2) = of_Z 1048576 ->
  formatFileSize (of_Z 0) = "0 Bytes"
  /\ formatFileSize (of_Z 1536) = "1.5 KB"
  /\ formatFileSize (of_Z 1048576) = "1 MB".
Proof.
  intros Hkb Hpow1 Hmb Hpow2. unfold formatFileSize. cbv zeta.
  split; [|split].
  - vm_compute. reflexivity.
  - replace (strict_eq (of_Z 1536) (of_Z 0)) with false
      by (vm_compute; reflexivity).
    rewrite Hkb, Hpow1. vm_compute. reflexivity.
  - replace (strict_eq (of_Z 1048576) (of_Z 0)) with false
      by (vm_compute; reflexivity).
    rewrite Hmb, Hpow2. vm_compute. reflexivity.
Qed.

(** The reference engine is such an engine. *)
Lemma formatFileSize_examples_witness :
  formatFileSize (of_Z 0) = "0 Bytes"
  /\ formatFileSize (of_Z 1536) = "1.5 KB"
  /\ formatFileSize (of_Z 1048576) = "1 MB".
Proof.
  apply (@formatFileSize_examples reference_platform);
    vm_compute; reflexivity.
Defined.

(** ** Debouncing *)

(** C1, at the failing input: three slider moves inside one quiet window
    end in three encodes, one per move, each at quality 80; the spec asks
    for exactly one. *)
Theorem rapid_quality_inputs_encode_each :
  encodes (run loaded_world rapid_quality_inputs)
  = (encodes loaded_world
     ++ [request_at_80; request_at_80; request_at_80])%list
  /\ timers (run loaded_world rapid_quality_inputs) = []
  /\ quality (state (run loaded_world rapid_quality_inputs)) = of_Z 80.
Proof. vm_compute. repeat split. Qed.

(** The three timers are all pending just before the first is due. *)
Example rapid_quality_inputs_three_timers :
  map timer_due
      (timers (run loaded_world
                   [QualityInput "90"; Elapse 10; QualityInput "85";
                    Elapse 10; QualityInput "80"; Elapse 79]))
  = [100; 110; 120].
Proof. vm_compute. reflexivity. Qed.

(** [debounce] itself coalesces: the same calls through one debounced
    function end in a single encode. *)
Example shared_debounce_coalesces :
  encodes (shared_debounce_calls loaded_world)
  = (encodes loaded_world ++ [request_at_80])%list.
Proof. vm_compute. reflexivity. Qed.

Lemma update_nth_last {A} (l : list A) (x v : A) :
  update_nth (List.length l) v (l ++ [x]) = (l ++ [v])%list.
Proof. induction l as [|a l IH]; cbn; [reflexivity|now rewrite IH]. Qed.

Lemma nth_last {A} (l : list A) (x d : A) :
  nth (List.length l) (l ++ [x]) d = x.
Proof. induction l as [|a l IH]; cbn; [reflexivity|exact IH]. Qed.

(** Every slider move sets a timer of its own and clears none: the
    closure it calls was made a moment before and its [timeout] is still
    undefined. *)
Lemma qualitySlider_input_timers (v : string) (w : World) :
  timers (qualitySlider_input v w) = (timers w ++ [slider_timer w])%list
  /\ cells (qualitySlider_input v w) = (cells w ++ [Some (nextTimer w)])%list
  /\ nextTimer (qualitySlider_input v w) = S (nextTimer w)
  /\ now (qualitySlider_input v w) = now w
  /\ encodes (qualitySlider_input v w) = encodes w
  /\ originalImage (state (qualitySlider_input v w))
     = originalImage (state w).
Proof.
  unfold qualitySlider_input, debounce, executedFunction, timeout_of.
  fields. cbn [db_cell db_wait]. rewrite nth_last. cbn [clearTimeout].
  unfold setTimeout. fields. rewrite update_nth_last.
  repeat split.
Qed.

Lemma earliest_head (due : Z) (t : Timer) (ts : list Timer) :
  Forall (fun t => timer_due t = due) (t :: ts) ->
  earliest (t :: ts) = Some t.
Proof.
  intros Hall. cbn [earliest].
  destruct (earliest ts) as [t'|] eqn:He; [|reflexivity].
  apply earliest_In in He.
  rewrite Forall_forall in Hall.
  rewrite (Hall t' (or_intror He)), (Hall t (or_introl eq_refl)).
  rewrite Z.ltb_irrefl. reflexivity.
Qed.

Lemma filter_other_ids (id : nat) (ts : list Timer) :
  ~ In id (map timer_id ts) ->
  filter (fun t => negb (Nat.eqb (timer_id t) id)) ts = ts.
Proof.
  induction ts as [|a ts IH]; intros Hnot; cbn [filter]; [reflexivity|].
  cbn [map In] in Hnot.
  destruct (Nat.eqb_spec (timer_id a) id) as [Heq|Hne]; [tauto|].
  cbn [negb]. rewrite IH by tauto. reflexivity.
Qed.

(** Firing the head of such a queue removes that timer alone and issues
    one encode. *)
Lemma fire_head (due : Z) (w : World) (t : Timer) (ts : list Timer)
      (img : Image) :
  timers w = t :: ts ->
  burst_queue due w ->
  originalImage (state w) = Some img ->
  timers (fire t w) = ts
  /\ burst_queue due (fire t w)
  /\ state (fire t w) = state w
  /\ List.length (encodes (fire t w)) = S (List.length (encodes w)).
Proof.
  intros Hts [Hnd Hall] Himg. rewrite Hts in Hnd, Hall.
  cbn [map] in Hnd. apply NoDup_cons_iff in Hnd as [Hfresh Hnd].
  apply Forall_cons_iff in Hall as [[_ Hcell] Hall].
  unfold fire, later. cbv zeta.
  set (w' := set_now (Z.max (now w) (timer_due t)) w).
  assert (Hclear : clearTimeout (Some (timer_id t)) w' = set_timers ts w').
  { cbn [clearTimeout]. subst w'. fields. rewrite Hts. cbn [filter].
    rewrite Nat.eqb_refl. cbn [negb]. rewrite filter_other_ids by assumption.
    reflexivity. }
  rewrite Hclear.
  assert (Hcell' : timeout_of (timer_later t) (set_timers ts w')
                   = Some (timer_id t)) by exact Hcell.
  rewrite Hcell'. cbn [clearTimeout]. fields.
  rewrite filter_other_ids by assumption.
  destruct (db_func (timer_later t)). cbn [call].
  rewrite compressImage_timers. fields.
  split; [reflexivity|]. split; [|split].
  - split; rewrite compressImage_timers; fields; [assumption|].
    apply Forall_impl with (2 := Hall). intros t' [Hd Hc]. split; [exact Hd|].
    unfold timeout_of in *. rewrite compressImage_cells. exact Hc.
  - rewrite compressImage_state. reflexivity.
  - unfold compressImage. subst w'. fields. rewrite Himg. unfold toBlob.
    fields. rewrite length_app. cbn [List.length]. lia.
Qed.

Lemma run_timers_burst (due limit : Z) (img : Image) :
  due <= limit ->
  forall ts w,
    timers w = ts ->
    burst_queue due w ->
    originalImage (state w) = Some img ->
    timers (run_timers (List.length ts) limit w) = []
    /\ List.length (encodes (run_timers (List.length ts) limit w))
       = (List.length (encodes w) + List.length ts)%nat.
Proof.
  intros Hdue. induction ts as [|t ts IH]; intros w Hts Hq Himg.
  - cbn [List.length run_timers]. split; [assumption|lia].
  - cbn [List.length run_timers]. rewrite Hts.
    assert (Hall : Forall (fun t => timer_due t = due) (t :: ts)).
    { destruct Hq as [_ Hall]. rewrite Hts in Hall.
      apply Forall_impl with (2 := Hall). intros t' [Hd _]. exact Hd. }
    rewrite (earliest_head due t ts Hall).
    apply Forall_inv in Hall. rewrite Hall.
    replace (due <=? limit) with true by (symmetry; apply Z.leb_le; lia).
    destruct (fire_head due w t ts img Hts Hq Himg) as (Ht & Hq' & Hs & Hn).
    destruct (IH (fire t w) Ht Hq') as [Hnil Hlen]; [congruence|].
    split; [exact Hnil|]. rewrite Hlen, Hn. lia.
Qed.

Lemma in_burst_input `{Platform} (w0 w : World) (v : string) :
  in_burst w0 w ->
  in_burst w0 (handle w (QualityInput v))
  /\ List.length (timers (handle w (QualityInput v)))
     = S (List.length (timers w)).
Proof.
  intros (Hnow & Himg & Henc & [Hnd Hq] & Halloc). cbn [handle].
  destruct (qualitySlider_input_timers v w)
    as (Ht & Hc & Hn & Hnow' & Henc' & Himg').
  split.
  - split; [congruence|]. split; [congruence|]. split; [congruence|].
    split; [split|].
    + rewrite Ht, map_app. cbn [map slider_timer timer_id].
      apply NoDup_app; [exact Hnd | repeat constructor; intros [] | ].
      intros id Hin [<-|[]]. apply in_map_iff in Hin as (t & Hid & Hin).
      rewrite Forall_forall in Halloc. destruct (Halloc t Hin) as [Hlt _].
      lia.
    + rewrite Ht. apply Forall_app. split.
      * rewrite Forall_forall in *. intros t Hin.
        destruct (Hq t Hin) as [Hd Hcell]. destruct (Halloc t Hin) as [_ Hlt].
        split; [exact Hd|]. unfold timeout_of in *. rewrite Hc.
        rewrite app_nth1 by exact Hlt. exact Hcell.
      * constructor; [|constructor]. cbn [slider_timer timer_due timer_later
                                           timer_id db_cell].
        split; [congruence|]. unfold timeout_of. cbn [db_cell]. rewrite Hc.
        apply nth_last.
    + rewrite Ht, Hn, Hc, length_app. cbn [List.length].
      apply Forall_app. split.
      * apply Forall_impl with (2 := Halloc). intros t [Hi Hl]. lia.
      * constructor; [|constructor].
        cbn [slider_timer timer_later timer_id db_cell]. lia.
  - rewrite Ht, length_app. cbn [List.length]. lia.
Qed.

Lemma in_burst_inputs `{Platform} (w0 : World) (vs : list string) :
  forall w,
    in_burst w0 w ->
    in_burst w0 (run w (map QualityInput vs))
    /\ List.length (timers (run w (map QualityInput vs)))
       = (List.length (timers w) + List.length vs)%nat.
Proof.
  induction vs as [|v vs IH]; intros w Hin.
  - cbn [map run fold_left List.length]. split; [exact Hin|lia].
  - cbn [map List.length]. unfold run. cbn [fold_left].
    destruct (in_burst_input w0 w v Hin) as [Hin' Hlen].
    destruct (IH _ Hin') as [Hin'' Hlen'']. unfold run in *.
    split; [exact Hin''|]. rewrite Hlen'', Hlen. lia.
Qed.

(** A burst of [n] slider moves with no time between them, then the quiet
    window: [n] encodes, not one. *)
Lemma burst_of_quality_inputs `{Platform} (w : World) (vs : list string)
        (img : Image) :
  timers w = [] ->
  originalImage (state w) = Some img ->
  List.length (encodes (run w (map QualityInput vs ++ [Elapse 100])%list))
  = (List.length (encodes w) + List.length vs)%nat
  /\ timers (run w (map QualityInput vs ++ [Elapse 100])%list) = [].
Proof.
  intros Hts Himg. unfold run. rewrite fold_left_app. cbn [fold_left handle].
  assert (Hstart : in_burst w w).
  { unfold in_burst, burst_queue. rewrite Hts. cbn [map].
    repeat split; constructor. }
  destruct (in_burst_inputs w vs w Hstart)
    as [(Hnow & Himg' & Henc & Hq & _) Hlen].
  unfold run in *. set (w1 := fold_left handle (map QualityInput vs) w) in *.
  rewrite Hts in Hlen. cbn [List.length Nat.add] in Hlen.
  unfold elapse. fields. rewrite Hlen. change (Z.max 0 100) with 100.
  destruct (run_timers_burst (now w + 100) (now w1 + 100) img
              ltac:(lia) (timers w1) w1 eq_refl Hq ltac:(congruence))
    as [Hnil Hcount].
  rewrite Hlen in Hnil, Hcount. split; [|exact Hnil].
  rewrite Hcount, Henc. reflexivity.
Qed.

(** ** Download *)

(** C10: with no compressed blob held, the download handler returns at
    once: the world, its effects included, is the one it started from. *)
Theorem download_without_blob_is_noop `{Platform} (w : World) :
  compressedBlob (state w) = None ->
  downloadCompressedImage w = w /\ handle w DownloadClick = w.
Proof.
  intros Hb. cbn [handle]. unfold downloadCompressedImage. rewrite Hb.
  split; reflexivity.
Qed.

Lemma download_without_blob_is_noop_witness :
  compressedBlob (state initial_world) = None
  /\ downloadCompressedImage initial_world = initial_world.
Proof.
  split; [reflexivity|].
  apply (download_without_blob_is_noop initial_world). reflexivity.
Defined.

(* ================================================================== *)
(** * Further properties

    The handlers not reached above, the edges of those that were, and
    what holds over whole runs of the page. *)

(** Runs, one event at a time. *)
Lemma run_nil `{Platform} (w : World) : run w [] = w.
Proof. reflexivity. Qed.

Lemma run_cons `{Platform} (w : World) (e : Event) (es : list Event) :
  run w (e :: es) = run (handle w e) es.
Proof. reflexivity. Qed.

(** ** Encodes, over every run *)

Lemma compressImage_request (w : World) :
  encodes (compressImage w) = encodes w
  \/ exists r,
       encodes (compressImage w) = (encodes w ++ [r])%list
       /\ quality_fits_format r.
Proof.
  unfold compressImage. destruct (originalImage (state w)) as [img|];
    [right|left; reflexivity].
  eexists. split; [reflexivity|]. unfold quality_fits_format.
  cbn [req_quality req_format].
  destruct (String.eqb_spec (outputFormat (state w)) "image/png") as [Heq|Hne].
  - split; intros; [assumption|reflexivity].
  - split; intros; [discriminate|contradiction].
Qed.

Lemma compressImage_requests (w : World) :
  exists l,
    encodes (compressImage w) = (encodes w ++ l)%list
    /\ Forall quality_fits_format l.
Proof.
  destruct (compressImage_request w) as [Heq|(r & Heq & Hr)].
  - exists []. rewrite app_nil_r. split; [exact Heq|constructor].
  - exists [r]. split; [exact Heq|constructor; [exact Hr|constructor]].
Qed.

Lemma fire_requests (t : Timer) (w : World) :
  exists l,
    encodes (fire t w) = (encodes w ++ l)%list
    /\ Forall quality_fits_format l.
Proof.
  unfold fire, later. cbv zeta. destruct (db_func (timer_later t)). cbn [call].
  match goal with
  | |- context [compressImage ?w'] =>
      destruct (compressImage_requests w') as (l & Hl & Hwf);
      assert (Hsame : encodes w' = encodes w)
  end.
  { match goal with
    | |- encodes (clearTimeout ?o ?w1) = _ =>
        destruct (clearTimeout_page o w1) as (_ & _ & -> & _)
    end.
    match goal with
    | |- encodes (clearTimeout ?o ?w1) = _ =>
        destruct (clearTimeout_page o w1) as (_ & _ & -> & _)
    end.
    reflexivity. }
  exists l. rewrite Hl, Hsame. split; [reflexivity|exact Hwf].
Qed.

Lemma run_timers_requests (limit : Z) (fuel : nat) :
  forall w,
    exists l,
      encodes (run_timers fuel limit w) = (encodes w ++ l)%list
      /\ Forall quality_fits_format l.
Proof.
  induction fuel as [|fuel IH]; intros w; cbn [run_timers].
  - exists []. rewrite app_nil_r. split; [reflexivity|constructor].
  - destruct (earliest (timers w)) as [t|];
      [|exists []; rewrite app_nil_r; split; [reflexivity|constructor]].
    destruct (timer_due t <=? limit);
      [|exists []; rewrite app_nil_r; split; [reflexivity|constructor]].
    destruct (fire_requests t w) as (l1 & H1 & Hwf1).
    destruct (IH (fire t w)) as (l2 & H2 & Hwf2).
    exists (l1 ++ l2)%list. rewrite H2, H1, app_assoc.
    split; [reflexivity|apply Forall_app; split; assumption].
Qed.

Ltac no_request :=
  exists []; rewrite app_nil_r; split; [reflexivity|constructor].

(** What one event adds to the encodes. *)
Lemma handle_requests `{Platform} (w : World) (e : Event) :
  exists l,
    encodes (handle w e) = (encodes w ++ l)%list
    /\ Forall quality_fits_format l.
Proof.
  destruct e as [file|[file|]|result|img|v|v|v|checked|i| | |ms|blob];
    cbn [handle].
  - unfold handleFile.
    destruct (negb (prefix "image/" (file_type file))); no_request.
  - unfold handleFile.
    destruct (prefix "image/" (file_type file)); no_request.
  - no_request.
  - destruct (reads w); no_request.
  - destruct (decodes w) as [|result rest]; [no_request|].
    unfold img_onload, updateOriginalInfo. fields.
    destruct (originalFile (state w)); cbn [bind settle]; [|no_request].
    match goal with
    | |- context [compressImage ?w'] =>
        destruct (compressImage_requests w') as (l & Hl & Hwf)
    end.
    exists l. split; [exact Hl|exact Hwf].
  - unfold qualitySlider_input, debounce.
    match goal with
    | |- context [executedFunction ?d ?w'] =>
        destruct (executedFunction_page d w') as (_ & _ & -> & _)
    end. no_request.
  - unfold widthInput_input, debounce.
    match goal with
    | |- context [executedFunction ?d ?w'] =>
        destruct (executedFunction_page d w') as (_ & _ & -> & _)
    end.
    fields.
    destruct (lockAspectRatio (state w)), (originalImage (state w));
      no_request.
  - unfold heightInput_input, debounce.
    match goal with
    | |- context [executedFunction ?d ?w'] =>
        destruct (executedFunction_page d w') as (_ & _ & -> & _)
    end.
    fields.
    destruct (lockAspectRatio (state w)), (originalImage (state w));
      no_request.
  - no_request.
  - unfold formatButton_click.
    destruct (nth_error (formatButtons (elements w)) i); [|no_request].
    match goal with
    | |- context [compressImage ?w'] =>
        destruct (compressImage_requests w') as (l & Hl & Hwf)
    end.
    exists l. split; [exact Hl|exact Hwf].
  - unfold downloadCompressedImage.
    destruct (compressedBlob (state w)); [|no_request].
    destruct (originalFile (state w)); no_request.
  - no_request.
  - unfold elapse. fields. apply run_timers_requests.
  - destruct (pendingEncodes w); [no_request|].
    destruct blob as [b|]; [|no_request].
    unfold toBlob_callback, createObjectURL, updateCompressedInfo. fields.
    destruct (originalFile (state w)); no_request.
Qed.

(** X1: over any run of the page, every encode request issued carries no
    quality argument exactly when its format is [image/png]: whatever
    the order of format clicks, slider moves and timers, [compressImage]
    never hands a quality to a PNG encode nor withholds it from another
    format. *)
Theorem every_request_fits_its_format `{Platform} (es : list Event) :
  forall w,
    Forall quality_fits_format (encodes w) ->
    Forall quality_fits_format (encodes (run w es)).
Proof.
  induction es as [|e es IH]; intros w Hw; [exact Hw|].
  unfold run. cbn [fold_left]. apply IH.
  destruct (handle_requests w e) as (l & -> & Hl).
  apply Forall_app. split; assumption.
Qed.

Lemma every_request_fits_its_format_witness :
  Forall quality_fits_format
    (encodes
       (run initial_world
            (load photo "data:" photo_image
             ++ [FormatClick 1; QualityInput "50"; Elapse 100])%list)).
Proof.
  apply (every_request_fits_its_format
           (load photo "data:" photo_image
            ++ [FormatClick 1; QualityInput "50"; Elapse 100])%list
           initial_world).
  apply Forall_nil.
Defined.

Lemma compressImage_no_image (w : World) :
  originalImage (state w) = None -> compressImage w = w.
Proof. intros Hn. unfold compressImage. rewrite Hn. reflexivity. Qed.

Lemma fire_no_image (t : Timer) (w : World) :
  originalImage (state w) = None -> encodes (fire t w) = encodes w.
Proof.
  intros Hn. unfold fire, later. cbv zeta.
  destruct (db_func (timer_later t)). cbn [call].
  rewrite compressImage_no_image.
  - match goal with
    | |- encodes (clearTimeout ?o ?w1) = _ =>
        destruct (clearTimeout_page o w1) as (_ & _ & -> & _)
    end.
    match goal with
    | |- encodes (clearTimeout ?o ?w1) = _ =>
        destruct (clearTimeout_page o w1) as (_ & _ & -> & _)
    end.
    reflexivity.
  - match goal with
    | |- originalImage (state (clearTimeout ?o ?w1)) = _ =>
        destruct (clearTimeout_page o w1) as (-> & _)
    end.
    match goal with
    | |- originalImage (state (clearTimeout ?o ?w1)) = _ =>
        destruct (clearTimeout_page o w1) as (-> & _)
    end.
    exact Hn.
Qed.

Lemma fire_state (t : Timer) (w : World) : state (fire t w) = state w.
Proof. unfold fire. cbv zeta. rewrite later_state. reflexivity. Qed.

Lemma run_timers_no_image (limit : Z) (fuel : nat) :
  forall w,
    originalImage (state w) = None ->
    encodes (run_timers fuel limit w) = encodes w.
Proof.
  induction fuel as [|fuel IH]; intros w Hn; cbn [run_timers];
    [reflexivity|].
  destruct (earliest (timers w)) as [t|]; [|reflexivity].
  destruct (timer_due t <=? limit); [|reflexivity].
  rewrite IH by (rewrite fire_state; exact Hn).
  apply fire_no_image, Hn.
Qed.

Lemma handle_no_image `{Platform} (w : World) (e : Event) :
  originalImage (state w) = None ->
  is_ImageLoaded e = false ->
  encodes (handle w e) = encodes w
  /\ originalImage (state (handle w e)) = None.
Proof.
  intros Hn He.
  destruct e as [file|[file|]|result|img|v|v|v|checked|i| | |ms|blob];
    try discriminate He; cbn [handle].
  - unfold handleFile.
    destruct (negb (prefix "image/" (file_type file))); split;
      solve [reflexivity | exact Hn].
  - unfold handleFile.
    destruct (prefix "image/" (file_type file)); split;
      solve [reflexivity | exact Hn].
  - split; [reflexivity|exact Hn].
  - destruct (reads w); split; solve [reflexivity | exact Hn].
  - unfold qualitySlider_input, debounce.
    match goal with
    | |- context [executedFunction ?d ?w'] =>
        destruct (executedFunction_page d w') as (-> & _ & -> & _)
    end. split; [reflexivity|exact Hn].
  - unfold widthInput_input, debounce.
    match goal with
    | |- context [executedFunction ?d ?w'] =>
        destruct (executedFunction_page d w') as (-> & _ & -> & _)
    end.
    fields. rewrite Hn.
    destruct (lockAspectRatio (state w)); fields; split;
      solve [reflexivity | exact Hn].
  - unfold heightInput_input, debounce.
    match goal with
    | |- context [executedFunction ?d ?w'] =>
        destruct (executedFunction_page d w') as (-> & _ & -> & _)
    end.
    fields. rewrite Hn.
    destruct (lockAspectRatio (state w)); fields; split;
      solve [reflexivity | exact Hn].
  - split; [reflexivity|exact Hn].
  - unfold formatButton_click.
    destruct (nth_error (formatButtons (elements w)) i);
      [|split; [reflexivity|exact Hn]].
    rewrite compressImage_no_image by exact Hn.
    split; [reflexivity|exact Hn].
  - unfold downloadCompressedImage.
    destruct (compressedBlob (state w)); [|split; [reflexivity|exact Hn]].
    destruct (originalFile (state w)); split;
      solve [reflexivity | exact Hn].
  - split; reflexivity.
  - rewrite elapse_state. split; [|exact Hn].
    unfold elapse. fields. apply run_timers_no_image, Hn.
  - destruct (pendingEncodes w); [split; [reflexivity|exact Hn]|].
    destruct blob as [b|]; [|split; [reflexivity|exact Hn]].
    unfold toBlob_callback, createObjectURL, updateCompressedInfo. fields.
    destruct (originalFile (state w)); split;
      solve [reflexivity | exact Hn].
Qed.

(** X2: while no image has been decoded, no event other than an image load
    makes [compressImage] issue an encode: slider moves, dimension
    inputs, format clicks, timers, resets, downloads, file choices and
    read completions all return at its first line, and the page still
    holds no image afterwards. *)
Theorem no_encode_without_image `{Platform} (es : list Event) :
  forall w,
    originalImage (state w) = None ->
    forallb (fun e => negb (is_ImageLoaded e)) es = true ->
    encodes (run w es) = encodes w
    /\ originalImage (state (run w es)) = None.
Proof.
  induction es as [|e es IH]; intros w Hn Hes; [split; [reflexivity|exact Hn]|].
  cbn [forallb] in Hes. apply andb_prop in Hes as [He Hes].
  apply negb_true_iff in He.
  destruct (handle_no_image w e Hn He) as [Henc Hn'].
  unfold run. cbn [fold_left].
  destruct (IH (handle w e) Hn' Hes) as [Henc' Hn''].
  unfold run in *. split; [congruence|exact Hn''].
Qed.

Lemma no_encode_without_image_witness :
  encodes (run (resetCompressor png_world)
               [QualityInput "50"; FormatClick 2; WidthInput "10";
                Elapse 1000; FileChosen photo; ReaderLoaded "data:"])
  = encodes png_world.
Proof.
  apply (no_encode_without_image
           [QualityInput "50"; FormatClick 2; WidthInput "10";
            Elapse 1000; FileChosen photo; ReaderLoaded "data:"]
           (resetCompressor png_world)); reflexivity.
Defined.

(** X3: a dimension field that holds the digits of a number [n] from 1
    to below [2^53] has the image drawn at [n], and the canvas takes [n]
    modulo [2^32], or its default (300 wide, 150 high) when that is more
    than [2^31 - 1].  So up to [2^31 - 1] the canvas has the size typed,
    and at a multiple of [2^32] the canvas has size 0 although the field
    holds a positive number. *)
Theorem canvas_size_of_typed_digits (w : World) (img : Image) (n m : Z) :
  originalImage (state w) = Some img ->
  widthInput_value (elements w) = digits n -> 1 <= n < 2 ^ 53 ->
  heightInput_value (elements w) = digits m -> 1 <= m < 2 ^ 53 ->
  exists r,
    encodes (compressImage w) = (encodes w ++ [r])%list
    /\ req_width r = of_Z n
    /\ req_height r = of_Z m
    /\ req_canvas_width r
       = (if n mod 2 ^ 32 <=? 2147483647 then n mod 2 ^ 32 else 300)
    /\ req_canvas_height r
       = (if m mod 2 ^ 32 <=? 2147483647 then m mod 2 ^ 32 else 150)
    /\ (n <= 2147483647 -> req_canvas_width r = n)
    /\ (n mod 2 ^ 32 = 0 -> req_canvas_width r = 0).
Proof.
  intros Himg Hw Hn Hh Hm.
  destruct (compressImage_loaded w img Himg) as [Henc _].
  rewrite Henc. eexists. split; [reflexivity|].
  cbn [req_width req_height req_canvas_width req_canvas_height].
  rewrite Hw, Hh, !parseInt_digits by lia.
  unfold or_else. rewrite !truthy_of_Z by lia.
  unfold canvas_dimension.
  rewrite (to_unsigned_long_to_Z (of_Z n) n), (to_unsigned_long_to_Z (of_Z m) m)
    by (apply to_Z_of_Z; lia).
  repeat split.
  - intros Hsmall. change (2 ^ 32) with 4294967296.
    rewrite Z.mod_small by lia.
    destruct (Z.leb_spec n 2147483647); [reflexivity|lia].
  - intros Hzero. rewrite Hzero. reflexivity.
Qed.

Lemma canvas_size_of_typed_digits_witness :
  exists r,
    encodes (compressImage wide_world) = (encodes wide_world ++ [r])%list
    /\ req_width r = of_Z 4294967296
    /\ req_canvas_width r = 0
    /\ req_canvas_height r = 150.
Proof.
  destruct (canvas_size_of_typed_digits wide_world photo_image
              4294967296 2863311531)
    as (r & Henc & Hdraw & _ & _ & Hheight & _ & Hzero);
    [reflexivity | reflexivity | lia | reflexivity | lia |].
  exists r. split; [exact Henc|]. split; [exact Hdraw|].
  split; [apply Hzero; reflexivity|exact Hheight].
Defined.

(** X4: the height listener mirrors the width listener with the ratio the
    other way round: on any page reached from one with no image, with an
    image of native size [W0 x H0] stored and the lock on, typing the
    positive integer [n] into the height field writes
    [Math.round(n * (W0 / H0))], computed in doubles, into the width
    field. *)
Theorem locked_height_sets_rounded_width `{Platform} (w0 : World)
        (es : list Event) (img : Image) (n : Z) :
  originalImage (state w0) = None ->
  originalImage (state (run w0 es)) = Some img ->
  lockAspectRatio (state (run w0 es)) = true ->
  1 <= n < 2 ^ 53 ->
  widthInput_value (elements (handle (run w0 es) (HeightInput (digits n))))
  = NumberToString
      (Math_round
         (mul (of_Z n)
              (div (of_Z (img_width img)) (of_Z (img_height img)))))
  /\ heightInput_value
       (elements (handle (run w0 es) (HeightInput (digits n))))
     = digits n.
Proof.
  intros Hnone Himg Hlock Hn.
  assert (Hratio : ratio_consistent (state (run w0 es))).
  { apply run_ratio_consistent. intros img' Himg'. congruence. }
  specialize (Hratio img Himg).
  set (w := run w0 es) in *.
  cbn [handle]. unfold heightInput_input, debounce.
  match goal with
  | |- context [executedFunction ?d ?w'] =>
      destruct (executedFunction_page d w') as (_ & -> & _)
  end.
  fields. rewrite Hlock, Himg. fields.
  rewrite parseInt_digits by lia.
  unfold or_else. rewrite truthy_of_Z by lia.
  rewrite Hratio. split; reflexivity.
Qed.

Lemma locked_height_sets_rounded_width_witness :
  widthInput_value
    (elements (handle (run initial_world (load photo "data:" photo_image))
                      (HeightInput (digits 400))))
  = "600".
Proof.
  destruct (locked_height_sets_rounded_width initial_world
              (load photo "data:" photo_image) photo_image 400)
    as [Hw _];
    [vm_compute; reflexivity | reflexivity | vm_compute; reflexivity | lia |].
  rewrite Hw. vm_compute. reflexivity.
Defined.

(** X5: with the aspect lock off, typing into one dimension field leaves
    the other field as it was. *)
Theorem unlocked_fields_are_independent `{Platform} (w : World) (v : string) :
  lockAspectRatio (state w) = false ->
  (heightInput_value (elements (handle w (WidthInput v)))
   = heightInput_value (elements w)
   /\ widthInput_value (elements (handle w (WidthInput v))) = v)
  /\ (widthInput_value (elements (handle w (HeightInput v)))
      = widthInput_value (elements w)
      /\ heightInput_value (elements (handle w (HeightInput v))) = v).
Proof.
  intros Hlock. cbn [handle].
  unfold widthInput_input, heightInput_input, debounce.
  repeat match goal with
  | |- context [elements (executedFunction ?d ?w')] =>
      destruct (executedFunction_page d w') as (_ & -> & _)
  end.
  fields. rewrite Hlock. fields. repeat split.
Qed.

Lemma unlocked_fields_are_independent_witness :
  heightInput_value
    (elements (handle (handle loaded_world (AspectChange false))
                      (WidthInput "10")))
  = "800".
Proof.
  destruct (unlocked_fields_are_independent
              (handle loaded_world (AspectChange false)) "10" eq_refl)
    as [[Hh _] _].
  rewrite Hh. reflexivity.
Defined.

(** ** Format buttons *)

Lemma activate_only_nth (i : nat) (bs : list FormatButton) :
  forall j0 j b,
    nth_error (activate_only i j0 bs) j = Some b ->
    exists b0,
      nth_error bs j = Some b0
      /\ btn_format b = btn_format b0
      /\ btn_active b = Nat.eqb (j0 + j) i.
Proof.
  induction bs as [|a bs IH]; intros j0 j b; cbn [activate_only].
  - destruct j; discriminate.
  - destruct j as [|j]; cbn [nth_error].
    + intros [= <-]. exists a. rewrite Nat.add_0_r. repeat split.
    + intros Hb. destruct (IH (S j0) j b Hb) as (b0 & H0 & Hf & Ha).
      exists b0. rewrite Ha. replace (j0 + S j)%nat with (S j0 + j)%nat by lia.
      repeat split; assumption.
Qed.

Lemma activate_only_length (i : nat) (bs : list FormatButton) :
  forall j0, List.length (activate_only i j0 bs) = List.length bs.
Proof.
  induction bs as [|a bs IH]; intros j0; cbn [activate_only List.length];
    [reflexivity|now rewrite IH].
Qed.

(** X6: a click on the [i]-th format button stores that button's
    [dataset.format], leaves exactly that button active and every
    button's format as it was, sets no timer, and, with an image loaded,
    issues one encode at once, for the new format. *)
Theorem format_click_selects_one `{Platform} (w : World) (i : nat)
        (btn : FormatButton) :
  nth_error (formatButtons (elements w)) i = Some btn ->
  outputFormat (state (handle w (FormatClick i))) = btn_format btn
  /\ List.length (formatButtons (elements (handle w (FormatClick i))))
     = List.length (formatButtons (elements w))
  /\ (forall j b,
        nth_error (formatButtons (elements (handle w (FormatClick i)))) j
        = Some b ->
        btn_active b = Nat.eqb j i
        /\ option_map btn_format (nth_error (formatButtons (elements w)) j)
           = Some (btn_format b))
  /\ timers (handle w (FormatClick i)) = timers w
  /\ (forall img,
        originalImage (state w) = Some img ->
        exists r,
          encodes (handle w (FormatClick i)) = (encodes w ++ [r])%list
          /\ req_format r = btn_format btn).
Proof.
  intros Hbtn. cbn [handle]. unfold formatButton_click. rewrite Hbtn.
  rewrite compressImage_state, compressImage_elements, compressImage_timers.
  fields. split; [reflexivity|]. split; [apply activate_only_length|].
  split; [|split; [reflexivity|]].
  - intros j b Hb.
    destruct (activate_only_nth i _ 0 j b Hb) as (b0 & H0 & Hf & Ha).
    split; [exact Ha|]. rewrite H0. cbn [option_map]. congruence.
  - intros img Himg.
    match goal with
    | |- context [compressImage ?w'] =>
        destruct (compressImage_loaded w' img Himg) as [Henc _]
    end.
    rewrite Henc. fields. eexists. split; [reflexivity|reflexivity].
Qed.

Lemma format_click_selects_one_witness :
  outputFormat (state (handle loaded_world (FormatClick 2))) = "image/webp".
Proof.
  apply (format_click_selects_one loaded_world 2
           {| btn_format := "image/webp"; btn_active := false |}).
  reflexivity.
Defined.

(** ** File names *)

Lemma no_slash_or_dot_app_dot (a b : string) :
  no_slash_or_dot (a ++ String "." b) = false.
Proof.
  induction a as [|c a IH]; cbn [append no_slash_or_dot].
  - reflexivity.
  - rewrite IH. now rewrite andb_false_r.
Qed.

(** The last extension is what the pattern removes. *)
Lemma strip_extension_last (base ext : string) :
  ext <> "" -> no_slash_or_dot ext = true ->
  strip_extension (base ++ "." ++ ext) = base.
Proof.
  intros Hne Hext. change ("." ++ ext) with (String "." ext).
  induction base as [|c base IH]; cbn [append strip_extension].
  - cbn [Ascii.eqb Bool.eqb andb]. rewrite Hext.
    destruct (String.eqb_spec ext ""); [contradiction|]. reflexivity.
  - rewrite no_slash_or_dot_app_dot, andb_false_r, IH. reflexivity.
Qed.

Lemma no_dot_not_extension (s : string) :
  no_dot s = true -> strip_extension s = s.
Proof.
  induction s as [|c s IH]; cbn [no_dot strip_extension]; [reflexivity|].
  intros Hd. apply andb_prop in Hd as [Hc Hs].
  apply negb_true_iff in Hc. rewrite Hc. cbn [andb]. now rewrite IH.
Qed.

Lemma until_slash_no_slash (s : string) :
  no_slash s = true -> until_slash s = s.
Proof.
  induction s as [|c s IH]; cbn [no_slash until_slash]; [reflexivity|].
  intros Hd. apply andb_prop in Hd as [Hc Hs].
  apply negb_true_iff in Hc. rewrite Hc. now rewrite IH.
Qed.

Lemma split_slash_1_image (fmt : string) :
  no_slash fmt = true -> split_slash_1 ("image/" ++ fmt) = Some fmt.
Proof.
  intros Hf. unfold split_slash_1. cbn. now rewrite until_slash_no_slash.
Qed.

Lemma download_with_file `{Platform} (w : World) (blob : Blob) (f : File) :
  compressedBlob (state w) = Some blob ->
  originalFile (state w) = Some f ->
  downloadCompressedImage w
  = emit (RevokeObjectURL ("blob:" ++ digits (Z.of_nat (objectURLs w))))
      (emit (Download
               (strip_extension (file_name f) ++ "_compressed."
                ++ string_or_undefined (split_slash_1 (outputFormat (state w))))
               ("blob:" ++ digits (Z.of_nat (objectURLs w))) blob)
            (set_objectURLs (S (objectURLs w)) w)).
Proof.
  intros Hb Hf. unfold downloadCompressedImage, createObjectURL.
  rewrite Hb, Hf. reflexivity.
Qed.

(** X7: with a blob stored and the file still held, the download is offered
    under the file's name with its last extension replaced by
    [_compressed.] and the subtype of the output format; the object URL
    made for it is revoked right after the click, and neither [state]
    nor the elements change. *)
Theorem download_offers_renamed_file `{Platform} (w : World) (blob : Blob)
        (f : File) (base ext fmt : string) :
  compressedBlob (state w) = Some blob ->
  originalFile (state w) = Some f ->
  file_name f = base ++ "." ++ ext ->
  ext <> "" -> no_slash_or_dot ext = true ->
  outputFormat (state w) = "image/" ++ fmt ->
  no_slash fmt = true ->
  let url := "blob:" ++ digits (Z.of_nat (objectURLs w)) in
  effects (handle w DownloadClick)
  = (effects w
     ++ [Download (base ++ "_compressed." ++ fmt) url blob;
         RevokeObjectURL url])%list
  /\ state (handle w DownloadClick) = state w
  /\ elements (handle w DownloadClick) = elements w
  /\ encodes (handle w DownloadClick) = encodes w.
Proof.
  intros Hb Hf Hname Hne Hext Hfmt Hno url. cbn [handle].
  rewrite (download_with_file w blob f Hb Hf).
  rewrite Hname, strip_extension_last, Hfmt, split_slash_1_image by assumption.
  cbn [string_or_undefined]. unfold emit. fields.
  rewrite <- app_assoc. repeat split.
Qed.

Lemma download_offers_renamed_file_witness :
  effects (handle loaded_world DownloadClick)
  = [Download "photo_compressed.jpeg" "blob:1" small_blob;
     RevokeObjectURL "blob:1"].
Proof.
  apply (download_offers_renamed_file loaded_world small_blob photo
           "photo" "png" "jpeg"); try reflexivity. discriminate.
Defined.

(** X8: a file name without any dot has no extension to lose: the whole
    name is kept before [_compressed.]. *)
Theorem download_keeps_name_without_extension `{Platform} (w : World)
        (blob : Blob) (f : File) (fmt : string) :
  compressedBlob (state w) = Some blob ->
  originalFile (state w) = Some f ->
  no_dot (file_name f) = true ->
  outputFormat (state w) = "image/" ++ fmt ->
  no_slash fmt = true ->
  let url := "blob:" ++ digits (Z.of_nat (objectURLs w)) in
  effects (handle w DownloadClick)
  = (effects w
     ++ [Download (file_name f ++ "_compressed." ++ fmt) url blob;
         RevokeObjectURL url])%list.
Proof.
  intros Hb Hf Hname Hfmt Hno url. cbn [handle].
  rewrite (download_with_file w blob f Hb Hf).
  rewrite no_dot_not_extension, Hfmt, split_slash_1_image by assumption.
  cbn [string_or_undefined]. unfold emit. fields.
  rewrite <- app_assoc. reflexivity.
Qed.

Lemma download_keeps_name_without_extension_witness :
  effects (handle scan_world DownloadClick)
  = [Download "scan_compressed.jpeg" "blob:1" small_blob;
     RevokeObjectURL "blob:1"].
Proof.
  apply (download_keeps_name_without_extension scan_world small_blob scan
           "jpeg"); reflexivity.
Defined.

(** ** Callbacks that arrive after a reset *)

(** X9: an encode still owed when the page is reset is not cancelled.  When
    its blob arrives it is stored and shown in the compressed preview
    although no file is held; the info update then throws, so the size
    and savings texts keep their old values; and a click on Download,
    finding a blob but no file, throws as well. *)
Theorem stale_encode_after_reset `{Platform} (w : World) (b : Blob) (n : nat) :
  pendingEncodes w = S n ->
  let w' := run w [ResetClick; BlobReady (Some b)] in
  compressedBlob (state w') = Some b
  /\ originalFile (state w') = None
  /\ originalImage (state w') = None
  /\ compressedPreview_src (elements w')
     = "blob:" ++ digits (Z.of_nat (objectURLs w))
  /\ compressedInfo_fileSize (elements w')
     = compressedInfo_fileSize (elements w)
  /\ savings_text (elements w') = savings_text (elements w)
  /\ effects w' = (effects w ++ [ScrollToTop; UncaughtTypeError])%list
  /\ effects (handle w' DownloadClick)
     = (effects w ++ [ScrollToTop; UncaughtTypeError; UncaughtTypeError])%list.
Proof.
  intros Hp w'. subst w'. unfold run. cbn [fold_left handle].
  assert (Hp' : pendingEncodes (resetCompressor w) = S n) by exact Hp.
  rewrite Hp'.
  unfold downloadCompressedImage, toBlob_callback, createObjectURL,
    updateCompressedInfo, resetCompressor.
  fields. cbn [settle]. unfold emit. fields. cbn [settle]. unfold emit.
  fields. rewrite <- !app_assoc. repeat split.
Qed.

Lemma stale_encode_after_reset_witness :
  compressedBlob
    (state (run png_world [ResetClick; BlobReady (Some small_blob)]))
  = Some small_blob.
Proof.
  pose proof (stale_encode_after_reset png_world small_blob 0 eq_refl)
    as (Hb & _).
  exact Hb.
Defined.

Lemma resetCompressor_queues (w : World) :
  reads (resetCompressor w) = reads w
  /\ decodes (resetCompressor w) = decodes w
  /\ encodes (resetCompressor w) = encodes w
  /\ pendingEncodes (resetCompressor w) = pendingEncodes w
  /\ timers (resetCompressor w) = timers w
  /\ effects (resetCompressor w) = (effects w ++ [ScrollToTop])%list.
Proof. repeat split. Qed.

Lemma resetCompressor_panel (w : World) :
  compressionPanel_active (elements (resetCompressor w)) = false
  /\ uploadZone_display (elements (resetCompressor w)) = "block".
Proof. split; reflexivity. Qed.

(** [img.onload] with no file held: the writes before the info update
    stay, the rest does not run. *)
Lemma img_onload_no_file `{Platform} (result : string) (img : Image)
      (w : World) :
  originalFile (state w) = None ->
  originalFile (state (img_onload result img w)) = None
  /\ compressionPanel_active (elements (img_onload result img w))
     = compressionPanel_active (elements w)
  /\ uploadZone_display (elements (img_onload result img w))
     = uploadZone_display (elements w)
  /\ encodes (img_onload result img w) = encodes w
  /\ effects (img_onload result img w)
     = (effects w ++ [UncaughtTypeError])%list.
Proof.
  intros Hf. unfold img_onload, updateOriginalInfo. fields. rewrite Hf.
  cbn [bind settle]. unfold emit. fields. repeat split. exact Hf.
Qed.

Lemma handle_ReaderLoaded `{Platform} (result : string) (w : World)
      (n : nat) :
  reads w = S n ->
  handle w (ReaderLoaded result) = reader_onload result (set_reads n w).
Proof. intros Hr. cbn [handle]. rewrite Hr. reflexivity. Qed.

Lemma reader_onload_fields (result : string) (w : World) :
  decodes (reader_onload result w) = (decodes w ++ [result])%list
  /\ state (reader_onload result w) = state w
  /\ elements (reader_onload result w) = elements w
  /\ encodes (reader_onload result w) = encodes w
  /\ effects (reader_onload result w) = effects w.
Proof. repeat split. Qed.

Lemma handle_FileChosen_image `{Platform} (w : World) (file : File) :
  prefix "image/" (file_type file) = true ->
  reads (handle w (FileChosen file)) = S (reads w)
  /\ decodes (handle w (FileChosen file)) = decodes w
  /\ encodes (handle w (FileChosen file)) = encodes w
  /\ effects (handle w (FileChosen file)) = effects w.
Proof.
  intros Hty. cbn [handle]. unfold handleFile. rewrite Hty. repeat split.
Qed.

Lemma resetCompressor_file (w : World) :
  originalFile (state (resetCompressor w)) = None.
Proof. reflexivity. Qed.

Lemma handle_ImageLoaded `{Platform} (w : World) (img : Image)
      (r : string) (rest : list string) :
  decodes w = r :: rest ->
  handle w (ImageLoaded img) = img_onload r img (set_decodes rest w).
Proof. intros Hd. cbn [handle]. rewrite Hd. reflexivity. Qed.

(** X10: a read still under way when the page is reset is not cancelled
    either.  When its image arrives it is stored and the dimension fields
    are filled, but [updateOriginalInfo] throws on the missing file: the
    panel stays hidden, the upload zone stays shown and no encode is
    issued. *)
Theorem image_arriving_after_reset `{Platform} (w : World) (file : File)
        (result : string) (img : Image) :
  prefix "image/" (file_type file) = true ->
  let w' := run w [FileChosen file; ResetClick; ReaderLoaded result;
                   ImageLoaded img] in
  originalImage (state w') = Some img
  /\ originalFile (state w') = None
  /\ widthInput_value (elements w') = NumberToString (of_Z (img_width img))
  /\ compressionPanel_active (elements w') = false
  /\ uploadZone_display (elements w') = "block"
  /\ encodes w' = encodes w
  /\ effects w' = (effects w ++ [ScrollToTop; UncaughtTypeError])%list.
Proof.
  intros Hty w'. subst w'. rewrite !run_cons, run_nil.
  generalize (handle_FileChosen_image w file Hty).
  generalize (handle w (FileChosen file)).
  intros wa (Har & Had & Hae & Haf).
  change (handle wa ResetClick) with (resetCompressor wa).
  generalize (resetCompressor_queues wa), (resetCompressor_panel wa),
    (resetCompressor_file wa).
  generalize (resetCompressor wa).
  intros wb (Hbr & Hbd & Hbe & _ & _ & Hbf) [Hbp Hbz] Hbs.
  rewrite (handle_ReaderLoaded result wb (reads w))
    by (rewrite Hbr; exact Har).
  generalize (reader_onload_fields result (set_reads (reads w) wb)).
  generalize (reader_onload result (set_reads (reads w) wb)).
  intros wc (Hcd & Hcs & Hce & Hcn & Hcf).
  cbn [decodes state elements encodes effects set_reads] in Hcd, Hcs, Hce,
    Hcn, Hcf.
  rewrite Hbd, Had in Hcd.
  destruct (decodes wc) as [|r0 rest] eqn:Hd;
    [destruct (decodes w); discriminate Hcd|].
  rewrite (handle_ImageLoaded wc img r0 rest Hd).
  assert (Hdf : originalFile (state (set_decodes rest wc)) = None)
    by (fields; rewrite Hcs; exact Hbs).
  destruct (img_onload_no_file r0 img _ Hdf) as (Hf & Hp & Hz & Hn & He).
  destruct (img_onload_dimensions r0 img (set_decodes rest wc)) as [Hw _].
  split; [rewrite img_onload_state; reflexivity|].
  rewrite Hf, Hw, Hp, Hz, Hn, He.
  fields. rewrite Hce, Hbp, Hbz, Hcn, Hbe, Hae, Hcf, Hbf, Haf.
  rewrite <- app_assoc. repeat split.
Qed.

Lemma image_arriving_after_reset_witness :
  compressionPanel_active
    (elements (run initial_world
                   [FileChosen photo; ResetClick; ReaderLoaded "data:";
                    ImageLoaded photo_image]))
  = false.
Proof.
  pose proof (image_arriving_after_reset initial_world photo "data:"
                photo_image eq_refl) as (_ & _ & _ & Hp & _).
  exact Hp.
Defined.

(** ** Reset *)

Lemma activate_only_again (i : nat) (bs : list FormatButton) :
  forall j0, activate_only i j0 (activate_only i j0 bs) = activate_only i j0 bs.
Proof.
  induction bs as [|a bs IH]; intros j0; cbn [activate_only]; [reflexivity|].
  cbn [btn_format]. now rewrite IH.
Qed.

(** Two sets of elements that agree on every property are the same. *)
Lemma Elements_ext (e1 e2 : Elements) :
  uploadZone_display e1 = uploadZone_display e2 ->
  compressionPanel_active e1 = compressionPanel_active e2 ->
  originalPreview_src e1 = originalPreview_src e2 ->
  compressedPreview_src e1 = compressedPreview_src e2 ->
  originalInfo_fileSize e1 = originalInfo_fileSize e2 ->
  compressedInfo_fileSize e1 = compressedInfo_fileSize e2 ->
  savings_text e1 = savings_text e2 ->
  savings_background e1 = savings_background e2 ->
  qualitySlider_value e1 = qualitySlider_value e2 ->
  qualityValue_text e1 = qualityValue_text e2 ->
  widthInput_value e1 = widthInput_value e2 ->
  widthInput_placeholder e1 = widthInput_placeholder e2 ->
  heightInput_value e1 = heightInput_value e2 ->
  heightInput_placeholder e1 = heightInput_placeholder e2 ->
  fileInput_value e1 = fileInput_value e2 ->
  formatButtons e1 = formatButtons e2 ->
  e1 = e2.
Proof.
  destruct e1, e2. cbn. intros. subst. reflexivity.
Qed.

(** X11: a second reset changes nothing the first one set; a reset cancels
    no timer, no encode, no read and no decode, and leaves the aspect
    lock as the user set it. *)
Theorem reset_is_idempotent_and_keeps_queues (w : World) :
  state (resetCompressor (resetCompressor w)) = state (resetCompressor w)
  /\ elements (resetCompressor (resetCompressor w))
     = elements (resetCompressor w)
  /\ timers (resetCompressor w) = timers w
  /\ pendingEncodes (resetCompressor w) = pendingEncodes w
  /\ reads (resetCompressor w) = reads w
  /\ decodes (resetCompressor w) = decodes w
  /\ lockAspectRatio (state (resetCompressor w)) = lockAspectRatio (state w).
Proof.
  unfold resetCompressor, emit. fields.
  split; [reflexivity|]. split; [|repeat split].
  apply Elements_ext; fields; rewrite ?activate_only_again; reflexivity.
Qed.

(** ** Delivered blobs *)

Lemma handle_BlobReady_some `{Platform} (w : World) (b : Blob) (n : nat) :
  pendingEncodes w = S n ->
  compressedBlob (state (handle w (BlobReady (Some b)))) = Some b
  /\ compressedPreview_src (elements (handle w (BlobReady (Some b))))
     = "blob:" ++ digits (Z.of_nat (objectURLs w))
  /\ pendingEncodes (handle w (BlobReady (Some b))) = n
  /\ objectURLs (handle w (BlobReady (Some b))) = S (objectURLs w)
  /\ encodes (handle w (BlobReady (Some b))) = encodes w
  /\ timers (handle w (BlobReady (Some b))) = timers w
  /\ (effects (handle w (BlobReady (Some b))) = effects w
      \/ effects (handle w (BlobReady (Some b)))
         = (effects w ++ [UncaughtTypeError])%list).
Proof.
  intros Hp. cbn [handle]. rewrite Hp.
  unfold toBlob_callback, createObjectURL, updateCompressedInfo. fields.
  destruct (originalFile (state w)) as [f|]; cbn [settle]; unfold emit;
    fields; repeat split; auto.
Qed.

(** X12: of two blobs delivered one after the other the second is the one
    stored and shown; each gets an object URL of its own, and neither URL
    is ever revoked by the callback. *)
Theorem delivered_blobs_apply_in_arrival_order `{Platform} (w : World)
        (b1 b2 : Blob) (n : nat) :
  pendingEncodes w = S (S n) ->
  let w' := run w [BlobReady (Some b1); BlobReady (Some b2)] in
  compressedBlob (state w') = Some b2
  /\ compressedPreview_src (elements w')
     = "blob:" ++ digits (Z.of_nat (S (objectURLs w)))
  /\ pendingEncodes w' = n
  /\ objectURLs w' = S (S (objectURLs w))
  /\ forall url, ~ In (RevokeObjectURL url) (effects w) ->
                 ~ In (RevokeObjectURL url) (effects w').
Proof.
  intros Hp w'. subst w'. rewrite !run_cons, run_nil.
  generalize (handle_BlobReady_some w b1 (S n) Hp).
  generalize (handle w (BlobReady (Some b1))).
  intros w1 (_ & _ & Hp1 & Hu1 & _ & _ & He1).
  destruct (handle_BlobReady_some w1 b2 n Hp1)
    as (Hb & Hs & Hp2 & Hu2 & _ & _ & He2).
  rewrite Hb, Hs, Hp2, Hu2, Hu1. repeat split.
  intros url Hno Hin. apply Hno.
  assert (Hin1 : In (RevokeObjectURL url) (effects w1)).
  { destruct He2 as [He2|He2]; rewrite He2 in Hin; [exact Hin|].
    apply in_app_or in Hin. destruct Hin as [Hin|[Hin|[]]];
      [exact Hin|discriminate Hin]. }
  destruct He1 as [He1|He1]; rewrite He1 in Hin1; [exact Hin1|].
  apply in_app_or in Hin1. destruct Hin1 as [Hin1|[Hin1|[]]];
    [exact Hin1|discriminate Hin1].
Qed.

Lemma delivered_blobs_apply_in_arrival_order_witness :
  compressedBlob
    (state (run two_pending_world
                [BlobReady (Some small_blob); BlobReady (Some webp_blob)]))
  = Some webp_blob.
Proof.
  pose proof (delivered_blobs_apply_in_arrival_order two_pending_world
                small_blob webp_blob 0 eq_refl) as (Hb & _).
  exact Hb.
Defined.

(** ** One debounced function, called repeatedly *)

Lemma nth_update_nth {A} (n : nat) (v d : A) (l : list A) :
  (n < List.length l)%nat -> nth n (update_nth n v l) d = v.
Proof.
  revert n. induction l as [|a l IH]; intros n Hn; cbn [List.length] in Hn;
    [lia|].
  destruct n as [|n]; cbn [update_nth nth]; [reflexivity|].
  apply IH. lia.
Qed.

Lemma update_nth_length {A} (n : nat) (v : A) (l : list A) :
  List.length (update_nth n v l) = List.length l.
Proof.
  revert n. induction l as [|a l IH]; intros n;
    [destruct n; reflexivity|].
  destruct n as [|n]; cbn [update_nth List.length]; [reflexivity|].
  now rewrite IH.
Qed.

(** A call clears the timer of the call before and leaves its own. *)
Lemma executedFunction_sole (d : Debounced) (w : World) :
  sole_timer d w ->
  timers (executedFunction d w)
  = [{| timer_id := nextTimer w; timer_due := now w + db_wait d;
        timer_later := d |}]
  /\ timeout_of d (executedFunction d w) = Some (nextTimer w)
  /\ now (executedFunction d w) = now w
  /\ List.length (cells (executedFunction d w)) = List.length (cells w).
Proof.
  intros [Hcell Hq]. unfold executedFunction, setTimeout.
  assert (Hclear : timers (clearTimeout (timeout_of d w) w) = []).
  { destruct Hq as [Hnil|(t & Ht & Hcellt)].
    - destruct (timeout_of d w); cbn [clearTimeout]; fields;
        rewrite Hnil; reflexivity.
    - rewrite Hcellt. cbn [clearTimeout]. fields. rewrite Ht.
      cbn [filter]. rewrite Nat.eqb_refl. reflexivity. }
  assert (Hrest : now (clearTimeout (timeout_of d w) w) = now w
                  /\ nextTimer (clearTimeout (timeout_of d w) w) = nextTimer w
                  /\ cells (clearTimeout (timeout_of d w) w) = cells w)
    by (destruct (timeout_of d w); repeat split).
  destruct Hrest as (Hnow & Hnext & Hcells).
  fields. rewrite Hclear, Hnow, Hnext, !Hcells.
  unfold timeout_of. fields.
  rewrite nth_update_nth by exact Hcell. rewrite update_nth_length.
  repeat split.
Qed.

(** Time short of the timer's due moment only moves the clock. *)
Lemma elapse_before_due (ms : Z) (t : Timer) (w : World) :
  timers w = [t] -> now w + Z.max 0 ms < timer_due t ->
  elapse ms w = set_now (now w + Z.max 0 ms) w.
Proof.
  intros Ht Hdue. unfold elapse. rewrite Ht.
  cbn [List.length run_timers]. rewrite Ht. cbn [earliest].
  apply Z.leb_gt in Hdue. rewrite Hdue. reflexivity.
Qed.

Lemma compressImage_encodes_ext (w1 w2 : World) :
  state w1 = state w2 -> elements w1 = elements w2 ->
  encodes w1 = encodes w2 ->
  encodes (compressImage w1) = encodes (compressImage w2).
Proof.
  intros Hs He Hn. unfold compressImage. rewrite Hs.
  destruct (originalImage (state w2)); [|exact Hn].
  unfold toBlob. fields. rewrite ?Hs, ?He, ?Hn. reflexivity.
Qed.

(** When the wait has passed the timer fires, and its [later] calls
    [func] once. *)
Lemma elapse_fires_sole (ms : Z) (t : Timer) (w : World) :
  timers w = [t] -> timeout_of (timer_later t) w = Some (timer_id t) ->
  timer_due t <= now w + Z.max 0 ms ->
  timers (elapse ms w) = []
  /\ state (elapse ms w) = state w
  /\ elements (elapse ms w) = elements w
  /\ encodes (elapse ms w) = encodes (compressImage w).
Proof.
  intros Ht Hcell Hdue. unfold elapse. rewrite Ht.
  cbn [List.length run_timers]. rewrite Ht. cbn [earliest].
  apply Z.leb_le in Hdue. rewrite Hdue. fields.
  unfold fire, later. destruct (db_func (timer_later t)). cbn [call].
  rewrite compressImage_timers, compressImage_state, compressImage_elements.
  set (w1 := clearTimeout (Some (timer_id t)) _).
  assert (H1 : timers w1 = [] /\ state w1 = state w
               /\ elements w1 = elements w /\ encodes w1 = encodes w).
  { subst w1. cbn [clearTimeout]. fields. rewrite Ht. cbn [filter].
    rewrite Nat.eqb_refl. repeat split. }
  destruct H1 as (Ht1 & Hs1 & He1 & Hn1).
  destruct (clearTimeout_page (timeout_of (timer_later t) w1) w1)
    as (Hs2 & He2 & Hn2 & _).
  assert (Ht2 : timers (clearTimeout (timeout_of (timer_later t) w1) w1) = []).
  { pose proof (clearTimeout_length (timeout_of (timer_later t) w1) w1) as Hl.
    rewrite Ht1 in Hl. apply length_zero_iff_nil.
    cbn [List.length] in Hl. lia. }
  split; [exact Ht2|]. split; [congruence|]. split; [congruence|].
  apply compressImage_encodes_ext; congruence.
Qed.

Lemma debounced_calls_sole (d : Debounced) (gaps : list Z) :
  Forall (fun g => 0 <= g < db_wait d) gaps ->
  forall w,
    sole_timer d w ->
    let w' := debounced_calls d gaps w in
    (exists id,
       timers w'
       = [{| timer_id := id; timer_due := now w' + db_wait d;
             timer_later := d |}]
       /\ timeout_of d w' = Some id)
    /\ state w' = state w
    /\ elements w' = elements w
    /\ encodes w' = encodes w.
Proof.
  induction 1 as [|g gaps Hg Hgaps IH]; intros w Hw;
    cbn [debounced_calls]; cbv zeta.
  - destruct (executedFunction_sole d w Hw) as (Ht & Hc & Hn & _).
    destruct (executedFunction_page d w) as (Hs & He & Hen & _).
    rewrite Hn. split; [exists (nextTimer w); split; assumption|].
    repeat split; assumption.
  - destruct (executedFunction_sole d w Hw) as (Ht & Hc & Hn & Hl).
    destruct (executedFunction_page d w) as (Hs & He & Hen & _).
    rewrite (elapse_before_due g _ _ Ht)
      by (cbn [timer_due]; rewrite Hn; lia).
    specialize (IH (set_now (now (executedFunction d w) + Z.max 0 g)
                            (executedFunction d w))).
    cbv zeta in IH.
    destruct IH as (Hsole & Hs' & He' & Hen').
    + destruct Hw as [Hcell _]. split; [fields; lia|]. right.
      eexists. fields. split; [exact Ht|]. exact Hc.
    + split; [exact Hsole|].
      rewrite Hs', He', Hen'. fields. repeat split; assumption.
Qed.

(** X13: what [debounce] gives when one debounced function is kept and
    called repeatedly.  Calls less than [wait] apart run nothing; once
    [wait] has passed after the last of them, [func] has run exactly
    once, on the page as the calls left it, and no timer is pending. *)
Theorem debounce_coalesces_calls (w : World) (wait : Z) (gaps : list Z) :
  timers w = [] ->
  0 <= wait ->
  Forall (fun g => 0 <= g < wait) gaps ->
  let d := fst (debounce compressImage_fn wait w) in
  let w1 := debounced_calls d gaps (snd (debounce compressImage_fn wait w)) in
  encodes w1 = encodes w
  /\ encodes (elapse wait w1) = encodes (compressImage w)
  /\ state (elapse wait w1) = state w
  /\ elements (elapse wait w1) = elements w
  /\ timers (elapse wait w1) = [].
Proof.
  intros Hnil Hwait Hgaps. unfold debounce. cbn [fst snd].
  set (d := {| db_func := compressImage_fn; db_wait := wait;
               db_cell := List.length (cells w) |}).
  assert (Hsole : sole_timer d (set_cells (cells w ++ [None]) w)).
  { split; [|left; exact Hnil]. fields. subst d. cbn [db_cell].
    rewrite length_app. cbn [List.length]. lia. }
  generalize (debounced_calls_sole d gaps Hgaps _ Hsole). cbv zeta.
  generalize (debounced_calls d gaps (set_cells (cells w ++ [None]) w)).
  intros w1 ((id & Ht & Hc) & Hs & He & Hn). fields.
  destruct (elapse_fires_sole wait _ w1 Ht Hc) as (Ht' & Hs' & He' & Hn').
  { cbn [timer_due]. subst d. cbn [db_wait]. lia. }
  split; [exact Hn|]. rewrite Hn', Hs', He', Hs, He.
  split; [apply compressImage_encodes_ext; assumption|].
  repeat split. exact Ht'.
Qed.

Lemma debounce_coalesces_calls_witness :
  encodes
    (elapse 100
       (debounced_calls (fst (debounce compressImage_fn 100 loaded_world))
          [10; 10] (snd (debounce compressImage_fn 100 loaded_world))))
  = encodes (compressImage loaded_world).
Proof.
  pose proof (debounce_coalesces_calls loaded_world 100 [10; 10] eq_refl)
    as H.
  destruct H as (_ & He & _).
  - lia.
  - repeat constructor; lia.
  - exact He.
Defined.

(** ** From an input to its encode *)

(** A fresh debounced function, called once on a page with no timer. *)
Lemma debounce_call_sole (wait : Z) (w : World) :
  timers w = [] ->
  let w' := executedFunction (fst (debounce compressImage_fn wait w))
                             (snd (debounce compressImage_fn wait w)) in
  (exists t,
     timers w' = [t] /\ timer_due t = now w' + wait
     /\ timeout_of (timer_later t) w' = Some (timer_id t))
  /\ state w' = state w /\ elements w' = elements w
  /\ encodes w' = encodes w.
Proof.
  intros Hnil. unfold debounce. cbn [fst snd]. cbv zeta.
  match goal with
  | |- context [executedFunction ?d ?w1] =>
      destruct (executedFunction_sole d w1) as (Ht & Hc & Hn & _);
      [|destruct (executedFunction_page d w1) as (Hs & He & Hen & _)]
  end.
  { split; [|left; exact Hnil]. fields. cbn [db_cell].
    rewrite length_app. cbn [List.length]. lia. }
  split; [|repeat split; assumption].
  eexists. split; [exact Ht|]. cbn [timer_due timer_later timer_id db_wait].
  rewrite Hn. split; [reflexivity|exact Hc].
Qed.

(** Each of the three listeners ends in such a call. *)
Lemma handle_input_sole `{Platform} (w : World) (e : Event) (wait : Z) :
  wait_of e = Some wait -> timers w = [] ->
  exists t,
    timers (handle w e) = [t] /\ timer_due t = now (handle w e) + wait
    /\ timeout_of (timer_later t) (handle w e) = Some (timer_id t).
Proof.
  intros He Hnil.
  destruct e as [file|[file|]|result|img|v|v|v|checked|i| | |ms|blob];
    try discriminate He; injection He as <-; cbn [handle].
  - unfold qualitySlider_input.
    match goal with
    | |- context [debounce compressImage_fn 100 ?w0] =>
        destruct (debounce_call_sole 100 w0 Hnil) as [Ht _]
    end.
    exact Ht.
  - unfold widthInput_input.
    match goal with
    | |- context [debounce compressImage_fn 300 ?w0] =>
        destruct (debounce_call_sole 300 w0) as [Ht _]
    end; [|exact Ht].
    fields. destruct (lockAspectRatio (state w)), (originalImage (state w));
      exact Hnil.
  - unfold heightInput_input.
    match goal with
    | |- context [debounce compressImage_fn 300 ?w0] =>
        destruct (debounce_call_sole 300 w0) as [Ht _]
    end; [|exact Ht].
    fields. destruct (lockAspectRatio (state w)), (originalImage (state w));
      exact Hnil.
Qed.

Lemma handle_input_encodes `{Platform} (w : World) (e : Event) (wait : Z) :
  wait_of e = Some wait -> encodes (handle w e) = encodes w.
Proof.
  intros He.
  destruct e as [file|[file|]|result|img|v|v|v|checked|i| | |ms|blob];
    try discriminate He; cbn [handle].
  - apply qualitySlider_input_timers.
  - unfold widthInput_input, debounce.
    match goal with
    | |- context [executedFunction ?d ?w'] =>
        destruct (executedFunction_page d w') as (_ & _ & -> & _)
    end.
    fields.
    destruct (lockAspectRatio (state w)), (originalImage (state w));
      reflexivity.
  - unfold heightInput_input, debounce.
    match goal with
    | |- context [executedFunction ?d ?w'] =>
        destruct (executedFunction_page d w') as (_ & _ & -> & _)
    end.
    fields.
    destruct (lockAspectRatio (state w)), (originalImage (state w));
      reflexivity.
Qed.

(** X14: a move of the quality slider, or a character typed into a dimension
    field, on a page with no timer pending, is encoded once its wait has
    passed (100 ms for the slider, 300 ms for the fields) and not
    before; the encode is the one [compressImage] makes of the page as
    the input left it. *)
Theorem input_encodes_after_its_wait `{Platform} (w : World) (e : Event)
        (wait : Z) :
  wait_of e = Some wait ->
  timers w = [] ->
  (forall ms, 0 <= ms < wait -> encodes (run w [e; Elapse ms]) = encodes w)
  /\ encodes (run w [e; Elapse wait]) = encodes (compressImage (handle w e))
  /\ timers (run w [e; Elapse wait]) = [].
Proof.
  intros He Hnil.
  assert (Hwait : 0 <= wait)
    by (destruct e; try discriminate He; injection He as <-; lia).
  pose proof (handle_input_encodes w e wait He) as Henc.
  destruct (handle_input_sole w e wait He Hnil) as (t & Ht & Hdue & Hcell).
  split; [|rewrite !run_cons, run_nil; cbn [handle]].
  - intros ms Hms. rewrite !run_cons, run_nil. cbn [handle].
    rewrite (elapse_before_due ms t _ Ht) by lia. fields. exact Henc.
  - destruct (elapse_fires_sole wait t _ Ht Hcell) as (Ht' & _ & _ & Hn');
      [lia|].
    split; assumption.
Qed.

Lemma input_encodes_after_its_wait_witness :
  encodes (run loaded_world [WidthInput "600"; Elapse 299])
  = encodes loaded_world.
Proof.
  destruct (input_encodes_after_its_wait loaded_world (WidthInput "600") 300
              eq_refl eq_refl) as [Hquiet _].
  apply Hquiet. lia.
Defined.

(** ** Checks over a range *)

Lemma Z_range_In (lo : Z) (n : nat) (z : Z) :
  lo <= z < lo + Z.of_nat n -> In z (Z_range lo n).
Proof.
  intros Hz. unfold Z_range. apply in_map_iff.
  exists (Z.to_nat (z - lo)). split; [lia|].
  apply in_seq. lia.
Qed.

Lemma forallb_Z_range (f : Z -> bool) (lo : Z) (n : nat) :
  forallb f (Z_range lo n) = true ->
  forall z, lo <= z < lo + Z.of_nat n -> f z = true.
Proof.
  intros Hall z Hz. rewrite forallb_forall in Hall.
  apply Hall, Z_range_In, Hz.
Qed.

Lemma whole_units_print_all :
  forallb (fun u => forallb (whole_units_print u) (Z_range 1 1023))
          (Z_range 0 4) = true.
Proof. vm_compute. reflexivity. Qed.

Lemma slider_value_reads_back_all :
  forallb slider_value_reads_back (Z_range 0 101) = true.
Proof. vm_compute. reflexivity. Qed.

(** ** File sizes, beyond the examples *)

(** X15: a whole number [q < 1024] of Bytes, KB, MB or GB is shown as [q]
    and the unit, without decimals, on every engine whose [Math.log] and
    [Math.pow] give the unit's index and the unit's size. *)
Theorem formatFileSize_whole_units `{Platform} (u q : Z) :
  0 <= u <= 3 -> 1 <= q < 1024 ->
  Math_floor (div (Math_log (of_Z (q * 1024 ^ u))) (Math_log (of_Z 1024)))
  = of_Z u ->
  Math_pow (of_Z 1024) (of_Z u) = of_Z (1024 ^ u) ->
  formatFileSize (of_Z (q * 1024 ^ u)) = digits q ++ " " ++ unit_name u.
Proof.
  intros Hu Hq Hlog Hpow.
  assert (Hchk : whole_units_print u q = true).
  { pose proof whole_units_print_all as Hall.
    apply (forallb_Z_range _ 0 4) with (z := u) in Hall; [|lia].
    apply (forallb_Z_range _ 1 1023) with (z := q) in Hall; [|lia].
    exact Hall. }
  unfold whole_units_print in Hchk.
  apply andb_prop in Hchk as [Hnz Hstr].
  apply negb_true_iff in Hnz. apply String.eqb_eq in Hstr.
  unfold formatFileSize. cbv zeta. rewrite Hnz, Hlog, Hpow, Hstr.
  unfold array_get. rewrite to_Z_of_Z by (change (2 ^ 53) with
    9007199254740992; lia).
  replace (u <? 0) with false by (symmetry; apply Z.ltb_ge; lia).
  unfold unit_name.
  assert (Hcases : u = 0 \/ u = 1 \/ u = 2 \/ u = 3) by lia.
  destruct Hcases as [-> | [-> | [-> | ->]]]; reflexivity.
Qed.

Lemma formatFileSize_whole_units_witness :
  formatFileSize (of_Z (3 * 1024 ^ 2)) = "3 MB".
Proof.
  apply (@formatFileSize_whole_units reference_platform 2 3);
    [lia | lia | vm_compute; reflexivity | vm_compute; reflexivity].
Defined.

(** X16: [sizes] has four entries.  When the index [Math.floor] returns is
    not one of 0..3 (a size of 1024^4 bytes or more, or one below 1) the
    text ends in the string [undefined]. *)
Theorem formatFileSize_unit_undefined `{Platform} (bytes : number) :
  strict_eq bytes (of_Z 0) = false ->
  (forall z,
     to_Z (Math_floor (div (Math_log bytes) (Math_log (of_Z 1024)))) = Some z ->
     z < 0 \/ 4 <= z) ->
  exists shown, formatFileSize bytes = shown ++ " undefined".
Proof.
  intros Hnz Hout. unfold formatFileSize. cbv zeta. rewrite Hnz.
  eexists. f_equal. f_equal. unfold array_get.
  destruct (to_Z _) as [z|]; [|reflexivity].
  destruct (Hout z eq_refl) as [Hneg|Hbig].
  - apply Z.ltb_lt in Hneg. rewrite Hneg. reflexivity.
  - replace (z <? 0) with false by (symmetry; apply Z.ltb_ge; lia).
    replace (nth_error _ _) with (@None string); [reflexivity|].
    symmetry. apply nth_error_None. cbn [List.length]. lia.
Qed.

Lemma formatFileSize_unit_undefined_witness :
  exists shown, formatFileSize (of_Z (2 ^ 40)) = shown ++ " undefined".
Proof.
  apply (@formatFileSize_unit_undefined reference_platform).
  - vm_compute. reflexivity.
  - intros z Hz. vm_compute in Hz. injection Hz as <-. right. lia.
Defined.

(** ** The quality slider *)

(** X17: a slider position [q] in 0..100 is stored as the number [q] and
    shown as [q%]; the move itself issues no encode, it only sets one
    more timer. *)
Theorem quality_input_sets_label `{Platform} (w : World) (q : Z) :
  0 <= q <= 100 ->
  quality (state (handle w (QualityInput (digits q)))) = of_Z q
  /\ qualityValue_text (elements (handle w (QualityInput (digits q))))
     = digits q ++ "%"
  /\ encodes (handle w (QualityInput (digits q))) = encodes w
  /\ List.length (timers (handle w (QualityInput (digits q))))
     = S (List.length (timers w)).
Proof.
  intros Hq. cbn [handle].
  destruct (qualitySlider_input_timers (digits q) w)
    as (Ht & _ & _ & _ & He & _).
  rewrite Ht, He, length_app. cbn [List.length].
  split; [|split; [|split; [reflexivity|lia]]].
  all: unfold qualitySlider_input, debounce.
  all: match goal with
       | |- context [executedFunction ?d ?w'] =>
           destruct (executedFunction_page d w') as (Hs & Hl & _);
           rewrite ?Hs, ?Hl
       end.
  all: fields.
  - apply parseInt_digits. lia.
  - pose proof (forallb_Z_range _ 0 101 slider_value_reads_back_all q) as Hr.
    unfold slider_value_reads_back in Hr.
    apply andb_prop in Hr as [_ Hr]; [|lia].
    apply String.eqb_eq in Hr. rewrite Hr. reflexivity.
Qed.

Lemma quality_input_sets_label_witness :
  qualityValue_text (elements (handle loaded_world (QualityInput "55")))
  = "55%".
Proof.
  pose proof (quality_input_sets_label loaded_world 55) as H.
  destruct H as (_ & Hl & _); [lia|]. exact Hl.
Defined.

(** ** Loading, step by step *)

Lemma handle_FileChosen_state `{Platform} (w : World) (file : File) :
  prefix "image/" (file_type file) = true ->
  state (handle w (FileChosen file)) = set_originalFile (Some file) (state w)
  /\ elements (handle w (FileChosen file)) = elements w
  /\ pendingEncodes (handle w (FileChosen file)) = pendingEncodes w.
Proof.
  intros Hty. cbn [handle]. unfold handleFile. rewrite Hty. repeat split.
Qed.

(** [img.onload] while a file is held. *)
Lemma img_onload_with_file `{Platform} (result : string) (img : Image)
      (w : World) (f : File) :
  originalFile (state w) = Some f ->
  compressionPanel_active (elements (img_onload result img w)) = true
  /\ uploadZone_display (elements (img_onload result img w)) = "none"
  /\ originalPreview_src (elements (img_onload result img w)) = result
  /\ originalInfo_fileSize (elements (img_onload result img w))
     = formatFileSize (of_Z (file_size f))
  /\ effects (img_onload result img w) = effects w
  /\ exists r,
       encodes (img_onload result img w) = (encodes w ++ [r])%list
       /\ req_format r = outputFormat (state w).
Proof.
  intros Hf. unfold img_onload, updateOriginalInfo. fields. rewrite Hf.
  cbn [bind settle].
  rewrite compressImage_elements, compressImage_effects. fields.
  repeat split.
  match goal with
  | |- context [compressImage ?w'] =>
      destruct (compressImage_loaded w' img eq_refl) as [Henc _]
  end.
  rewrite Henc. fields. eexists. split; reflexivity.
Qed.

(** X18: a file of an image type, read and decoded with no other decode
    under way, shows its data URL in the original preview and its size in
    the original info, hides the upload zone, shows the compression panel
    and issues exactly one encode, in the format the page had before. *)
Theorem load_shows_panel_and_encodes_once `{Platform} (w : World)
        (file : File) (result : string) (img : Image) :
  prefix "image/" (file_type file) = true ->
  decodes w = [] ->
  let w' := run w (load file result img) in
  compressionPanel_active (elements w') = true
  /\ uploadZone_display (elements w') = "none"
  /\ originalPreview_src (elements w') = result
  /\ originalInfo_fileSize (elements w')
     = formatFileSize (of_Z (file_size file))
  /\ effects w' = effects w
  /\ exists r,
       encodes w' = (encodes w ++ [r])%list
       /\ req_format r = outputFormat (state w).
Proof.
  intros Hty Hdec w'. subst w'. unfold load. rewrite !run_cons, run_nil.
  generalize (handle_FileChosen_image w file Hty),
    (handle_FileChosen_state w file Hty).
  generalize (handle w (FileChosen file)).
  intros wa (Har & Had & Hae & Haf) (Has & _ & _).
  rewrite (handle_ReaderLoaded result wa (reads w) Har).
  generalize (reader_onload_fields result (set_reads (reads w) wa)).
  generalize (reader_onload result (set_reads (reads w) wa)).
  intros wb (Hbd & Hbs & _ & Hbe & Hbf).
  cbn [decodes state encodes effects set_reads] in Hbd, Hbs, Hbe, Hbf.
  rewrite Had, Hdec in Hbd. cbn [app] in Hbd.
  rewrite (handle_ImageLoaded wb img result [] Hbd).
  assert (Hf : originalFile (state (set_decodes [] wb)) = Some file)
    by (fields; rewrite Hbs, Has; reflexivity).
  destruct (img_onload_with_file result img _ file Hf)
    as (Hp & Hz & Hsrc & Hsize & Heff & r & Henc & Hfmt).
  rewrite Hp, Hz, Hsrc, Hsize, Heff. fields. rewrite Hbf, Haf.
  repeat split. exists r. rewrite Henc, Hfmt. fields.
  rewrite Hbe, Hae, Hbs, Has. split; reflexivity.
Qed.

Lemma load_shows_panel_and_encodes_once_witness :
  uploadZone_display
    (elements (run initial_world (load photo "data:" photo_image)))
  = "none".
Proof.
  pose proof (load_shows_panel_and_encodes_once initial_world photo "data:"
                photo_image eq_refl eq_refl) as (_ & Hz & _).
  exact Hz.
Defined.

(** X19: [updateOriginalInfo] reads the file held when the image arrives,
    not the one the image was read from: when a second file is chosen
    before the first has loaded, the first image is shown with the second
    file's size. *)
Theorem second_file_size_shown_for_first_image `{Platform} (w : World)
        (f1 f2 : File) (result : string) (img : Image) :
  prefix "image/" (file_type f1) = true ->
  prefix "image/" (file_type f2) = true ->
  decodes w = [] ->
  let w' := run w [FileChosen f1; FileChosen f2; ReaderLoaded result;
                   ImageLoaded img] in
  originalImage (state w') = Some img
  /\ originalPreview_src (elements w') = result
  /\ originalFile (state w') = Some f2
  /\ originalInfo_fileSize (elements w')
     = formatFileSize (of_Z (file_size f2))
  /\ reads w' = S (reads w).
Proof.
  intros Hty1 Hty2 Hdec w'. subst w'. rewrite !run_cons, run_nil.
  generalize (handle_FileChosen_image w f1 Hty1).
  generalize (handle w (FileChosen f1)).
  intros wa (Har & Had & _ & _).
  generalize (handle_FileChosen_image wa f2 Hty2),
    (handle_FileChosen_state wa f2 Hty2).
  generalize (handle wa (FileChosen f2)).
  intros wb (Hbr & Hbd & _ & _) (Hbs & _ & _).
  rewrite Har in Hbr.
  rewrite (handle_ReaderLoaded result wb (S (reads w)) Hbr).
  generalize (reader_onload_fields result (set_reads (S (reads w)) wb)).
  assert (Hcr : reads (reader_onload result (set_reads (S (reads w)) wb))
                = S (reads w)) by reflexivity.
  revert Hcr.
  generalize (reader_onload result (set_reads (S (reads w)) wb)).
  intros wc Hcr (Hcd & Hcs & _ & _ & _).
  cbn [decodes state set_reads] in Hcd, Hcs.
  rewrite Hbd, Had, Hdec in Hcd. cbn [app] in Hcd.
  rewrite (handle_ImageLoaded wc img result [] Hcd).
  assert (Hf : originalFile (state (set_decodes [] wc)) = Some f2)
    by (fields; rewrite Hcs, Hbs; reflexivity).
  destruct (img_onload_with_file result img _ f2 Hf)
    as (_ & _ & Hsrc & Hsize & _).
  rewrite Hsrc, Hsize, img_onload_state. fields.
  rewrite Hcs, Hbs. repeat split.
  unfold img_onload, updateOriginalInfo. fields. rewrite Hcs, Hbs. fields.
  cbn [bind settle]. unfold compressImage. fields. unfold toBlob. fields.
  exact Hcr.
Qed.

Lemma second_file_size_shown_for_first_image_witness :
  originalInfo_fileSize
    (elements (run initial_world
                   [FileChosen photo; FileChosen icon;
                    ReaderLoaded "data:"; ImageLoaded photo_image]))
  = formatFileSize (of_Z 2048).
Proof.
  pose proof (second_file_size_shown_for_first_image initial_world photo
                icon "data:" photo_image eq_refl eq_refl eq_refl)
    as (_ & _ & _ & Hs & _).
  exact Hs.
Defined.

(** X20: on any page reached from one with no image, whenever an image is
    held, [state.aspectRatio] is that image's width over its height,
    computed in doubles. *)
Theorem stored_ratio_is_image_ratio `{Platform} (w0 : World)
        (es : list Event) (img : Image) :
  originalImage (state w0) = None ->
  originalImage (state (run w0 es)) = Some img ->
  aspectRatio (state (run w0 es))
  = div (of_Z (img_width img)) (of_Z (img_height img)).
Proof.
  intros Hnone Himg.
  apply (run_ratio_consistent es w0); [|exact Himg].
  intros img' Himg'. congruence.
Qed.

Lemma stored_ratio_is_image_ratio_witness :
  aspectRatio (state (run initial_world (load photo "data:" photo_image)))
  = div (of_Z 1200) (of_Z 800).
Proof.
  apply (stored_ratio_is_image_ratio initial_world
           (load photo "data:" photo_image) photo_image);
    vm_compute; reflexivity.
Defined.

(** ** The upload zone *)

(** X21: a drop always removes the zone's highlight and never raises the
    alert.  A dropped file of an image type is handled as a chosen one
    is: it becomes the file held and its read starts.  A file of any
    other type, or a drop without a file, leaves the page as it was. *)
Theorem drop_clears_highlight_and_never_alerts `{Platform} (c : Chrome)
        (w : World) (file : option File) :
  uploadZone_dragover (fst (uploadZone_drop file (c, w))) = false
  /\ effects (snd (uploadZone_drop file (c, w))) = effects w
  /\ elements (snd (uploadZone_drop file (c, w))) = elements w
  /\ encodes (snd (uploadZone_drop file (c, w))) = encodes w
  /\ (forall f,
        file = Some f -> prefix "image/" (file_type f) = true ->
        snd (uploadZone_drop file (c, w)) = handle w (FileChosen f)
        /\ originalFile (state (snd (uploadZone_drop file (c, w))))
           = Some f
        /\ reads (snd (uploadZone_drop file (c, w))) = S (reads w))
  /\ (forall f,
        file = Some f -> prefix "image/" (file_type f) = false ->
        snd (uploadZone_drop file (c, w)) = w)
  /\ (file = None -> snd (uploadZone_drop file (c, w)) = w).
Proof.
  unfold uploadZone_drop. cbn [fst snd uploadZone_dragover
                               set_uploadZone_dragover].
  split; [reflexivity|].
  assert (Hsame : effects (handle w (Dropped file)) = effects w
                  /\ elements (handle w (Dropped file)) = elements w
                  /\ encodes (handle w (Dropped file)) = encodes w).
  { destruct file as [f|]; cbn [handle]; [|repeat split].
    destruct (prefix "image/" (file_type f)) eqn:Hty; [|repeat split].
    unfold handleFile. rewrite Hty. repeat split. }
  destruct Hsame as (Heff & Hel & Henc).
  split; [exact Heff|]. split; [exact Hel|]. split; [exact Henc|].
  split; [|split].
  - intros f -> Hty. cbn [handle]. rewrite Hty.
    split; [reflexivity|]. unfold handleFile. rewrite Hty.
    split; reflexivity.
  - intros f -> Hty. cbn [handle]. rewrite Hty. reflexivity.
  - intros ->. reflexivity.
Qed.

(** ** Navigation *)

Lemma nth_error_update_nth {A} (i j : nat) (v : A) (l : list A) :
  nth_error (update_nth i v l) j
  = if Nat.eqb j i then option_map (fun _ => v) (nth_error l j)
    else nth_error l j.
Proof.
  revert i j. induction l as [|a l IH]; intros i j.
  - destruct i, j; cbn [update_nth nth_error Nat.eqb option_map];
      try reflexivity; destruct (Nat.eqb _ _); reflexivity.
  - destruct i as [|i], j as [|j]; cbn [update_nth nth_error Nat.eqb];
      try reflexivity.
    apply IH.
Qed.

(** X22: a click on a navigation link whose [href] selects an element or
    none leaves that link, and only that link, marked active, and closes
    the menu only when a target was found.  When the [href] is no
    selector, or a target is found on a page without a [.nav-links]
    element, the listener throws before the marks are updated. *)
Theorem nav_click_marks_only_the_clicked_link (c : Chrome) (i : nat)
        (link : NavLink) :
  nth_error (nav_links c) i = Some link ->
  (link_target link = Malformed
   \/ link_target link = Found /\ navLinks_active c = None ->
   nav_links (navLink_click i c) = nav_links c
   /\ navLinks_active (navLink_click i c) = navLinks_active c
   /\ In UncaughtError (nav_effects (navLink_click i c)))
  /\ (link_target link = Missing
      \/ link_target link = Found /\ navLinks_active c <> None ->
      (forall j l,
         nth_error (nav_links c) j = Some l ->
         nth_error (nav_links (navLink_click i c)) j
         = Some {| link_target := link_target l;
                   link_active := Nat.eqb j i |})
      /\ List.length (nav_links (navLink_click i c))
         = List.length (nav_links c)
      /\ navLinks_active (navLink_click i c)
         = match link_target link with
           | Found => Some false
           | _ => navLinks_active c
           end).
Proof.
  intros Hlink. unfold navLink_click. rewrite Hlink. split.
  - intros [Hbad|[Hfound Hnone]].
    + rewrite Hbad. cbn. repeat split. apply in_or_app. right. left.
      reflexivity.
    + rewrite Hfound. cbn [nav_emit navLinks_active]. rewrite Hnone.
      cbn [nav_emit nav_links navLinks_active nav_effects].
      split; [reflexivity|]. split; [exact Hnone|].
      apply in_or_app. right. left. reflexivity.
  - intros Hgood.
    assert (Hmark : forall c0,
              nav_links c0 = nav_links c ->
              (forall j l,
                 nth_error (nav_links c) j = Some l ->
                 nth_error (nav_links (update_active i link c0)) j
                 = Some {| link_target := link_target l;
                           link_active := Nat.eqb j i |})
              /\ List.length (nav_links (update_active i link c0))
                 = List.length (nav_links c)
              /\ navLinks_active (update_active i link c0)
                 = navLinks_active c0).
    { intros c0 Hc0. unfold update_active. cbn [nav_links set_nav_links
        navLinks_active]. rewrite Hc0. split; [|split; [|reflexivity]].
      - intros j l Hl. rewrite nth_error_update_nth, nth_error_map, Hl.
        cbn [option_map]. destruct (Nat.eqb_spec j i) as [->|Hne].
        + rewrite Hlink in Hl. injection Hl as <-. reflexivity.
        + reflexivity.
      - clear. revert i. induction (nav_links c) as [|a l IH]; intros i;
          [destruct i; reflexivity|].
        destruct i; cbn [map update_nth List.length]; [now rewrite length_map|].
        now rewrite IH. }
    destruct Hgood as [Hmiss|[Hfound Hsome]].
    + rewrite Hmiss. apply Hmark. reflexivity.
    + rewrite Hfound. cbn [nav_emit navLinks_active].
      destruct (navLinks_active c) as [a|]; [|congruence].
      apply (Hmark (set_navLinks_active (Some false)
                      (nav_emit (ScrollIntoView i) c))). reflexivity.
Qed.

Lemma nav_click_marks_only_the_clicked_link_witness :
  nav_links (navLink_click 2 sample_chrome) = nav_links sample_chrome
  /\ nth_error (nav_links (navLink_click 1 sample_chrome)) 0
     = Some {| link_target := Found; link_active := false |}.
Proof.
  split.
  - destruct (nav_click_marks_only_the_clicked_link sample_chrome 2
                {| link_target := Malformed; link_active := false |}
                eq_refl) as [Hbad _].
    apply Hbad. left. reflexivity.
  - destruct (nav_click_marks_only_the_clicked_link sample_chrome 1
                {| link_target := Missing; link_active := false |}
                eq_refl) as [_ Hgood].
    destruct Hgood as (Hj & _); [left; reflexivity|].
    apply (Hj 0%nat {| link_target := Found; link_active := true |}).
    reflexivity.
Defined.
